(** * acstore: the SQLite attribute container store

    A shallow embedding of [acstore/containers/interface.py],
    [acstore/containers/manager.py] and [acstore/sqlite_store.py], and the
    properties of the store engine that are stated about them.

    Conventions of the embedding:
    - a Python [str] is a [string], the bytes of its UTF-8 form; the string
      primitives below are those of Python on ASCII strings
      ([PyStr.is_ascii]), and the properties that go through [str.lower()]
      or [int()] are stated for ASCII strings; a Python [int] is a [Z];
    - a Python [dict] is a [gmap], except the [OrderedDict] of the read
      cache, which is an association list whose head is the first entry;
    - an attribute that may be [None] is an [option];
    - a function that may raise returns a [result]; a method that mutates
      [self] before it raises returns the mutated state next to the
      result. *)

From Stdlib Require Import ZArith String Ascii List DecimalString DecimalZ Lia.
From stdpp Require Import gmap strings list.

Local Open Scope string_scope.

(** ** Python exceptions *)

(** The messages of the [IOError]s raised by the store, one constructor per
    raise site family. *)
Inductive io_error : Type :=
| MissingFormatVersion
| InvalidFormatVersion
| TooOldToWrite (format_version : Z)
| TooOldToRead (format_version : Z)
| TooNewToRead (format_version : Z)
| UnsupportedSerializationFormat
| UnsupportedContainerType (container_type : string)
| UnsupportedAttribute (container_type name data_type : string)
| UnsupportedDataType (data_type : string)
| UnableToQuery
| ClosedStoreRead
| ClosedStoreWrite
| ReadOnlyStore
| AlreadyOpened
| AlreadyClosed.

(** The exception classes of [sqlite3] that the model of the database
    raises. [InterfaceError] is not a [DatabaseError]; the other three are. *)
Inductive sqlite3_error : Type :=
| InterfaceError
| OperationalError
| ProgrammingError
| NotADatabaseError.

Inductive exception : Type :=
| IOError (e : io_error)
| ValueError (msg : string)
| TypeError
| KeyError (key : string)
| AttributeError
| IndexError
| UnboundLocalError (variable : string)
| OverflowError
| Sqlite3Error (e : sqlite3_error).

Inductive result (A : Type) : Type :=
| Return (a : A)
| Raise (e : exception).
Arguments Return {A} a.
Arguments Raise {A} e.

(** ** Python string primitives *)

Module PyStr.

Definition dot : ascii := "."%char.
Definition double_quote : ascii := "034"%char.

(** [str.split(sep)] for a one character separator. *)
Fixpoint split (sep : ascii) (s : string) : list string :=
  match s with
  | EmptyString => [EmptyString]
  | String c s' =>
      if Ascii.eqb c sep then EmptyString :: split sep s'
      else match split sep s' with
           | [] => [String c EmptyString]
           | h :: t => String c h :: t
           end
  end.

(** [sep.join(parts)]. *)
Fixpoint join (sep : string) (parts : list string) : string :=
  match parts with
  | [] => EmptyString
  | [p] => p
  | p :: rest => p +:+ sep +:+ join sep rest
  end.

(** [str.lower()] of an ASCII string: the letters [A] to [Z] are lowered,
    every other byte is left as it is. On a string that is not ASCII
    [str.lower()] also lowers the capitals of other alphabets, which are
    not modelled. *)
Definition is_upper (c : ascii) : bool :=
  let n := nat_of_ascii c in (65 <=? n)%nat && (n <=? 90)%nat.

Definition lower_char (c : ascii) : ascii :=
  if is_upper c then ascii_of_nat (nat_of_ascii c + 32) else c.

Fixpoint lower (s : string) : string :=
  match s with
  | EmptyString => EmptyString
  | String c s' => String (lower_char c) (lower s')
  end.

(** The string has one of the letters [A] to [Z]: for an ASCII string,
    it has an upper case letter. *)
Fixpoint has_upper (s : string) : bool :=
  match s with
  | EmptyString => false
  | String c s' => is_upper c || has_upper s'
  end.

Fixpoint contains (c : ascii) (s : string) : bool :=
  match s with
  | EmptyString => false
  | String c' s' => Ascii.eqb c' c || contains c s'
  end.

(** A string of ASCII characters only. *)
Definition is_ascii_char (c : ascii) : bool := (nat_of_ascii c <? 128)%nat.

Fixpoint is_ascii (s : string) : bool :=
  match s with
  | EmptyString => true
  | String c s' => is_ascii_char c && is_ascii s'
  end.

(** The characters [int()] skips around the number of an ASCII string: the
    space and the codes 9 to 13. The codes 28 to 31, which
    [str.isspace()] takes as blanks, are not skipped. *)
Definition is_space (c : ascii) : bool :=
  let n := nat_of_ascii c in
  (n =? 32)%nat || ((9 <=? n)%nat && (n <=? 13)%nat).

Fixpoint lstrip (s : string) : string :=
  match s with
  | EmptyString => EmptyString
  | String c s' => if is_space c then lstrip s' else s
  end.

Fixpoint rev_onto (s acc : string) : string :=
  match s with
  | EmptyString => acc
  | String c s' => rev_onto s' (String c acc)
  end.

Definition reverse (s : string) : string := rev_onto s EmptyString.

Definition strip (s : string) : string :=
  reverse (lstrip (reverse (lstrip s))).

Definition digit_of (c : ascii) : option (Decimal.uint -> Decimal.uint) :=
  match c with
  | "0"%char => Some Decimal.D0 | "1"%char => Some Decimal.D1
  | "2"%char => Some Decimal.D2 | "3"%char => Some Decimal.D3
  | "4"%char => Some Decimal.D4 | "5"%char => Some Decimal.D5
  | "6"%char => Some Decimal.D6 | "7"%char => Some Decimal.D7
  | "8"%char => Some Decimal.D8 | "9"%char => Some Decimal.D9
  | _ => None
  end.

Fixpoint all_chars (p : ascii -> bool) (s : string) : bool :=
  match s with
  | EmptyString => true
  | String c s' => p c && all_chars p s'
  end.

Definition is_digit (c : ascii) : bool :=
  match digit_of c with Some _ => true | None => false end.

(** The digits of an integer literal: decimal digits, with single
    underscores allowed between two digits. [after_digit] tells whether
    the previous character was a digit. *)
Fixpoint digits (after_digit : bool) (s : string) : option Decimal.uint :=
  match s with
  | EmptyString => if after_digit then Some Decimal.Nil else None
  | String c s' =>
      match digit_of c with
      | Some d => d <$> digits true s'
      | None =>
          if Ascii.eqb c "_"%char && after_digit then digits false s'
          else None
      end
  end.

(** [int(s, 10)] of an ASCII string: [None] stands for the [ValueError].
    A string that is not ASCII gives [None] here, where [int()] takes the
    decimal digits and the blanks of other alphabets too; the limit on the
    number of digits of the interpreter (4300 by default) is not
    modelled. *)
Definition int (s : string) : option Z :=
  match strip s with
  | String "-"%char r => (fun d => Z.of_int (Decimal.Neg d)) <$> digits false r
  | String "+"%char r => (fun d => Z.of_int (Decimal.Pos d)) <$> digits false r
  | r => (fun d => Z.of_int (Decimal.Pos d)) <$> digits false r
  end.

(** [f'{n:d}'] and [str(n)] of an [int]. *)
Definition format_d (n : Z) : string := NilZero.string_of_int (Z.to_int n).

(** Python truthiness of a [str]. *)
Definition truthy (s : string) : bool :=
  match s with EmptyString => false | _ => true end.

End PyStr.

(** ** [acstore/containers/interface.py]: the identifier *)

Module Identifier.

Record AttributeContainerIdentifier : Type := mkIdentifier {
  name : option string;
  sequence_number : option Z
}.

(** [AttributeContainerIdentifier.__init__]; both arguments default to
    [None]. *)
Definition init (name : option string) (sequence_number : option Z) :=
  mkIdentifier name sequence_number.

(** [CopyFromString]: the tuple unpacking raises [ValueError] before any
    assignment when the split does not give two parts; [self.name] is
    already assigned when [int()] raises. *)
Definition CopyFromString (self : AttributeContainerIdentifier)
    (identifier_string : string)
  : AttributeContainerIdentifier * result unit :=
  match PyStr.split PyStr.dot identifier_string with
  | [name'; sequence_number'] =>
      let self := mkIdentifier (Some name') (sequence_number self) in
      match PyStr.int sequence_number' with
      | Some n => (mkIdentifier (name self) (Some n), Return tt)
      | None => (self, Raise (ValueError "invalid literal for int()"))
      end
  | _ => (self, Raise (ValueError "unpack"))
  end.

(** [CopyToString]: [None] when either field is [None]. *)
Definition CopyToString (self : AttributeContainerIdentifier)
  : option string :=
  match name self, sequence_number self with
  | Some n, Some s => Some (n +:+ "." +:+ PyStr.format_d s)
  | _, _ => None
  end.

End Identifier.

(** ** [acstore/containers/manager.py]: the container class registry *)

Module Manager.

(** An attribute container class: its [CONTAINER_TYPE] and, when the
    class declares one, its [SCHEMA] (attribute name to data type). *)
Record container_class : Type := mkClass {
  CONTAINER_TYPE : string;
  SCHEMA : option (gmap string string)
}.

(** The class level dictionary [_attribute_container_classes]. *)
Abbreviation registry := (gmap string container_class).

(** [CreateAttributeContainer] up to the constructor call: the class to
    instantiate. *)
Definition CreateAttributeContainer (classes : registry)
    (container_type : string) : result container_class :=
  match classes !! container_type with
  | None => Raise (ValueError "Unsupported container type")
  | Some container_class => Return container_class
  end.

Definition DeregisterAttributeContainer (classes : registry)
    (attribute_container_class : container_class)
  : registry * result unit :=
  let container_type := PyStr.lower (CONTAINER_TYPE attribute_container_class) in
  match classes !! container_type with
  | None => (classes, Raise (KeyError (CONTAINER_TYPE attribute_container_class)))
  | Some _ => (delete container_type classes, Return tt)
  end.

(** [GetContainerTypes]; the order of the keys is that of the map. *)
Definition GetContainerTypes (classes : registry) : list string :=
  (map_to_list classes).*1.

Definition GetSchema (classes : registry) (container_type : string)
  : result (gmap string string) :=
  match classes !! container_type with
  | None => Raise (ValueError "Unsupported container type")
  | Some container_class => Return (default ∅ (SCHEMA container_class))
  end.

Definition RegisterAttributeContainer (classes : registry)
    (attribute_container_class : container_class)
  : registry * result unit :=
  let container_type := PyStr.lower (CONTAINER_TYPE attribute_container_class) in
  match classes !! container_type with
  | Some _ => (classes, Raise (KeyError (CONTAINER_TYPE attribute_container_class)))
  | None => (<[container_type := attribute_container_class]> classes, Return tt)
  end.

Fixpoint RegisterAttributeContainers (classes : registry)
    (attribute_container_classes : list container_class)
  : registry * result unit :=
  match attribute_container_classes with
  | [] => (classes, Return tt)
  | c :: rest =>
      match RegisterAttributeContainer classes c with
      | (classes', Return _) => RegisterAttributeContainers classes' rest
      | (classes', Raise e) => (classes', Raise e)
      end
  end.

(** The calls that change the registry, and the registries that can be
    built with them from the empty class dictionary. *)
Inductive call : Type :=
| Register (c : container_class)
| Deregister (c : container_class).

Definition apply_call (classes : registry) (c : call) : registry :=
  match c with
  | Register cls => (RegisterAttributeContainer classes cls).1
  | Deregister cls => (DeregisterAttributeContainer classes cls).1
  end.

Definition run (calls : list call) : registry :=
  fold_left apply_call calls ∅.

Definition class_of_call (c : call) : container_class :=
  match c with Register cls | Deregister cls => cls end.

(** Calls on classes whose container types are ASCII names. *)
Definition ascii_calls (calls : list call) : bool :=
  forallb (fun c => PyStr.is_ascii (CONTAINER_TYPE (class_of_call c))) calls.

(** The UTF-8 form of U+1D400, MATHEMATICAL BOLD CAPITAL A: an upper case
    letter ([str.isupper()] holds of it) that has no lower case form, so
    that [str.lower()] leaves it as it is. *)
Definition bold_capital_a : string :=
  String "240" (String "157" (String "144" (String "128" EmptyString))).

(** Every entry of the registry sits under the lower case form of the
    container type of its class. *)
Definition keyed_by_lower (classes : registry) : Prop :=
  forall k c, classes !! k = Some c -> k = PyStr.lower (CONTAINER_TYPE c).

End Manager.

(** ** [PythonAST2SQL]: the filter expression translator *)

Module AST2SQL.

(** The expression nodes of Python's [ast] module. *)
Inductive boolop : Type := And_ | Or_.

Inductive cmpop : Type :=
| Eq_ | NotEq | Lt_ | LtE | Gt_ | GtE | Is | IsNot | In_ | NotIn.

Inductive operator : Type :=
| Add | Sub | Mult | MatMult | Div | Mod | Pow | LShift | RShift
| BitOr | BitXor | BitAnd | FloorDiv.

Inductive unaryop : Type := Invert | Not_ | UAdd | USub.

(** The value of an [ast.Constant]. A float or an imaginary number is
    carried as the text [str()] gives for it, and so is a value that is no
    [str], no number, no [bool] and not [None] (bytes, [...]). *)
Inductive constant : Type :=
| CStr (s : string)
| CInt (n : Z)
| CFloat (str_value : string)
| CBool (b : bool)
| CNone
| COther (str_value : string).

#[local] Unset Elimination Schemes.
Inductive expr : Type :=
| BoolOp (op : boolop) (values : list expr)
| Compare (left : expr) (ops : list cmpop) (comparators : list expr)
| Constant (value : constant)
| Name (id : string)
| BinOp (left : expr) (op : operator) (right : expr)
| UnaryOp (op : unaryop) (operand : expr)
| Call (func : expr) (args : list expr)
| Attribute (value : expr) (attr : string)
| Subscript (value : expr) (slice : expr)
| IfExp (test body orelse : expr)
| Lambda (body : expr)
| ListExpr (elts : list expr)
| TupleExpr (elts : list expr)
| SetExpr (elts : list expr).
#[local] Set Elimination Schemes.

(** [str(value)] of a constant that is not a [str]. *)
Definition str_of_constant (c : constant) : string :=
  match c with
  | CStr s => s
  | CInt n => PyStr.format_d n
  | CFloat s => s
  | CBool true => "True"
  | CBool false => "False"
  | CNone => "None"
  | COther s => s
  end.

Definition quoted (s : string) : string :=
  String PyStr.double_quote (s +:+ String PyStr.double_quote EmptyString).

(** [PythonAST2SQL]. The [raise TypeError(ast_node)] of an operator that
    is neither [ast.And] nor [ast.Or] has no counterpart: [boolop] has no
    third constructor. [ast.parse] builds [ast.Constant] for every
    literal, so the [ast.Num] and [ast.Str] tests, which come after the
    [ast.Constant] one, never see a node of their own. *)
Fixpoint PythonAST2SQL (ast_node : expr) : result string :=
  match ast_node with
  | BoolOp op values =>
      let operand :=
        match op with And_ => " AND " | Or_ => " OR " end in
      let parts :=
        (fix each (nodes : list expr) : result (list string) :=
           match nodes with
           | [] => Return []
           | ast_node_value :: rest =>
               match PythonAST2SQL ast_node_value with
               | Raise e => Raise e
               | Return s =>
                   match each rest with
                   | Raise e => Raise e
                   | Return l => Return (s :: l)
                   end
               end
           end) values in
      match parts with
      | Raise e => Raise e
      | Return l => Return (PyStr.join operand l)
      end
  | Compare left_ ops comparators =>
      match ops with
      | [op] =>
          let operator :=
            match op with
            | Eq_ => Some " = "
            | NotEq => Some " <> "
            | _ => None
            end in
          match operator with
          | None => Raise TypeError
          | Some operator =>
              match comparators with
              | [comparator] =>
                  match PythonAST2SQL left_ with
                  | Raise e => Raise e
                  | Return sql_left =>
                      match PythonAST2SQL comparator with
                      | Raise e => Raise e
                      | Return sql_right =>
                          Return (PyStr.join operator [sql_left; sql_right])
                      end
                  end
              | _ => Raise TypeError
              end
          end
      | _ => Raise TypeError
      end
  | Constant (CStr s) => Return (quoted s)
  | Constant value => Return (str_of_constant value)
  | Name id => Return id
  | _ => Raise TypeError
  end.

(** The node shapes the translator accepts: conjunction, disjunction,
    a single equality or inequality, a name, a constant of any kind
    ([None], [True] and bytes as well as strings and numbers); all the way
    down. *)
Fixpoint supported (e : expr) : bool :=
  match e with
  | BoolOp _ values => forallb supported values
  | Compare left_ [Eq_] [comparator] | Compare left_ [NotEq] [comparator] =>
      supported left_ && supported comparator
  | Constant _ | Name _ => true
  | _ => false
  end.

(** The shapes the specification names for the translator: conjunction,
    disjunction, a single equality or inequality, a name, and a literal
    that is a string or a number. *)
Definition named_literal (c : constant) : bool :=
  match c with
  | CStr _ | CInt _ | CFloat _ => true
  | CBool _ | CNone | COther _ => false
  end.

Fixpoint named_shape (e : expr) : bool :=
  match e with
  | BoolOp _ values => forallb named_shape values
  | Compare left_ [Eq_] [comparator] | Compare left_ [NotEq] [comparator] =>
      named_shape left_ && named_shape comparator
  | Constant c => named_literal c
  | Name _ => true
  | _ => false
  end.

(** The expression [a == 1 and b == "x"] as [ast.parse] builds it. *)
Definition example_filter : expr :=
  BoolOp And_
    [Compare (Name "a") [Eq_] [Constant (CInt 1)];
     Compare (Name "b") [Eq_] [Constant (CStr "x")]].

End AST2SQL.

(** ** [acstore/sqlite_store.py]: values, the database and the objects

    What the model takes for granted: the statements are those of SQLite
    for container types and attribute names that are plain names
    ([plain_name]), on tables that hold no constraint but the primary key
    and whose values have the storage class of their column; the store
    has no
    storage profiler (the [_storage_profiler] of the base class is
    [None]); one connection works on the file at a time. *)

Module Store.
Import Identifier Manager.

(** Runtime values of attributes. [None] is the absent value of an
    [option pyvalue]; a [PyObject] is a value of another Python type that
    [int()] refuses and sqlite3 does not bind (a list, a dict, an object of
    a class of the caller). Floats are not modelled. *)
Inductive pyvalue : Type :=
| PyBool (b : bool)
| PyInt (n : Z)
| PyStr (s : string)
| PyIdentifier (i : AttributeContainerIdentifier)
| PyObject (repr : string).

(** Values sqlite3 stores and returns; [NULL] is the absent value of an
    [option sqlvalue]. Column affinity conversions are not modelled. *)
Inductive sqlvalue : Type :=
| SqlInteger (n : Z)
| SqlText (s : string).

#[global] Instance sqlvalue_eq_dec : EqDecision sqlvalue.
Proof. solve_decision. Defined.

Definition py_of_sql (v : sqlvalue) : pyvalue :=
  match v with
  | SqlInteger n => PyInt n
  | SqlText s => PyStr s
  end.

(** The integers SQLite stores: 64 bits, signed. *)
Definition sqlite_min_integer : Z := -9223372036854775808.
Definition sqlite_max_integer : Z := 9223372036854775807.

Definition is_sqlite_integer (n : Z) : bool :=
  (sqlite_min_integer <=? n)%Z && (n <=? sqlite_max_integer)%Z.

(** How sqlite3 binds a Python value to a [?]: an [int] that does not fit
    the 64 bits of an SQLite integer is refused with [OverflowError], a
    value of a type sqlite3 does not bind with [sqlite3.ProgrammingError]
    (Python 3.11 and later; [sqlite3.InterfaceError] before). *)
Definition bind_parameter (v : option pyvalue) : result (option sqlvalue) :=
  match v with
  | None => Return None
  | Some (PyBool b) => Return (Some (SqlInteger (if b then 1 else 0)))
  | Some (PyInt n) =>
      if is_sqlite_integer n then Return (Some (SqlInteger n))
      else Raise OverflowError
  | Some (PyStr s) => Return (Some (SqlText s))
  | Some _ => Raise (Sqlite3Error ProgrammingError)
  end.

(** An attribute container object: its class, the attributes set on it
    and the identifier [SetIdentifier] stores. *)
Record AttributeContainer : Type := mkContainer {
  class_of : container_class;
  attributes : gmap string pyvalue;
  _identifier : AttributeContainerIdentifier
}.

(** Containers are Python objects, shared by reference between the caller,
    the read cache and the engine: an [objref] is the position of the
    object in the list of all objects. *)
Definition objref : Type := nat.

(** A table of a container type: its column definitions and its rows; the
    row at position [i] has [_identifier] (the rowid) [i + 1], since rows
    are only ever appended. A row maps a column to its value, an absent
    column being [NULL]. *)
Record table : Type := mkTable {
  columns : list (string * string);
  rows : list (gmap string sqlvalue)
}.

(** A database: its tables by name, the table [metadata] among them. *)
Record database : Type := mkDatabase {
  tables : gmap string table
}.

(** What is at a path: a file sqlite3 does not recognise, or a database. *)
Inductive file : Type :=
| NotADatabase
| DatabaseFile (db : database).

(** The statements handed to [execute], kept as a log of the connection. *)
Inductive statement : Type :=
| CREATE_TABLE (name : string)
| INSERT_INTO (name : string) (column_names : list string)
    (number_of_rows : nat)
| UPDATE (name : string) (column_names : list string) (rowid : Z)
| SELECT_ROW (name : string) (column_names : list string) (rowid : Z)
| SELECT_MAX_ROWID (name : string)
| SELECT_HAS_TABLE (name : string)
| SELECT_METADATA
| CREATE_METADATA_TABLE
| INSERT_METADATA (key value : string)
| UPDATE_METADATA_FORMAT_VERSION (value : Z).

(** A connection with its cursor: the path it was opened on, whether it
    was opened with [mode=ro], the database as this connection sees it and
    the statements executed so far. *)
Record connection : Type := mkConnection {
  conn_path : string;
  conn_read_only : bool;
  conn_db : database;
  executed : list statement
}.

(** One element of a per type write cache list: the list starts with the
    column names and goes on with one list of values per buffered row. *)
Inductive write_cache_item : Type :=
| ColumnNames (column_names : list string)
| RowValues (values : list (option pyvalue)).

Record SQLiteAttributeContainerStore : Type := mkStore {
  _attribute_container_sequence_numbers : gmap string Z;
  _attribute_container_cache : list (string * objref);
  _connection : option connection;
  _is_open : bool;
  _read_only : bool;
  _write_cache : gmap string (list write_cache_item);
  format_version : Z;
  serialization_format : string
}.

(** Everything a call can read or change: the files, the class registry of
    the manager, the container objects and the store object. *)
Record world : Type := mkWorld {
  files : gmap string file;
  classes : gmap string container_class;
  objects : list AttributeContainer;
  self : SQLiteAttributeContainerStore
}.

(** *** The class constants *)

(** The version constants are class attributes read through [self]; a
    subclass may override each of them on its own. *)
Record version_constants : Type := mkVersions {
  _FORMAT_VERSION : Z;
  _APPEND_COMPATIBLE_FORMAT_VERSION : Z;
  _UPGRADE_COMPATIBLE_FORMAT_VERSION : Z;
  _READ_COMPATIBLE_FORMAT_VERSION : Z
}.

Definition SQLiteAttributeContainerStore_versions : version_constants :=
  mkVersions 20230312 20221023 20221023 20221023.

Definition _MAXIMUM_CACHED_CONTAINERS : nat := 32 * 1024.

Definition _MAXIMUM_WRITE_CACHE_SIZE : nat := 50.

(** [SQLiteAttributeContainerStore.__init__]. *)
Definition init_store (versions : version_constants)
  : SQLiteAttributeContainerStore :=
  {| _attribute_container_sequence_numbers := ∅;
     _attribute_container_cache := [];
     _connection := None;
     _is_open := false;
     _read_only := true;
     _write_cache := ∅;
     format_version := _FORMAT_VERSION versions;
     serialization_format := "json" |}.

(** *** The state and exception monad of the calls *)

Definition M (A : Type) : Type := world -> world * result A.

Definition ret {A} (a : A) : M A := fun w => (w, Return a).

Definition raise {A} (e : exception) : M A := fun w => (w, Raise e).

Definition bind {A B} (m : M A) (k : A -> M B) : M B :=
  fun w =>
    match m w with
    | (w', Return a) => k a w'
    | (w', Raise e) => (w', Raise e)
    end.

Notation "'let*' x ':=' m 'in' k" := (bind m (fun x => k))
  (at level 10, x pattern, m at level 100, k at level 200).

(** [try: m  except <the exceptions handler maps to Some>: ...]. *)
Definition try_except {A} (m : M A) (handler : exception -> option (M A))
  : M A :=
  fun w =>
    match m w with
    | (w', Return a) => (w', Return a)
    | (w', Raise e) =>
        match handler e with
        | Some h => h w'
        | None => (w', Raise e)
        end
    end.

Definition lift {A} (r : result A) : M A := fun w => (w, r).

Definition get_self : M SQLiteAttributeContainerStore :=
  fun w => (w, Return (self w)).

Definition modify_self
    (f : SQLiteAttributeContainerStore -> SQLiteAttributeContainerStore)
  : M unit :=
  fun w => (mkWorld (files w) (classes w) (objects w) (f (self w)), Return tt).

Definition get_classes : M (gmap string container_class) :=
  fun w => (w, Return (classes w)).

(** [for x in xs: ...] collecting one value per round. *)
Fixpoint for_each {A B} (xs : list A) (body : A -> M B) : M (list B) :=
  match xs with
  | [] => ret []
  | x :: rest =>
      let* b := body x in
      let* bs := for_each rest body in
      ret (b :: bs)
  end.

(** Field updates of the store object. *)
Definition set_sequence_numbers (v : gmap string Z)
    (s : SQLiteAttributeContainerStore) :=
  mkStore v (_attribute_container_cache s) (_connection s) (_is_open s)
    (_read_only s) (_write_cache s) (format_version s) (serialization_format s).

Definition set_cache (v : list (string * objref))
    (s : SQLiteAttributeContainerStore) :=
  mkStore (_attribute_container_sequence_numbers s) v (_connection s)
    (_is_open s) (_read_only s) (_write_cache s) (format_version s)
    (serialization_format s).

Definition set_connection (v : option connection)
    (s : SQLiteAttributeContainerStore) :=
  mkStore (_attribute_container_sequence_numbers s)
    (_attribute_container_cache s) v (_is_open s) (_read_only s)
    (_write_cache s) (format_version s) (serialization_format s).

Definition set_is_open (v : bool) (s : SQLiteAttributeContainerStore) :=
  mkStore (_attribute_container_sequence_numbers s)
    (_attribute_container_cache s) (_connection s) v (_read_only s)
    (_write_cache s) (format_version s) (serialization_format s).

Definition set_read_only (v : bool) (s : SQLiteAttributeContainerStore) :=
  mkStore (_attribute_container_sequence_numbers s)
    (_attribute_container_cache s) (_connection s) (_is_open s) v
    (_write_cache s) (format_version s) (serialization_format s).

Definition set_write_cache (v : gmap string (list write_cache_item))
    (s : SQLiteAttributeContainerStore) :=
  mkStore (_attribute_container_sequence_numbers s)
    (_attribute_container_cache s) (_connection s) (_is_open s)
    (_read_only s) v (format_version s) (serialization_format s).

Definition set_format (version : Z) (serialization : string)
    (s : SQLiteAttributeContainerStore) :=
  mkStore (_attribute_container_sequence_numbers s)
    (_attribute_container_cache s) (_connection s) (_is_open s)
    (_read_only s) (_write_cache s) version serialization.

(** *** The objects *)

(** The object behind a reference; a reference to no object stands for a
    call without a container, whose first attribute access raises. *)
Definition get_object (ref : objref) : M AttributeContainer :=
  fun w =>
    match objects w !! ref with
    | Some c => (w, Return c)
    | None => (w, Raise AttributeError)
    end.

(** [container.SetIdentifier(identifier)]: the object itself changes, for
    everyone who holds it. *)
Definition SetIdentifier (container : objref)
    (identifier : AttributeContainerIdentifier) : M unit :=
  fun w =>
    match objects w !! container with
    | Some c =>
        (mkWorld (files w) (classes w)
           (<[container := mkContainer (class_of c) (attributes c) identifier]>
              (objects w))
           (self w), Return tt)
    | None => (w, Raise AttributeError)
    end.

Definition GetIdentifier (container : objref)
  : M AttributeContainerIdentifier :=
  let* c := get_object container in ret (_identifier c).

(** [id(self)]: in CPython the address of the object, a number far above
    the sequence numbers of a store and different for any two objects
    that are alive. The model takes the addresses of objects laid out one
    after the other from [heap_base] on. *)
Definition heap_base : Z := 139637976727552.

Definition object_id (ref : objref) : Z := heap_base + 64 * Z.of_nat ref.

(** [container_class()]: a new object whose identifier is made of the
    container type and [id(self)]. The attributes the constructor of a
    class sets to [None] are absent attributes here, since both read as
    [None]. *)
Definition new_container (cls : container_class)
    (attrs : gmap string pyvalue) : M objref :=
  fun w =>
    let ref := length (objects w) in
    (mkWorld (files w) (classes w)
       (objects w ++
          [mkContainer cls attrs
             (init (Some (CONTAINER_TYPE cls)) (Some (object_id ref)))])
       (self w), Return ref).

(** *** The [OrderedDict] of the read cache *)

Fixpoint od_get {V} (key : string) (d : list (string * V)) : option V :=
  match d with
  | [] => None
  | (k, v) :: d' => if String.eqb k key then Some v else od_get key d'
  end.

(** [d[key] = value]: an existing key keeps its place. *)
Fixpoint od_set {V} (key : string) (value : V) (d : list (string * V))
  : list (string * V) :=
  match d with
  | [] => [(key, value)]
  | (k, v) :: d' =>
      if String.eqb k key then (key, value) :: d'
      else (k, v) :: od_set key value d'
  end.

Fixpoint od_remove {V} (key : string) (d : list (string * V))
  : list (string * V) :=
  match d with
  | [] => []
  | (k, v) :: d' =>
      if String.eqb k key then d' else (k, v) :: od_remove key d'
  end.

(** [d.move_to_end(key, last=False)]. *)
Definition od_move_to_front {V} (key : string) (d : list (string * V))
  : list (string * V) :=
  match od_get key d with
  | Some v => (key, v) :: od_remove key d
  | None => d
  end.

(** [d.popitem(last=True)]. *)
Definition od_popitem_last {V} (d : list (string * V)) : list (string * V) :=
  removelast d.

(** *** sqlite3: the connection and its statements *)

Definition table_exists (db : database) (name : string) : bool :=
  bool_decide (is_Some (tables db !! name)).

(** The keywords of SQLite, in lower case. *)
Definition sqlite_keywords : list string :=
  ["abort"; "action"; "add"; "after"; "all"; "alter"; "always"; "analyze";
   "and"; "as"; "asc"; "attach"; "autoincrement"; "before"; "begin";
   "between"; "by"; "cascade"; "case"; "cast"; "check"; "collate"; "column";
   "commit"; "conflict"; "constraint"; "create"; "cross"; "current";
   "current_date"; "current_time"; "current_timestamp"; "database";
   "default"; "deferrable"; "deferred"; "delete"; "desc"; "detach";
   "distinct"; "do"; "drop"; "each"; "else"; "end"; "escape"; "except";
   "exclude"; "exclusive"; "exists"; "explain"; "fail"; "filter"; "first";
   "following"; "for"; "foreign"; "from"; "full"; "generated"; "glob";
   "group"; "groups"; "having"; "if"; "ignore"; "immediate"; "in"; "index";
   "indexed"; "initially"; "inner"; "insert"; "instead"; "intersect";
   "into"; "is"; "isnull"; "join"; "key"; "last"; "left"; "like"; "limit";
   "match"; "materialized"; "natural"; "no"; "not"; "nothing"; "notnull";
   "null"; "nulls"; "of"; "offset"; "on"; "or"; "order"; "others"; "outer";
   "over"; "partition"; "plan"; "pragma"; "preceding"; "primary"; "query";
   "raise"; "range"; "recursive"; "references"; "regexp"; "reindex";
   "release"; "rename"; "replace"; "restrict"; "returning"; "right";
   "rollback"; "row"; "rows"; "savepoint"; "select"; "set"; "table";
   "temp"; "temporary"; "then"; "ties"; "to"; "transaction"; "trigger";
   "unbounded"; "union"; "unique"; "update"; "using"; "vacuum"; "values";
   "view"; "virtual"; "when"; "where"; "window"; "with"; "within";
   "without"].

(** The columns of [sqlite_master] and the names of its rowid. *)
Definition sqlite_master_names : list string :=
  ["type"; "name"; "tbl_name"; "rootpage"; "sql"; "rowid"; "oid"; "_rowid_"].

Definition is_lower_letter (c : ascii) : bool :=
  let n := nat_of_ascii c in (97 <=? n)%nat && (n <=? 122)%nat.

Definition is_name_char (c : ascii) : bool :=
  is_lower_letter c || PyStr.is_digit c || Ascii.eqb c "_"%char.

(** A plain name: lower case letters, digits and underscores after a first
    lower case letter, no keyword of SQLite, none of the names of
    [sqlite_master] and no name SQLite keeps for itself. Such a name stands
    for itself where the store writes it into a statement, as the name of a
    table or of a column and between the double quotes of
    [_HAS_TABLE_QUERY]; the statements below are those of SQLite for plain
    names. *)
Definition plain_name (name : string) : bool :=
  match name with
  | EmptyString => false
  | String c _ =>
      is_lower_letter c
      && PyStr.all_chars is_name_char name
      && negb (bool_decide (name ∈ sqlite_keywords))
      && negb (bool_decide (name ∈ sqlite_master_names))
      && negb (String.prefix "sqlite_" name)
  end.

Definition has_columns (t : table) (column_names : list string) : bool :=
  forallb (fun n => bool_decide (n ∈ (columns t).*1)) column_names.

Fixpoint bind_parameters (values : list (option pyvalue))
  : result (list (option sqlvalue)) :=
  match values with
  | [] => Return []
  | v :: rest =>
      match bind_parameter v with
      | Raise e => Raise e
      | Return b =>
          match bind_parameters rest with
          | Raise e => Raise e
          | Return bs => Return (b :: bs)
          end
      end
  end.

(** The values of a multi row [INSERT], cut into rows of [n] values. *)
Fixpoint chunk_rows {A} (n number_of_rows : nat) (values : list A)
  : list (list A) :=
  match number_of_rows with
  | O => []
  | S k => take n values :: chunk_rows n k (drop n values)
  end.

Definition row_of (column_names : list string)
    (values : list (option sqlvalue)) : gmap string sqlvalue :=
  list_to_map
    (omap (fun nv : string * option sqlvalue => pair nv.1 <$> nv.2)
       (zip column_names values)).

Definition with_tables (db : database) (t : gmap string table) : database :=
  mkDatabase t.

(** The effect of a statement on the database the connection sees, or the
    [sqlite3] exception it raises. A value is stored as it is bound, which
    is what SQLite does when the value has the storage class of its
    column (an integer in an [INTEGER] or [BIGINT] column, a text in a
    [TEXT] column); the conversions of the column affinity are not
    modelled. Errors of preparation (an unknown
    table or column, a malformed statement) come first, then the count and
    the types of the bound values, then the refusal of a read-only
    connection to write. *)
Definition sql_create_table (name : string)
    (column_definitions : list (string * string))
    (conn : connection) : result (database * unit) :=
  let db := conn_db conn in
  if table_exists db name then Raise (Sqlite3Error OperationalError)
  else if conn_read_only conn then Raise (Sqlite3Error OperationalError)
  else
    Return (with_tables db
              (<[name := mkTable column_definitions []]> (tables db)), tt).

Definition sql_insert (name : string) (column_names : list string)
    (number_of_rows : nat) (values : list (option pyvalue))
    (conn : connection) : result (database * unit) :=
  let db := conn_db conn in
  match tables db !! name with
  | None => Raise (Sqlite3Error OperationalError)
  | Some t =>
      if bool_decide (column_names = []) || bool_decide (number_of_rows = O)
      then Raise (Sqlite3Error OperationalError)
      else if negb (has_columns t column_names)
      then Raise (Sqlite3Error OperationalError)
      else if negb (length values =? number_of_rows * length column_names)%nat
      then Raise (Sqlite3Error ProgrammingError)
      else
        match bind_parameters values with
        | Raise e => Raise e
        | Return bound =>
            if conn_read_only conn then Raise (Sqlite3Error OperationalError)
            else
              let new_rows :=
                row_of column_names <$>
                  chunk_rows (length column_names) number_of_rows bound in
              Return (with_tables db
                        (<[name := mkTable (columns t) (rows t ++ new_rows)]>
                           (tables db)), tt)
        end
  end.

(** [UPDATE name SET c1 = ?, ... WHERE _identifier = rowid]: a missing row
    is no error. *)
Definition sql_update (name : string) (column_names : list string)
    (values : list (option pyvalue)) (rowid : Z)
    (conn : connection) : result (database * unit) :=
  let db := conn_db conn in
  match tables db !! name with
  | None => Raise (Sqlite3Error OperationalError)
  | Some t =>
      if bool_decide (column_names = [])
      then Raise (Sqlite3Error OperationalError)
      else if negb (has_columns t column_names)
      then Raise (Sqlite3Error OperationalError)
      else if negb (length values =? length column_names)%nat
      then Raise (Sqlite3Error ProgrammingError)
      else
        match bind_parameters values with
        | Raise e => Raise e
        | Return bound =>
            if conn_read_only conn then Raise (Sqlite3Error OperationalError)
            else
              let position := Z.to_nat (rowid - 1) in
              let updated :=
                if (1 <=? rowid)%Z then
                  match rows t !! position with
                  | Some row =>
                      <[position :=
                          foldl (fun r (nv : string * option sqlvalue) =>
                                   match nv.2 with
                                   | Some v => <[nv.1 := v]> r
                                   | None => delete nv.1 r
                                   end) row (zip column_names bound)]>
                        (rows t)
                  | None => rows t
                  end
                else rows t in
              Return (with_tables db
                        (<[name := mkTable (columns t) updated]> (tables db)),
                      tt)
        end
  end.

(** [SELECT c1, ... FROM name WHERE rowid = rowid] then [fetchone()]. *)
Definition sql_select_row (name : string) (column_names : list string)
    (rowid : Z) (conn : connection)
  : result (database * option (list (option sqlvalue))) :=
  let db := conn_db conn in
  match tables db !! name with
  | None => Raise (Sqlite3Error OperationalError)
  | Some t =>
      if bool_decide (column_names = [])
      then Raise (Sqlite3Error OperationalError)
      else if negb (has_columns t column_names)
      then Raise (Sqlite3Error OperationalError)
      else
        Return (db,
                if (1 <=? rowid)%Z then
                  (fun row : gmap string sqlvalue =>
                     (fun n => row !! n) <$> column_names)
                    <$> rows t !! Z.to_nat (rowid - 1)
                else None)
  end.

(** [SELECT MAX(_ROWID_) FROM name LIMIT 1] then [fetchone()]: the
    aggregate always gives one row, whose only column is [NULL] for an
    empty table. *)
Definition sql_select_max_rowid (name : string) (conn : connection)
  : result (database * option (list (option Z))) :=
  let db := conn_db conn in
  match tables db !! name with
  | None => Raise (Sqlite3Error OperationalError)
  | Some t =>
      Return (db,
              Some [match rows t with
                    | [] => None
                    | _ => Some (Z.of_nat (length (rows t)))
                    end])
  end.

(** [_HAS_TABLE_QUERY], [SELECT name FROM sqlite_master WHERE type =
    "table" AND name = "<name>"], then [bool(fetchone())]. The name is put
    between double quotes, which SQLite reads as a column when the table
    has one of that name (in any letter case) and as a string otherwise.
    So for [name] and [tbl_name] the test is [name = name], true of every
    table; for [type] it is [name = type], true of a table called
    [table]; for [sql] it is [name = sql], true of none. For [rootpage] and
    the names of the rowid the name of a table is compared with a number of
    its own, which the model of the database does not hold: the answer
    given is the one for tables whose names are no numbers. *)
Definition has_table (db : database) (name : string) : bool :=
  let column := PyStr.lower name in
  if bool_decide (column ∈ ["name"; "tbl_name"])
  then negb (bool_decide (tables db = ∅))
  else if bool_decide (column = "type") then table_exists db "table"
  else if bool_decide (column ∈ ["sql"; "rootpage"; "rowid"; "oid"; "_rowid_"])
  then false
  else table_exists db name.

Definition sql_has_table (name : string) (conn : connection)
  : result (database * bool) :=
  Return (conn_db conn, has_table (conn_db conn) name).

(** [SELECT key, value FROM metadata] then [fetchall()]. *)
Definition sql_select_metadata (conn : connection)
  : result (database * list (option sqlvalue * option sqlvalue)) :=
  match tables (conn_db conn) !! "metadata" with
  | None => Raise (Sqlite3Error OperationalError)
  | Some t =>
      if negb (has_columns t ["key"; "value"])
      then Raise (Sqlite3Error OperationalError)
      else
        Return (conn_db conn,
                (fun row : gmap string sqlvalue =>
                   (row !! "key", row !! "value")) <$> rows t)
  end.

(** [SELECT * FROM metadata] then [fetchall()], of which the caller takes
    [row[0]] and [row[1]]: the first two columns of the table, and an
    [IndexError] on a row of a table with fewer. *)
Definition sql_select_all_metadata (db : database)
  : result (list (option sqlvalue * option sqlvalue)) :=
  match tables db !! "metadata" with
  | None => Raise (Sqlite3Error OperationalError)
  | Some t =>
      match (columns t).*1, rows t with
      | _, [] => Return []
      | c0 :: c1 :: _, rows =>
          Return ((fun row : gmap string sqlvalue =>
                     (row !! c0, row !! c1)) <$> rows)
      | _, _ :: _ => Raise IndexError
      end
  end.

Definition sql_create_metadata_table (conn : connection)
  : result (database * unit) :=
  sql_create_table "metadata" [("key", "TEXT"); ("value", "TEXT")] conn.

Definition sql_insert_metadata (key value : string) (conn : connection)
  : result (database * unit) :=
  sql_insert "metadata" ["key"; "value"] 1
    [Some (PyStr key); Some (PyStr value)] conn.

(** [UPDATE metadata SET value = <version> WHERE key = "format_version"]:
    the column is declared [TEXT], so the number is stored as its text. *)
Definition sql_update_metadata_format_version (value : Z) (conn : connection)
  : result (database * unit) :=
  let db := conn_db conn in
  match tables db !! "metadata" with
  | None => Raise (Sqlite3Error OperationalError)
  | Some t =>
      if negb (has_columns t ["key"; "value"])
      then Raise (Sqlite3Error OperationalError)
      else if conn_read_only conn then Raise (Sqlite3Error OperationalError)
      else
        Return (with_tables db
                  (<["metadata" :=
                       mkTable (columns t)
                         ((fun row : gmap string sqlvalue =>
                             if bool_decide
                                  (row !! "key" = Some (SqlText "format_version"))
                             then <["value" := SqlText (PyStr.format_d value)]> row
                             else row) <$> rows t)]>
                     (tables db)), tt)
  end.

(** [self._cursor.execute(...)]: without a cursor the attribute access on
    [None] raises; otherwise the statement is logged and takes effect. *)
Definition execute {A} (stmt : statement)
    (effect : connection -> result (database * A)) : M A :=
  fun w =>
    match _connection (self w) with
    | None => (w, Raise AttributeError)
    | Some conn =>
        let logged db :=
          mkWorld (files w) (classes w) (objects w)
            (set_connection
               (Some (mkConnection (conn_path conn) (conn_read_only conn) db
                        (executed conn ++ [stmt])))
               (self w)) in
        match effect conn with
        | Return (db, a) => (logged db, Return a)
        | Raise e => (logged (conn_db conn), Raise e)
        end
    end.

(** [self._connection.commit()]: what the connection sees becomes the
    content of the file. *)
Definition commit : M unit :=
  fun w =>
    match _connection (self w) with
    | None => (w, Raise AttributeError)
    | Some conn =>
        if conn_read_only conn then (w, Return tt)
        else
          (mkWorld (<[conn_path conn := DatabaseFile (conn_db conn)]> (files w))
             (classes w) (objects w) (self w), Return tt)
    end.

(** The handler
    [except (sqlite3.InterfaceError, sqlite3.OperationalError): raise IOError]. *)
Definition unable_to_query {A} (e : exception) : option (M A) :=
  match e with
  | Sqlite3Error InterfaceError | Sqlite3Error OperationalError =>
      Some (raise (IOError UnableToQuery))
  | _ => None
  end.

(** *** [SQLiteSchemaHelper] *)

Section Engine.

(** The class constants the instance reads through [self]. *)
Variable versions : version_constants.

(** [acstore/helpers/schema.py] is not part of the sources: the test
    [SchemaHelper.HasDataType] and the JSON serializer that
    [SchemaHelper.GetAttributeSerializer(data_type, 'json')] returns are
    parameters of the engine. *)
Variable HasDataType : string -> bool.
Variable JsonSerializeValue : string -> pyvalue -> result pyvalue.
Variable JsonDeserializeValue : string -> sqlvalue -> result pyvalue.

(** [ast.parse(filter_expression, mode='eval').body]. *)
Variable ast_parse : string -> result AST2SQL.expr.

Definition _MAPPINGS : gmap string string :=
  list_to_map
    [("bool", "INTEGER"); ("int", "INTEGER"); ("str", "TEXT");
     ("timestamp", "BIGINT")].

Definition GetStorageDataType (data_type : string) : string :=
  default "TEXT" (_MAPPINGS !! data_type).

(** [bool(value)] of a value read from the database. *)
Definition bool_of_sql (v : sqlvalue) : bool :=
  match v with
  | SqlInteger n => negb (n =? 0)%Z
  | SqlText s => PyStr.truthy s
  end.

(** [int(value)] of a runtime value. *)
Definition int_of_py (v : pyvalue) : result Z :=
  match v with
  | PyBool b => Return (if b then 1 else 0)%Z
  | PyInt n => Return n
  | PyStr s =>
      match PyStr.int s with
      | Some n => Return n
      | None => Raise (ValueError "invalid literal for int()")
      end
  | _ => Raise TypeError
  end.

Definition DeserializeValue (data_type : string) (value : option sqlvalue)
  : result (option pyvalue) :=
  if negb (HasDataType data_type)
  then Raise (IOError (UnsupportedDataType data_type))
  else
    match value with
    | None => Return None
    | Some v =>
        if String.eqb data_type "AttributeContainerIdentifier" then
          match v with
          | SqlText identifier_string =>
              match CopyFromString (init None None) identifier_string with
              | (identifier, Return _) => Return (Some (PyIdentifier identifier))
              | (_, Raise e) => Raise e
              end
          | SqlInteger _ => Raise AttributeError
          end
        else if String.eqb data_type "bool" then
          Return (Some (PyBool (bool_of_sql v)))
        else if bool_decide (_MAPPINGS !! data_type = None) then
          match JsonDeserializeValue data_type v with
          | Return value' => Return (Some value')
          | Raise e => Raise e
          end
        else Return (Some (py_of_sql v))
    end.

(** The cast of a [set] to a [list] before the JSON serializer is called
    is part of [JsonSerializeValue]. *)
Definition SerializeValue (data_type : string) (value : option pyvalue)
  : result (option pyvalue) :=
  if negb (HasDataType data_type)
  then Raise (IOError (UnsupportedDataType data_type))
  else
    match value with
    | None => Return None
    | Some v =>
        match String.eqb data_type "AttributeContainerIdentifier", v with
        | true, PyIdentifier identifier =>
            Return (PyStr <$> CopyToString identifier)
        | _, _ =>
            if String.eqb data_type "bool" then
              match int_of_py v with
              | Return n => Return (Some (PyInt n))
              | Raise e => Raise e
              end
            else if bool_decide (_MAPPINGS !! data_type = None) then
              match JsonSerializeValue data_type v with
              | Return value' => Return (Some value')
              | Raise e => Raise e
              end
            else Return (Some v)
        end
    end.

(** [sorted(schema.items())]: the names of a dictionary are distinct, so
    the pairs are ordered by name. *)
Fixpoint insert_sorted (x : string * string) (l : list (string * string))
  : list (string * string) :=
  match l with
  | [] => [x]
  | y :: l' => if String.leb x.1 y.1 then x :: l else y :: insert_sorted x l'
  end.

Definition sorted_items (schema : gmap string string)
  : list (string * string) :=
  foldr insert_sorted [] (map_to_list schema).

Definition is_empty_schema (schema : gmap string string) : bool :=
  bool_decide (schema = ∅).

(** *** The base class [acstore/interface.py] *)

(** Modelled from the spec: [_GetAttributeContainerSchema] belongs to the
    base class [interface.AttributeContainerStore], which is not part of
    the sources. The registry is consulted for the schema, and a type it
    does not know has the empty schema. *)
Definition _GetAttributeContainerSchema (container_type : string)
  : M (gmap string string) :=
  let* classes := get_classes in
  match GetSchema classes container_type with
  | Return schema => ret schema
  | Raise _ => ret ∅
  end.

(** Modelled from the spec: [_attribute_container_sequence_numbers] and its
    two accessors belong to the missing base class. The counter of a type
    is the number of containers of that type written so far ([0] for a
    type never seen); the next sequence number is the counter plus one,
    and taking it advances the counter. *)
Definition sequence_number_of (s : SQLiteAttributeContainerStore)
    (container_type : string) : Z :=
  default 0%Z (_attribute_container_sequence_numbers s !! container_type).

Definition _GetAttributeContainerNextSequenceNumber (container_type : string)
  : M Z :=
  let* s := get_self in
  let next := (sequence_number_of s container_type + 1)%Z in
  let* _ := modify_self (fun s =>
    set_sequence_numbers
      (<[container_type := next]> (_attribute_container_sequence_numbers s)) s) in
  ret next.

Definition _SetAttributeContainerNextSequenceNumber (container_type : string)
    (next_sequence_number : Z) : M unit :=
  modify_self (fun s =>
    set_sequence_numbers
      (<[container_type := next_sequence_number]>
         (_attribute_container_sequence_numbers s)) s).

(** *** [SQLiteAttributeContainerStore] *)

Definition lookup_key_of (container_type : string) (index : Z) : string :=
  container_type +:+ "." +:+ PyStr.format_d index.

Definition _CacheAttributeContainerByIndex (attribute_container : objref)
    (index : Z) : M unit :=
  let* s := get_self in
  let* _ :=
    if (_MAXIMUM_CACHED_CONTAINERS <=? length (_attribute_container_cache s))%nat
    then modify_self (fun s =>
           set_cache (od_popitem_last (_attribute_container_cache s)) s)
    else ret tt in
  let* c := get_object attribute_container in
  let lookup_key := lookup_key_of (CONTAINER_TYPE (class_of c)) index in
  modify_self (fun s =>
    set_cache
      (od_move_to_front lookup_key
         (od_set lookup_key attribute_container (_attribute_container_cache s)))
      s).

(** The values [itertools.chain] takes out of one element of the list. *)
Definition item_values (item : write_cache_item) : list (option pyvalue) :=
  match item with
  | ColumnNames names => (fun n => Some (PyStr n)) <$> names
  | RowValues values => values
  end.

(** What [', '.join(column_names)] needs of the popped element: strings. *)
Fixpoint as_strings (values : list (option pyvalue)) : option (list string) :=
  match values with
  | [] => Some []
  | Some (PyStr s) :: rest => (cons s) <$> as_strings rest
  | _ :: _ => None
  end.

(** [_FlushWriteCache]. [write_cache.pop(0)] changes the list object: when
    the list is the one the dictionary [self._write_cache] holds for the
    type ([in_dictionary]), the dictionary sees it shortened, also when
    the statement then fails. No storage profiler is set. *)
Definition _FlushWriteCache (container_type : string)
    (write_cache : list write_cache_item) (in_dictionary : bool) : M unit :=
  match write_cache with
  | [] => raise IndexError
  | first :: write_cache =>
      let* _ :=
        if in_dictionary
        then modify_self (fun s =>
               set_write_cache
                 (<[container_type := write_cache]> (_write_cache s)) s)
        else ret tt in
      let* column_names :=
        match first with
        | ColumnNames names => ret names
        | RowValues values =>
            match as_strings values with
            | Some names => ret names
            | None => raise TypeError
            end
        end in
      try_except
        (let values := concat (item_values <$> write_cache) in
         execute (INSERT_INTO container_type column_names (length write_cache))
           (sql_insert container_type column_names (length write_cache) values))
        unable_to_query
  end.

Definition _CacheAttributeContainerForWrite (container_type : string)
    (column_names : list string) (values : list (option pyvalue)) : M unit :=
  let* s := get_self in
  let cached := _write_cache s !! container_type in
  let write_cache :=
    (default [ColumnNames column_names] cached ++ [RowValues values])%list in
  let* _ :=
    if bool_decide (is_Some cached)
    then modify_self (fun s =>
           set_write_cache
             (<[container_type := write_cache]> (_write_cache s)) s)
    else ret tt in
  let* write_cache :=
    if (_MAXIMUM_WRITE_CACHE_SIZE <=? length write_cache)%nat then
      let* _ := _FlushWriteCache container_type write_cache
                  (bool_decide (is_Some cached)) in
      ret [ColumnNames column_names]
    else ret write_cache in
  modify_self (fun s =>
    set_write_cache (<[container_type := write_cache]> (_write_cache s)) s).

Definition _CommitWriteCache (container_type : string) : M unit :=
  let* s := get_self in
  let write_cache := default [] (_write_cache s !! container_type) in
  if (1 <? length write_cache)%nat then
    let* _ := _FlushWriteCache container_type write_cache true in
    modify_self (fun s =>
      set_write_cache (delete container_type (_write_cache s)) s)
  else ret tt.

Definition _HasTable (table_name : string) : M bool :=
  try_except
    (execute (SELECT_HAS_TABLE table_name) (sql_has_table table_name))
    unable_to_query.

Definition _CreateAttributeContainerTable (container_type : string) : M unit :=
  let* schema := _GetAttributeContainerSchema container_type in
  if is_empty_schema schema
  then raise (IOError (UnsupportedContainerType container_type))
  else
    let column_definitions :=
      ("_identifier", "INTEGER PRIMARY KEY AUTOINCREMENT")
      :: ((fun nd : string * string => (nd.1, GetStorageDataType nd.2))
            <$> sorted_items schema) in
    try_except
      (execute (CREATE_TABLE container_type)
         (sql_create_table container_type column_definitions))
      unable_to_query.

(** [setattr(container, name, value)]. *)
Definition setattr (container : objref) (name : string)
    (value : option pyvalue) : M unit :=
  fun w =>
    match objects w !! container with
    | Some c =>
        let attrs :=
          match value with
          | Some v => <[name := v]> (attributes c)
          | None => delete name (attributes c)
          end in
        (mkWorld (files w) (classes w)
           (<[container := mkContainer (class_of c) attrs (_identifier c)]>
              (objects w))
           (self w), Return tt)
    | None => (w, Raise AttributeError)
    end.

Definition _CreatetAttributeContainerFromRow (container_type : string)
    (column_names : list string) (row : list (option sqlvalue))
    (first_column_index : nat) : M objref :=
  let* schema := _GetAttributeContainerSchema container_type in
  if is_empty_schema schema
  then raise (IOError (UnsupportedContainerType container_type))
  else
    let* classes := get_classes in
    let* cls := lift (CreateAttributeContainer classes container_type) in
    let* container := new_container cls ∅ in
    let* _ :=
      for_each (zip (seq 0 (length column_names)) column_names)
        (fun '(column_index, name) =>
           match row !! (first_column_index + column_index)%nat with
           | None => raise IndexError
           | Some None => ret tt
           | Some (Some row_value) =>
               match schema !! name with
               | None => raise (KeyError name)
               | Some data_type =>
                   let* attribute_value :=
                     try_except
                       (lift (DeserializeValue data_type (Some row_value)))
                       (fun e =>
                          match e with
                          | IOError _ =>
                              Some (raise (IOError (UnsupportedAttribute
                                             container_type name data_type)))
                          | _ => None
                          end) in
                   setattr container name attribute_value
               end
           end) in
    ret container.

(** [_Flush]. The types are visited in the order of the map. *)
Definition _Flush : M unit :=
  let* s := get_self in
  let* _ :=
    for_each (map_to_list (_write_cache s))
      (fun '(container_type, write_cache) =>
         if (1 <? length write_cache)%nat
         then _FlushWriteCache container_type write_cache true
         else ret tt) in
  let* _ := modify_self (set_write_cache ∅) in
  commit.

(** An attribute container object is truthy, so the test
    [if attribute_container:] is the test for [None]. *)
Definition _GetCachedAttributeContainer (container_type : string) (index : Z)
  : M (option objref) :=
  let lookup_key := lookup_key_of container_type index in
  let* s := get_self in
  let attribute_container := od_get lookup_key (_attribute_container_cache s) in
  let* _ :=
    match attribute_container with
    | Some _ =>
        modify_self (fun s =>
          set_cache (od_move_to_front lookup_key (_attribute_container_cache s)) s)
    | None => ret tt
    end in
  ret attribute_container.

Definition _RaiseIfNotReadable : M unit :=
  let* s := get_self in
  if negb (_is_open s) then raise (IOError ClosedStoreRead) else ret tt.

Definition _RaiseIfNotWritable : M unit :=
  let* s := get_self in
  if negb (_is_open s) then raise (IOError ClosedStoreWrite)
  else if _read_only s then raise (IOError ReadOnlyStore)
  else ret tt.

(** The dictionary [{row[0]: row[1] for row in rows}], read by
    [.get(key, None)] with keys that are strings: a later row wins, a row
    whose key is no string is never found, and a [NULL] value reads as an
    absent key. *)
Definition dict_of_rows
    (metadata_rows : list (option sqlvalue * option sqlvalue))
  : gmap string sqlvalue :=
  foldl (fun d (kv : option sqlvalue * option sqlvalue) =>
           match kv with
           | (Some (SqlText key), Some value) => <[key := value]> d
           | (Some (SqlText key), None) => delete key d
           | _ => d
           end) ∅ metadata_rows.

Definition _ReadMetadata : M (gmap string sqlvalue) :=
  let* metadata_rows :=
    try_except (execute SELECT_METADATA sql_select_metadata) unable_to_query in
  ret (dict_of_rows metadata_rows).

(** [not format_version] followed by [int(format_version, 10)], which
    raises [TypeError] on a value that is no string and [ValueError] on a
    string that is no number; both are caught. *)
Definition parse_format_version (format_version : option sqlvalue)
  : result Z :=
  match format_version with
  | None => Raise (IOError MissingFormatVersion)
  | Some (SqlInteger n) =>
      if (n =? 0)%Z then Raise (IOError MissingFormatVersion)
      else Raise (IOError InvalidFormatVersion)
  | Some (SqlText s) =>
      if negb (PyStr.truthy s) then Raise (IOError MissingFormatVersion)
      else
        match PyStr.int s with
        | None => Raise (IOError InvalidFormatVersion)
        | Some n => Return n
        end
  end.

(** [_CheckStorageMetadata]. The method ends with storing the integer it
    parsed under ['format_version'] in [metadata_values]; here that
    integer is the value returned. *)
Definition _CheckStorageMetadata (metadata_values : gmap string sqlvalue)
    (check_readable_only : bool) : result Z :=
  match parse_format_version (metadata_values !! "format_version") with
  | Raise e => Raise e
  | Return format_version =>
      if negb check_readable_only
         && (format_version <? _APPEND_COMPATIBLE_FORMAT_VERSION versions)%Z
      then Raise (IOError (TooOldToWrite format_version))
      else if (format_version <? _READ_COMPATIBLE_FORMAT_VERSION versions)%Z
      then Raise (IOError (TooOldToRead format_version))
      else if (_FORMAT_VERSION versions <? format_version)%Z
      then Raise (IOError (TooNewToRead format_version))
      else if bool_decide (metadata_values !! "serialization_format"
                           = Some (SqlText "json"))
      then Return format_version
      else Raise (IOError UnsupportedSerializationFormat)
  end.

Definition _ReadAndCheckStorageMetadata (check_readable_only : bool)
  : M unit :=
  let* metadata_values := _ReadMetadata in
  let* format_version :=
    lift (_CheckStorageMetadata metadata_values check_readable_only) in
  match metadata_values !! "serialization_format" with
  | Some (SqlText serialization_format) =>
      modify_self (set_format format_version serialization_format)
  | _ => raise (KeyError "serialization_format")
  end.

Definition _UpdateStorageMetadataFormatVersion : M unit :=
  let* s := get_self in
  if (_UPGRADE_COMPATIBLE_FORMAT_VERSION versions <=? format_version s)%Z
  then
    try_except
      (execute (UPDATE_METADATA_FORMAT_VERSION (_FORMAT_VERSION versions))
         (sql_update_metadata_format_version (_FORMAT_VERSION versions)))
      unable_to_query
  else ret tt.

(** The loop over [sorted(schema.items())] shared by the two writers: the
    serialized value of each attribute, [None] for an attribute not set. *)
Definition serialize_attributes (container_type : string)
    (attrs : gmap string pyvalue) (schema : gmap string string)
  : M (list (option pyvalue)) :=
  for_each (sorted_items schema)
    (fun '(name, data_type) =>
       let attribute_value := attrs !! name in
       try_except
         (lift (SerializeValue data_type attribute_value))
         (fun e =>
            match e with
            | IOError _ =>
                Some (raise (IOError (UnsupportedAttribute
                               container_type name data_type)))
            | _ => None
            end)).

Definition _WriteExistingAttributeContainer (container : objref) : M unit :=
  let* c := get_object container in
  let container_type := CONTAINER_TYPE (class_of c) in
  let* _ := _CommitWriteCache container_type in
  let* identifier := GetIdentifier container in
  let* schema := _GetAttributeContainerSchema container_type in
  if is_empty_schema schema
  then raise (IOError (UnsupportedContainerType container_type))
  else
    let* values := serialize_attributes container_type (attributes c) schema in
    let column_names := (sorted_items schema).*1 in
    match sequence_number identifier with
    | None => raise TypeError
    | Some sequence_number =>
        try_except
          (execute (UPDATE container_type column_names sequence_number)
             (sql_update container_type column_names values sequence_number))
          unable_to_query
    end.

Definition _WriteMetadataValue (key value : string) : M unit :=
  try_except
    (execute (INSERT_METADATA key value) (sql_insert_metadata key value))
    unable_to_query.

Definition _WriteMetadata : M unit :=
  let* _ :=
    try_except (execute CREATE_METADATA_TABLE sql_create_metadata_table)
      unable_to_query in
  let* _ :=
    _WriteMetadataValue "format_version"
      (PyStr.format_d (_FORMAT_VERSION versions)) in
  let* s := get_self in
  _WriteMetadataValue "serialization_format" (serialization_format s).

Definition _WriteNewAttributeContainer (container : objref) : M unit :=
  let* c := get_object container in
  let container_type := CONTAINER_TYPE (class_of c) in
  let* next_sequence_number :=
    _GetAttributeContainerNextSequenceNumber container_type in
  let* _ :=
    if (next_sequence_number =? 1)%Z then
      let* has_table := _HasTable container_type in
      if negb has_table then _CreateAttributeContainerTable container_type
      else ret tt
    else ret tt in
  let identifier := init (Some container_type) (Some next_sequence_number) in
  let* _ := SetIdentifier container identifier in
  let* schema := _GetAttributeContainerSchema container_type in
  if is_empty_schema schema
  then raise (IOError (UnsupportedContainerType container_type))
  else
    let* row_values :=
      serialize_attributes container_type (attributes c) schema in
    let column_names := (sorted_items schema).*1 in
    let* _ :=
      _CacheAttributeContainerForWrite container_type column_names row_values in
    _CacheAttributeContainerByIndex container (next_sequence_number - 1).

(** [CheckSupportedFormat]. The body of the [try] either raises or ends
    with the local variable [result] bound ([Some]) or still unbound
    ([None]): [result = True] is its only assignment, reached when
    [format_version] is truthy and [int()] accepts it; the [TypeError] of
    [int()] on a number and its [ValueError] are passed over. *)
Definition CheckSupportedFormat_try (f : file) : result (option bool) :=
  match f with
  | NotADatabase => Raise (Sqlite3Error NotADatabaseError)
  | DatabaseFile db =>
      match sql_select_all_metadata db with
      | Raise e => Raise e
      | Return metadata_rows =>
          let metadata_values := dict_of_rows metadata_rows in
          match metadata_values !! "format_version" with
          | None => Return None
          | Some (SqlInteger _) => Return None
          | Some (SqlText format_version) =>
              if PyStr.truthy format_version then
                match PyStr.int format_version with
                | Some _ => Return (Some true)
                | None => Return None
                end
              else Return None
          end
      end
  end.

Definition CheckSupportedFormat (path : string) : M bool :=
  fun w =>
    match files w !! path with
    | None => (w, Return false)
    | Some f =>
        let result :=
          match CheckSupportedFormat_try f with
          | Return result => Return result
          | Raise (IOError _) | Raise TypeError | Raise (ValueError _)
          | Raise (Sqlite3Error OperationalError)
          | Raise (Sqlite3Error ProgrammingError)
          | Raise (Sqlite3Error NotADatabaseError) => Return (Some false)
          | Raise e => Raise e
          end in
        match result with
        | Raise e => (w, Raise e)
        | Return (Some result) => (w, Return result)
        | Return None => (w, Raise (UnboundLocalError "result"))
        end
    end.

Definition Close : M unit :=
  let* s := get_self in
  if negb (_is_open s) then raise (IOError AlreadyClosed)
  else
    let* _ :=
      match _connection s with
      | Some _ =>
          let* _ := _Flush in
          modify_self (set_connection None)
      | None => ret tt
      end in
    modify_self (set_is_open false).

Definition GetAttributeContainerByIndex (container_type : string) (index : Z)
  : M (option objref) :=
  let* container := _GetCachedAttributeContainer container_type index in
  match container with
  | Some container => ret (Some container)
  | None =>
      let* _ := _CommitWriteCache container_type in
      let* s := get_self in
      if (sequence_number_of s container_type =? 0)%Z then ret None
      else
        let* schema := _GetAttributeContainerSchema container_type in
        if is_empty_schema schema
        then raise (IOError (UnsupportedContainerType container_type))
        else
          let column_names := (sorted_items schema).*1 in
          let row_number := (index + 1)%Z in
          let* row :=
            try_except
              (execute (SELECT_ROW container_type column_names row_number)
                 (sql_select_row container_type column_names row_number))
              unable_to_query in
          match row with
          | None => ret None
          | Some row =>
              let* container :=
                _CreatetAttributeContainerFromRow container_type column_names
                  row 0 in
              let identifier := init (Some container_type) (Some row_number) in
              let* _ := SetIdentifier container identifier in
              let* _ := _CacheAttributeContainerByIndex container index in
              ret (Some container)
          end
  end.

(** [identifier.sequence_number - 1] raises [TypeError] on [None]. *)
Definition GetAttributeContainerByIdentifier (container_type : string)
    (identifier : AttributeContainerIdentifier) : M (option objref) :=
  match sequence_number identifier with
  | None => raise TypeError
  | Some sequence_number =>
      GetAttributeContainerByIndex container_type (sequence_number - 1)
  end.

(** The arguments [GetAttributeContainers] hands to the generator
    [_GetAttributeContainersWithFilter], whose body only runs when the
    generator is iterated. *)
Record generator : Type := mkGenerator {
  gen_container_type : string;
  gen_column_names : list string;
  gen_filter_expression : option string
}.

Definition GetAttributeContainers (container_type : string)
    (filter_expression : option string) : M generator :=
  let* schema := _GetAttributeContainerSchema container_type in
  if is_empty_schema schema
  then raise (IOError (UnsupportedContainerType container_type))
  else
    let column_names := (sorted_items schema).*1 in
    let* sql_filter_expression :=
      match filter_expression with
      | None => ret None
      | Some filter_expression =>
          if PyStr.truthy filter_expression then
            let* expression_ast := lift (ast_parse filter_expression) in
            let* sql := lift (AST2SQL.PythonAST2SQL expression_ast) in
            ret (Some sql)
          else ret None
      end in
    ret (mkGenerator container_type column_names sql_filter_expression).

Definition GetNumberOfAttributeContainers (container_type : string) : M Z :=
  let* _ := _CommitWriteCache container_type in
  let* has_table := _HasTable container_type in
  if negb has_table then ret 0%Z
  else
    let* row :=
      try_except
        (execute (SELECT_MAX_ROWID container_type)
           (sql_select_max_rowid container_type))
        unable_to_query in
    match row with
    | None => ret 0%Z
    | Some row =>
        match row !! 0%nat with
        | None => raise IndexError
        | Some (Some n) => ret n
        | Some None => ret 0%Z
        end
    end.

Definition HasAttributeContainers (container_type : string) : M bool :=
  let* count := GetNumberOfAttributeContainers container_type in
  ret (0 <? count)%Z.

(** [sqlite3.connect] followed by the two [PRAGMA]s, which are the first
    statements to touch the file: a missing file is created unless the
    connection is read-only, a file that is no database is refused with
    [sqlite3.DatabaseError], which [Open] does not catch. *)
Definition connect (path : string) (read_only : bool) : M connection :=
  fun w =>
    match files w !! path with
    | None =>
        if read_only then (w, Raise (Sqlite3Error OperationalError))
        else
          (mkWorld (<[path := DatabaseFile (mkDatabase ∅)]> (files w))
             (classes w) (objects w) (self w),
           Return (mkConnection path read_only (mkDatabase ∅) []))
    | Some NotADatabase => (w, Raise (Sqlite3Error NotADatabaseError))
    | Some (DatabaseFile db) =>
        (w, Return (mkConnection path read_only db []))
    end.

(** [Open]. The path is used as it is ([os.path.abspath] of an absolute
    path); the URI of an absolute path always exists, so a read-only
    store is always connected with [mode=ro]. *)
Definition Open (path : option string) (read_only : bool) : M unit :=
  let* s := get_self in
  if _is_open s then raise (IOError AlreadyOpened)
  else
    match path with
    | None => raise (ValueError "Missing path.")
    | Some path =>
        if negb (PyStr.truthy path) then raise (ValueError "Missing path.")
        else
          let* connection := connect path read_only in
          let* _ := modify_self (fun s =>
            set_read_only read_only
              (set_is_open true (set_connection (Some connection) s))) in
          let* _ :=
            if read_only then _ReadAndCheckStorageMetadata true
            else
              let* has_table := _HasTable "metadata" in
              let* _ :=
                if negb has_table then _WriteMetadata
                else
                  let* _ := _ReadAndCheckStorageMetadata false in
                  _UpdateStorageMetadataFormatVersion in
              commit in
          let* classes := get_classes in
          let* _ :=
            for_each (GetContainerTypes classes)
              (fun container_type =>
                 let* next_sequence_number :=
                   GetNumberOfAttributeContainers container_type in
                 _SetAttributeContainerNextSequenceNumber container_type
                   next_sequence_number) in
          ret tt
    end.

(** Modelled from the spec: [AddAttributeContainer] and
    [UpdateAttributeContainer] are the public writers of the missing base
    class. A write on a store that is closed or read-only is refused;
    otherwise the new container, respectively the existing one, is
    written. *)
Definition AddAttributeContainer (container : objref) : M unit :=
  let* _ := _RaiseIfNotWritable in
  _WriteNewAttributeContainer container.

Definition UpdateAttributeContainer (container : objref) : M unit :=
  let* _ := _RaiseIfNotWritable in
  _WriteExistingAttributeContainer container.

(** *** Sequences of calls *)

(** What a caller can do between [Open] and [Close]: build a container
    object, change one it holds, change the class registry, and call the
    engine. *)
Inductive call : Type :=
| NewContainer (cls : container_class) (attrs : gmap string pyvalue)
| SetAttribute (container : objref) (name : string) (value : option pyvalue)
| CallSetIdentifier (container : objref)
    (identifier : AttributeContainerIdentifier)
| CallRegister (cls : container_class)
| CallDeregister (cls : container_class)
| CallAdd (container : objref)
| CallUpdate (container : objref)
| CallGetByIndex (container_type : string) (index : Z)
| CallGetByIdentifier (container_type : string)
    (identifier : AttributeContainerIdentifier)
| CallGetNumber (container_type : string)
| CallHas (container_type : string)
| CallCommitWriteCache (container_type : string)
| CallFlush.

(** The value a call returns. *)
Inductive returned : Type :=
| RNone
| RBool (b : bool)
| RInt (n : Z)
| RContainer (container : option objref).

Definition update_registry
    (f : gmap string container_class -> gmap string container_class * result unit)
  : M unit :=
  fun w =>
    let '(classes', r) := f (classes w) in
    (mkWorld (files w) classes' (objects w) (self w), r).

Definition step (c : call) : M returned :=
  match c with
  | NewContainer cls attrs =>
      let* o := new_container cls attrs in ret (RContainer (Some o))
  | SetAttribute container name value =>
      let* _ := setattr container name value in ret RNone
  | CallSetIdentifier container identifier =>
      let* _ := SetIdentifier container identifier in ret RNone
  | CallRegister cls =>
      let* _ := update_registry (fun r => RegisterAttributeContainer r cls) in
      ret RNone
  | CallDeregister cls =>
      let* _ := update_registry (fun r => DeregisterAttributeContainer r cls) in
      ret RNone
  | CallAdd container =>
      let* _ := AddAttributeContainer container in ret RNone
  | CallUpdate container =>
      let* _ := UpdateAttributeContainer container in ret RNone
  | CallGetByIndex container_type index =>
      let* o := GetAttributeContainerByIndex container_type index in
      ret (RContainer o)
  | CallGetByIdentifier container_type identifier =>
      let* o := GetAttributeContainerByIdentifier container_type identifier in
      ret (RContainer o)
  | CallGetNumber container_type =>
      let* n := GetNumberOfAttributeContainers container_type in ret (RInt n)
  | CallHas container_type =>
      let* b := HasAttributeContainers container_type in ret (RBool b)
  | CallCommitWriteCache container_type =>
      let* _ := _CommitWriteCache container_type in ret RNone
  | CallFlush =>
      let* _ := _Flush in ret RNone
  end.

(** The world after a sequence of calls; the caller goes on after a call
    that raised. *)
Definition run (calls : list call) (w : world) : world :=
  foldl (fun w c => (step c w).1) w calls.

End Engine.

(** *** The state observed by the properties *)

Definition database_of (w : world) : option database :=
  conn_db <$> _connection (self w).

(** The rows of the table of a type, as the connection sees them. *)
Definition stored_rows (w : world) (container_type : string)
  : list (gmap string sqlvalue) :=
  match database_of w with
  | Some db => default [] (rows <$> tables db !! container_type)
  | None => []
  end.

(** The rows of a type waiting in the write cache: all the elements of its
    list but the first. *)
Definition pending_rows (w : world) (container_type : string)
  : list write_cache_item :=
  tail (default [] (_write_cache (self w) !! container_type)).

Definition statements (w : world) : list statement :=
  default [] (executed <$> _connection (self w)).

Definition is_insert (s : statement) : bool :=
  match s with INSERT_INTO _ _ _ => true | _ => false end.

Definition is_update (s : statement) : bool :=
  match s with UPDATE _ _ _ => true | _ => false end.

(** The batched inserts executed so far. *)
Definition inserts (w : world) : list statement :=
  List.filter is_insert (statements w).

Definition updates (w : world) : list statement :=
  List.filter is_update (statements w).

(** No table of the connection has lost a row between [w] and [w']. *)
Definition grows (w w' : world) : Prop :=
  forall container_type,
    (length (stored_rows w container_type)
     <= length (stored_rows w' container_type))%nat.

(** A monadic call that never makes a table lose a row. *)
Definition keeps {A} (m : M A) : Prop := forall w, grows w (m w).1.

(** A statement whose effect never shortens a table. *)
Definition growing {A} (effect : connection -> result (database * A)) : Prop :=
  forall conn db a ty,
    effect conn = Return (db, a) ->
    (length (default [] (rows <$> tables (conn_db conn) !! ty))
     <= length (default [] (rows <$> tables db !! ty)))%nat.

(** A store with a connection and nothing in its write cache. *)
Definition ready (w : world) : Prop :=
  is_Some (_connection (self w)) /\ _write_cache (self w) = ∅.

(** The metadata dictionary [_ReadMetadata] reads from a database. *)
Definition stored_metadata (db : database) : option (gmap string sqlvalue) :=
  match tables db !! "metadata" with
  | Some t =>
      if has_columns t ["key"; "value"]
      then Some (dict_of_rows
                   ((fun row : gmap string sqlvalue =>
                       (row !! "key", row !! "value")) <$> rows t))
      else None
  | None => None
  end.

(** *** A concrete engine *)

(** Modelled from the spec: the data types of [SchemaHelper], whose module
    is not part of the sources, are the fixed set of section 3: boolean,
    integer, string, timestamp and identifier reference. *)
Definition standard_data_types (data_type : string) : bool :=
  bool_decide (data_type ∈
    ["AttributeContainerIdentifier"; "bool"; "int"; "str"; "timestamp"]).

(** No JSON serializer is registered for the standard data types:
    [GetAttributeSerializer] gives [None], and the call of a method of
    [None] raises [AttributeError]. No filter expression is parsed
    below. *)
Definition no_json_serializer (data_type : string) (value : pyvalue)
  : result pyvalue := Raise AttributeError.

Definition no_json_deserializer (data_type : string) (value : sqlvalue)
  : result pyvalue := Raise AttributeError.

Definition no_parser (filter_expression : string) : result AST2SQL.expr :=
  Raise (ValueError "no parser").

Definition std_step : call -> M returned :=
  step standard_data_types no_json_serializer no_json_deserializer.

Definition std_run : list call -> world -> world :=
  run standard_data_types no_json_serializer no_json_deserializer.

Definition std_Open : option string -> bool -> M unit :=
  Open SQLiteAttributeContainerStore_versions.

(** The container class of the examples: type [event] with the schema
    [{a: int, b: str}]. *)
Definition event_class : container_class :=
  mkClass "event" (Some (list_to_map [("a", "int"); ("b", "str")])).

Definition event_attributes (a : Z) (b : string) : gmap string pyvalue :=
  list_to_map [("a", PyInt a); ("b", PyStr b)].

(** A new store object, the class [event] registered, no file yet. *)
Definition initial_world : world :=
  mkWorld ∅ (RegisterAttributeContainer ∅ event_class).1 []
    (init_store SQLiteAttributeContainerStore_versions).

(** The store opened read-write on a new file. *)
Definition opened_world : world :=
  (std_Open (Some "/tmp/store.sqlite") false initial_world).1.

(** A [metadata] table as [_WriteMetadata] lays it out. *)
Definition metadata_table (key_values : list (string * string)) : table :=
  mkTable [("key", "TEXT"); ("value", "TEXT")]
    ((fun kv : string * string =>
        {["key" := SqlText kv.1; "value" := SqlText kv.2]}) <$> key_values).

(** A store database with the given format version and serialization
    format and no container table, and the file that holds it. *)
Definition store_database (format_version serialization_format : string)
  : database :=
  mkDatabase
    {["metadata" :=
        metadata_table [("format_version", format_version);
                        ("serialization_format", serialization_format)]]}.

Definition store_file (format_version serialization_format : string) : file :=
  DatabaseFile (store_database format_version serialization_format).

(** The dictionary [_ReadMetadata] builds from such a database. *)
Definition store_metadata_values (format_version serialization_format : string)
  : gmap string sqlvalue :=
  <["serialization_format" := SqlText serialization_format]>
    (<["format_version" := SqlText format_version]> ∅).

(** Files for the format probe: a store, a store whose [format_version]
    is no number, a store without [format_version], and a file that is no
    database; nothing at any other path. *)
Definition probe_world : world :=
  mkWorld
    (list_to_map
       [("/tmp/good.sqlite", store_file "20230312" "json");
        ("/tmp/unparsable.sqlite", store_file "abc" "json");
        ("/tmp/unversioned.sqlite",
         DatabaseFile
           (mkDatabase
              {["metadata" :=
                  metadata_table [("serialization_format", "json")]]}));
        ("/tmp/text.txt", NotADatabase)])
    ∅ [] (init_store SQLiteAttributeContainerStore_versions).

(** A closed store object and two store files: one of the current format
    version, one of a version older than every floor of the class. *)
Definition version_world : world :=
  mkWorld
    (list_to_map
       [("/tmp/good.sqlite", store_file "20230312" "json");
        ("/tmp/old.sqlite", store_file "20220101" "json")])
    ∅ [] (init_store SQLiteAttributeContainerStore_versions).

(** The constants of a subclass that still reads files from 2020 on but
    appends to files of the append floor of the class only. *)
Definition older_read_floor_versions : version_constants :=
  mkVersions 20230312 20221023 20221023 20200101.

(** The caller builds [n] containers of type [event] and adds each of them
    as a new container, with no other call in between. *)
Definition write_events (n : nat) : list call :=
  flat_map
    (fun i => [NewContainer event_class (event_attributes (Z.of_nat i) "x");
               CallAdd i])
    (seq 0 n).

(** A new [event] container is added, so that its row waits in the write
    cache, and then its class is removed from the registry. *)
Definition deregistered_world : world :=
  std_run
    [NewContainer event_class (event_attributes 1 "x");
     CallAdd 0%nat;
     CallDeregister event_class]
    opened_world.

(** *** Reading through the cache and reading the storage *)

(** The attributes of the container a call returned. *)
Definition attributes_of (r : world * result (option objref))
  : option (gmap string pyvalue) :=
  match r with
  | (w, Return (Some container)) => attributes <$> objects w !! container
  | _ => None
  end.

Definition clear_read_cache (w : world) : world :=
  mkWorld (files w) (classes w) (objects w) (set_cache [] (self w)).

Definition has_cache_entry (w : world) (container_type : string) (index : Z)
  : bool :=
  bool_decide (is_Some (od_get (lookup_key_of container_type index)
                          (_attribute_container_cache (self w)))).

(** What [GetAttributeContainerByIndex] returns in the world as it is. *)
Definition cached_read (container_type : string) (index : Z) (w : world)
  : option (gmap string pyvalue) :=
  attributes_of
    (GetAttributeContainerByIndex standard_data_types no_json_deserializer
       container_type index w).

(** What the same call reconstructs from row [index + 1] of the storage,
    the read cache being empty. *)
Definition storage_read (container_type : string) (index : Z) (w : world)
  : option (gmap string pyvalue) :=
  attributes_of
    (GetAttributeContainerByIndex standard_data_types no_json_deserializer
       container_type index (clear_read_cache w)).

(** A new container [{a: 1, b: x}] is added; a second object that carries
    the identifier [event.1] and the values [{a: 2, b: y}] is written as
    the existing container. *)
Definition update_with_another_object : list call :=
  [NewContainer event_class (event_attributes 1 "x");
   CallAdd 0%nat;
   NewContainer event_class (event_attributes 2 "y");
   CallSetIdentifier 1%nat (init (Some "event") (Some 1%Z));
   CallUpdate 1%nat].

End Store.

(** ** [acstore/containers/interface.py]: the attribute container *)

Module ContainerObject.
Import Identifier Store.

(** An attribute container as the accessors of the base class see it:
    the class attribute [_SERIALIZABLE_PROTECTED_ATTRIBUTES] and the
    instance dictionary [__dict__], which keeps the order in which the
    attributes were first set and in which [None] is a value like any
    other. *)
Record AttributeContainer : Type := mkObject {
  _SERIALIZABLE_PROTECTED_ATTRIBUTES : list string;
  __dict__ : list (string * option pyvalue)
}.

(** [AttributeContainer.__init__]: [_identifier] is the first attribute
    set. *)
Definition init (protected : list string) (CONTAINER_TYPE : option string)
    (id : Z) : AttributeContainer :=
  mkObject protected
    [("_identifier",
      Some (PyIdentifier (Identifier.init CONTAINER_TYPE (Some id))))].

(** [attribute_name[0] != '_'], which raises [IndexError] on the empty
    name. *)
Definition is_public (attribute_name : string) : result bool :=
  match attribute_name with
  | EmptyString => Raise IndexError
  | String c _ => Return (negb (Ascii.eqb c "_"%char))
  end.

(** [attribute_name[0] != '_' or
     attribute_name in self._SERIALIZABLE_PROTECTED_ATTRIBUTES]. *)
Definition is_serialized (protected : list string) (attribute_name : string)
  : result bool :=
  match is_public attribute_name with
  | Raise e => Raise e
  | Return true => Return true
  | Return false => Return (bool_decide (attribute_name ∈ protected))
  end.

(** [CopyFromDict]: the items are taken in the order of the dictionary,
    and an exception leaves the attributes set so far. *)
Fixpoint CopyFromDict (self : AttributeContainer)
    (attributes : list (string * option pyvalue))
  : AttributeContainer * result unit :=
  match attributes with
  | [] => (self, Return tt)
  | (attribute_name, attribute_value) :: rest =>
      match is_serialized (_SERIALIZABLE_PROTECTED_ATTRIBUTES self)
              attribute_name with
      | Raise e => (self, Raise e)
      | Return true =>
          CopyFromDict
            (mkObject (_SERIALIZABLE_PROTECTED_ATTRIBUTES self)
               (od_set attribute_name attribute_value (__dict__ self)))
            rest
      | Return false => CopyFromDict self rest
      end
  end.

(** The generator [GetAttributes], run to its end: the name of an
    attribute that is [None] is not looked at. *)
Fixpoint GetAttributes_items (protected : list string)
    (items : list (string * option pyvalue))
  : result (list (string * pyvalue)) :=
  match items with
  | [] => Return []
  | (attribute_name, None) :: rest => GetAttributes_items protected rest
  | (attribute_name, Some attribute_value) :: rest =>
      match is_serialized protected attribute_name with
      | Raise e => Raise e
      | Return serialized =>
          match GetAttributes_items protected rest with
          | Raise e => Raise e
          | Return yielded =>
              Return (if serialized
                      then (attribute_name, attribute_value) :: yielded
                      else yielded)
          end
      end
  end.

Definition GetAttributes (self : AttributeContainer)
  : result (list (string * pyvalue)) :=
  GetAttributes_items (_SERIALIZABLE_PROTECTED_ATTRIBUTES self) (__dict__ self).

(** [CopyToDict]: [dict(self.GetAttributes())]; the names of the items
    are distinct, being keys of [__dict__]. *)
Definition CopyToDict (self : AttributeContainer)
  : result (list (string * pyvalue)) :=
  GetAttributes self.

(** The loop of [GetAttributeNames] over the names of [__dict__]. *)
Fixpoint public_names (names : list string) : result (list string) :=
  match names with
  | [] => Return []
  | attribute_name :: rest =>
      match is_public attribute_name with
      | Raise e => Raise e
      | Return public =>
          match public_names rest with
          | Raise e => Raise e
          | Return found =>
              Return (if public then attribute_name :: found else found)
          end
      end
  end.

Definition GetAttributeNames (self : AttributeContainer)
  : result (list string) :=
  match public_names (__dict__ self).*1 with
  | Raise e => Raise e
  | Return found =>
      Return (_SERIALIZABLE_PROTECTED_ATTRIBUTES self ++ found)%list
  end.

(** [GetIdentifier] and [SetIdentifier]: the attribute [_identifier]. *)
Definition GetIdentifier (self : AttributeContainer)
  : result (option pyvalue) :=
  match od_get "_identifier" (__dict__ self) with
  | Some value => Return value
  | None => Raise AttributeError
  end.

Definition SetIdentifier (self : AttributeContainer)
    (identifier : AttributeContainerIdentifier) : AttributeContainer :=
  mkObject (_SERIALIZABLE_PROTECTED_ATTRIBUTES self)
    (od_set "_identifier" (Some (PyIdentifier identifier)) (__dict__ self)).

(** The items [CopyFromDict] sets on the object: those whose name is
    public or listed as serializable, [None] values included. *)
Definition kept (protected : list string)
    (attributes : list (string * option pyvalue))
  : list (string * option pyvalue) :=
  List.filter
    (fun item : string * option pyvalue =>
       match is_serialized protected item.1 with
       | Return true => true
       | _ => false
       end) attributes.

(** The items [CopyToDict] gives back of the items handed to
    [CopyFromDict]: those that are not [None] and whose name is public or
    listed as serializable. *)
Definition serialized_items (protected : list string)
    (attributes : list (string * option pyvalue))
  : list (string * pyvalue) :=
  omap (fun item : string * option pyvalue =>
          match is_serialized protected item.1, item.2 with
          | Return true, Some value => Some (item.1, value)
          | _, _ => None
          end) attributes.

End ContainerObject.

(** ** Predicates and relations of the further properties *)

Module StoreSpec.
Import Identifier Manager Store.

(** A runtime value of the Python type that a data type of a schema
    stands for, and that SQLite stores: an integer fits 64 bits; an
    identifier has both fields set, a name without a dot and a sequence
    number of 64 bits. *)
Definition matches_data_type (data_type : string) (v : pyvalue) : bool :=
  match v with
  | PyBool _ => String.eqb data_type "bool"
  | PyInt n =>
      (String.eqb data_type "int" || String.eqb data_type "timestamp")
      && is_sqlite_integer n
  | PyStr _ => String.eqb data_type "str"
  | PyIdentifier i =>
      String.eqb data_type "AttributeContainerIdentifier"
      && match name i, sequence_number i with
         | Some n, Some s =>
             negb (PyStr.contains PyStr.dot n) && is_sqlite_integer s
         | _, _ => false
         end
  | PyObject _ => false
  end.

(** A monadic call whose effect on the world stays within a relation. *)
Definition respects {A} (R : world -> world -> Prop) (m : M A) : Prop :=
  forall w, R w (m w).1.

(** No sequence counter has gone down between [w] and [w']. *)
Definition counters_advance (w w' : world) : Prop :=
  forall container_type,
    (sequence_number_of (self w) container_type
     <= sequence_number_of (self w') container_type)%Z.

(** The read cache holds no more than [_MAXIMUM_CACHED_CONTAINERS]
    entries. *)
Definition read_cache_within_bound (w : world) : Prop :=
  (length (_attribute_container_cache (self w))
   <= _MAXIMUM_CACHED_CONTAINERS)%nat.

(** No list of the write cache has reached [_MAXIMUM_WRITE_CACHE_SIZE]
    elements. *)
Definition write_cache_within_bound (w : world) : Prop :=
  forall container_type write_cache,
    _write_cache (self w) !! container_type = Some write_cache ->
    (length write_cache < _MAXIMUM_WRITE_CACHE_SIZE)%nat.

(** The store has a connection that was opened with [mode=ro]. *)
Definition read_only_connection (w : world) : Prop :=
  exists conn,
    _connection (self w) = Some conn /\ conn_read_only conn = true.

(** A property of the world that holds after whenever it held before. *)
Definition maintains (P : world -> Prop) (w w' : world) : Prop :=
  P w -> P w'.

(** With a read-only connection before, there is one after, and it sees
    the same database next to the same files. *)
Definition untouched_when_read_only (w w' : world) : Prop :=
  read_only_connection w ->
  read_only_connection w'
  /\ database_of w' = database_of w /\ files w' = files w.

(** The store opened read-only on a file of the current format
    version. *)
Definition read_only_world : world :=
  (std_Open (Some "/tmp/good.sqlite") true version_world).1.

(** The world with another state of the store object. *)
Definition with_self (w : world) (s : SQLiteAttributeContainerStore) : world :=
  mkWorld (files w) (classes w) (objects w) s.

(** The world once [Open] has stored the connection in the store
    object. *)
Definition connected (conn : connection) (read_only : bool) (w : world)
  : world :=
  with_self w
    (set_read_only read_only
       (set_is_open true (set_connection (Some conn) (self w)))).

(** Between [w] and [w'] the store has stayed open or closed, read-only
    or not, with or without a connection, and the read cache, the
    container objects and the registry are the same. *)
Definition keeps_session (w w' : world) : Prop :=
  _is_open (self w') = _is_open (self w)
  /\ _read_only (self w') = _read_only (self w)
  /\ (is_Some (_connection (self w')) <-> is_Some (_connection (self w)))
  /\ _attribute_container_cache (self w')
     = _attribute_container_cache (self w)
  /\ objects w' = objects w
  /\ classes w' = classes w.

(** Nothing but the storage has changed: the connection, the files and
    the write cache may differ. *)
Definition only_storage_changes (w w' : world) : Prop :=
  keeps_session w w'
  /\ _attribute_container_sequence_numbers (self w')
     = _attribute_container_sequence_numbers (self w).

(** The identifier of the container object behind a reference. *)
Definition identifier_of (w : world) (container : objref)
  : option AttributeContainerIdentifier :=
  _identifier <$> objects w !! container.

(** The container type of the object behind a reference. *)
Definition container_type_of (w : world) (container : objref)
  : option string :=
  (fun c => CONTAINER_TYPE (class_of c)) <$> objects w !! container.

(** The connection of [w'] is on the same file and in the same mode as
    the connection of [w], and the files are the same. *)
Definition same_database_file (w w' : world) : Prop :=
  conn_path <$> _connection (self w') = conn_path <$> _connection (self w)
  /\ conn_read_only <$> _connection (self w')
     = conn_read_only <$> _connection (self w)
  /\ files w' = files w.

(** The rows of the table of a type in a database. *)
Definition rows_of (db : database) (container_type : string)
  : list (gmap string sqlvalue) :=
  default [] (rows <$> tables db !! container_type).

(** A class of type [event] again, with another schema: [{c: int}]. *)
Definition event_class_changed : container_class :=
  mkClass "event" (Some (list_to_map [("c", "int")])).

(** A new [event] container is added, its class is replaced in the
    registry by the class with the other schema, and a container of that
    class is added: the rows of both wait in the write cache, under the
    column names of the first. *)
Definition schema_changed_world : world :=
  std_run
    [NewContainer event_class (event_attributes 1 "x");
     CallAdd 0%nat;
     CallDeregister event_class;
     CallRegister event_class_changed;
     NewContainer event_class_changed {["c" := PyInt 3]};
     CallAdd 1%nat]
    opened_world.

(** Nothing but the sequence counters, the log of the connection and
    the format attributes of the store has changed. *)
Definition only_counters_change (w w' : world) : Prop :=
  keeps_session w w'
  /\ same_database_file w w'
  /\ database_of w' = database_of w
  /\ _write_cache (self w') = _write_cache (self w).

(** The part of [Open] between storing the connection and seeding the
    sequence counters: the metadata is checked, or written when the file
    has none. *)
Definition check_or_write_metadata (versions : version_constants)
    (read_only : bool) : M unit :=
  if read_only then _ReadAndCheckStorageMetadata versions true
  else
    let* has_table := _HasTable "metadata" in
    let* _ :=
      if negb has_table then _WriteMetadata versions
      else
        let* _ := _ReadAndCheckStorageMetadata versions false in
        _UpdateStorageMetadataFormatVersion versions in
    commit.

(** The body of the loop that ends [Open]. *)
Definition seed_sequence_number (container_type : string) : M unit :=
  let* next_sequence_number :=
    GetNumberOfAttributeContainers container_type in
  _SetAttributeContainerNextSequenceNumber container_type next_sequence_number.

(** Another process: a new store object and an empty registry next to
    the files of a world. *)
Definition new_process (w : world) : world :=
  mkWorld (files w) ∅ [] (init_store SQLiteAttributeContainerStore_versions).

(** Two [event] containers are added to a new store, the store is closed,
    and another process, which has no class registered, opens the file
    read-write and registers the class [event] after that. *)
Definition late_registration_world : world :=
  std_run [CallRegister event_class]
    (std_Open (Some "/tmp/store.sqlite") false
       (new_process (Close (std_run (write_events 2) opened_world)).1)).1.

(** The sequence counter of a type is the number of its rows, those of
    the table and those that wait in the write cache, and the list of the
    type in the write cache, when there is one, has a first element. *)
Definition counter_matches_rows (w : world) (container_type : string) : Prop :=
  sequence_number_of (self w) container_type
  = Z.of_nat (length (stored_rows w container_type)
              + length (pending_rows w container_type))
  /\ _write_cache (self w) !! container_type <> Some [].

(** The opened store and two [event] containers the caller has built
    and not yet added. *)
Definition two_new_events_world : world :=
  std_run
    [NewContainer event_class (event_attributes 1 "x");
     NewContainer event_class (event_attributes 2 "y")]
    opened_world.

(** A class without a schema, and the opened store with a container of
    that class that is not yet added. *)
Definition note_class : container_class := mkClass "note" None.

Definition new_note_world : world :=
  std_run [NewContainer note_class ∅] opened_world.

(** Every attribute of the schema has a supported data type, and the
    attributes that are set have values of the Python type of theirs. *)
Definition well_typed (HasDataType : string -> bool)
    (schema : gmap string string) (attrs : gmap string pyvalue) : Prop :=
  forall name data_type,
    schema !! name = Some data_type ->
    HasDataType data_type = true
    /\ forall v, attrs !! name = Some v ->
                 matches_data_type data_type v = true.

(** The attributes of a container that its schema names: the ones that
    are written to its row. *)
Definition schema_attributes (schema : gmap string string)
    (attrs : gmap string pyvalue) : gmap string pyvalue :=
  filter (fun item : string * pyvalue => is_Some (schema !! item.1)) attrs.

(** What is stored in the column of an attribute: the value
    [SerializeValue] gives as sqlite3 binds it, [None] being [NULL]. *)
Definition stored_value (HasDataType : string -> bool)
    (JsonSerializeValue : string -> pyvalue -> result pyvalue)
    (attrs : gmap string pyvalue) (item : string * string)
  : option sqlvalue :=
  match SerializeValue HasDataType JsonSerializeValue item.2
          (attrs !! item.1) with
  | Return serialized =>
      match bind_parameter serialized with
      | Return stored => stored
      | Raise _ => None
      end
  | Raise _ => None
  end.

(** The value [SerializeValue] gives for an attribute, [None] when it
    raises. *)
Definition serialized_value (HasDataType : string -> bool)
    (JsonSerializeValue : string -> pyvalue -> result pyvalue)
    (attrs : gmap string pyvalue) (item : string * string)
  : option pyvalue :=
  match SerializeValue HasDataType JsonSerializeValue item.2
          (attrs !! item.1) with
  | Return serialized => serialized
  | Raise _ => None
  end.

(** The attributes a container read from a row has once the columns
    [names] have been gone through. *)
Definition read_attributes (attrs : gmap string pyvalue)
    (acc : gmap string pyvalue) (names : list string) : gmap string pyvalue :=
  foldl (fun acc name =>
           match attrs !! name with
           | Some v => <[name := v]> acc
           | None => acc
           end) acc names.

(** The table of a type, as the connection sees it. *)
Definition table_of (w : world) (container_type : string) : option table :=
  database_of w ≫= fun db => tables db !! container_type.

(** The columns [_CreateAttributeContainerTable] gives the table of a
    schema. *)
Definition created_columns (schema : gmap string string)
  : list (string * string) :=
  ("_identifier", "INTEGER PRIMARY KEY AUTOINCREMENT")
  :: ((fun nd : string * string => (nd.1, GetStorageDataType nd.2))
        <$> sorted_items schema).

(** The table of the type, when there is one, is the table
    [_CreateAttributeContainerTable] makes for the schema. *)
Definition table_as_created (w : world) (container_type : string)
    (schema : gmap string string) : bool :=
  from_option (fun t => bool_decide (columns t = created_columns schema))
    true (table_of w container_type).

(** No table of the database has the name of the type in another letter
    case: SQLite takes the names of tables without regard to the case of
    the letters [A] to [Z]. *)
Definition no_other_case (w : world) (container_type : string) : bool :=
  from_option
    (fun db =>
       forallb (fun name =>
                  negb (String.eqb (PyStr.lower name)
                          (PyStr.lower container_type))
                  || String.eqb name container_type)
         (map_to_list (tables db)).*1)
    true (database_of w).

(** A schema whose attribute names are plain names. *)
Definition plain_schema (schema : gmap string string) : bool :=
  forallb plain_name (sorted_items schema).*1.

(** The check of [well_typed] over the items of the schema. *)
Definition check_well_typed (HasDataType : string -> bool)
    (schema : gmap string string) (attrs : gmap string pyvalue) : bool :=
  forallb (fun item : string * string =>
             HasDataType item.2
             && from_option (matches_data_type item.2) true (attrs !! item.1))
    (sorted_items schema).

(** The world with the read cache replaced. *)
Definition with_read_cache (w : world) (cache : list (string * objref))
  : world :=
  with_self w (set_cache cache (self w)).

(** The opened store and an [event] container that has an attribute its
    schema does not name. *)
Definition event_with_note_world : world :=
  std_run
    [NewContainer event_class
       (<["note" := PyStr "n"]> (event_attributes 1 "x"))]
    opened_world.

(** The row [UPDATE ... SET] leaves: a column bound to a value holds it, a
    column bound to [None] holds [NULL]. *)
Definition set_columns (row : gmap string sqlvalue)
    (column_values : list (string * option sqlvalue)) : gmap string sqlvalue :=
  foldl (fun r (nv : string * option sqlvalue) =>
           match nv.2 with
           | Some v => <[nv.1 := v]> r
           | None => delete nv.1 r
           end) row column_values.

(** An [event] container is added and its row written, then the caller
    changes one attribute of the object and deletes the other. *)
Definition stored_event_changed_world : world :=
  std_run
    [NewContainer event_class (event_attributes 1 "x");
     CallAdd 0%nat;
     CallFlush;
     SetAttribute 0%nat "a" (Some (PyInt 5));
     SetAttribute 0%nat "b" None]
    opened_world.

End StoreSpec.

(** * Properties *)

(** ** Strings *)

Module PyStrFacts.
Import PyStr.

Lemma rev_onto_rev_onto (s acc : string) :
  rev_onto (rev_onto s acc) EmptyString = rev_onto acc s.
Proof.
  revert acc. induction s as [|c s IH]; intros acc; simpl; [done|].
  by rewrite IH.
Qed.

Lemma reverse_involutive (s : string) : reverse (reverse s) = s.
Proof. unfold reverse. by rewrite rev_onto_rev_onto. Qed.

Lemma all_chars_rev_onto p (s acc : string) :
  all_chars p s = true -> all_chars p acc = true ->
  all_chars p (rev_onto s acc) = true.
Proof.
  revert acc. induction s as [|c s IH]; intros acc Hs Hacc; simpl in *; [done|].
  apply andb_prop in Hs as [Hc Hs]. apply IH; [done|]. simpl. by rewrite Hc.
Qed.

Lemma lstrip_no_space (s : string) :
  all_chars (fun c => negb (is_space c)) s = true -> lstrip s = s.
Proof.
  destruct s as [|c s]; simpl; [done|]. intros H.
  apply andb_prop in H as [Hc _]. by destruct (is_space c).
Qed.

Lemma strip_no_space (s : string) :
  all_chars (fun c => negb (is_space c)) s = true -> strip s = s.
Proof.
  intros H. unfold strip. rewrite (lstrip_no_space s H).
  rewrite lstrip_no_space; [apply reverse_involutive|].
  by apply all_chars_rev_onto.
Qed.

Lemma all_chars_impl (p q : ascii -> bool) (s : string) :
  (forall c, p c = true -> q c = true) ->
  all_chars p s = true -> all_chars q s = true.
Proof.
  intros Hpq. induction s as [|c s IH]; simpl; [done|].
  intros H. apply andb_prop in H as [Hc Hs]. by rewrite (Hpq c Hc), IH.
Qed.

Lemma all_chars_app p (s t : string) :
  all_chars p (s +:+ t) = all_chars p s && all_chars p t.
Proof.
  induction s as [|c s IH]; simpl; [done|]. by rewrite IH, andb_assoc.
Qed.

(** The decimal text of a number is made of digits. *)
Lemma string_of_uint_digits (d : Decimal.uint) :
  all_chars is_digit (NilEmpty.string_of_uint d) = true.
Proof. induction d; simpl; done. Qed.

Lemma is_digit_facts (c : ascii) :
  is_digit c = true ->
  is_space c = false /\ Ascii.eqb c dot = false
  /\ Ascii.eqb c "-"%char = false /\ Ascii.eqb c "+"%char = false.
Proof.
  destruct c as [[] [] [] [] [] [] [] []]; vm_compute; try discriminate; done.
Qed.

Lemma digits_string_of_uint (d : Decimal.uint) :
  digits true (NilEmpty.string_of_uint d) = Some d.
Proof. induction d; simpl; [done|by rewrite IHd..]. Qed.

Lemma digits_string_of_uint_nonnil (d : Decimal.uint) :
  d <> Decimal.Nil -> digits false (NilEmpty.string_of_uint d) = Some d.
Proof.
  destruct d; [done|..]; intros _; simpl; by rewrite digits_string_of_uint.
Qed.

(** On the text of a positive number [int] takes the unsigned branch. *)
Lemma int_unsigned (s : string) :
  all_chars is_digit s = true ->
  PyStr.int s = (fun d => Z.of_int (Decimal.Pos d)) <$> digits false s.
Proof.
  intros H. unfold PyStr.int.
  rewrite strip_no_space.
  2:{ eapply all_chars_impl; [|exact H]. intros c Hc.
      by destruct (is_digit_facts c Hc) as (-> & _). }
  destruct s as [|c s]; [done|]. simpl in H.
  apply andb_prop in H as [Hc _].
  destruct (is_digit_facts c Hc) as (_ & _ & Hm & Hp).
  destruct c as [[] [] [] [] [] [] [] []]; try done.
Qed.

Lemma int_negative (s : string) :
  all_chars is_digit s = true ->
  PyStr.int (String "-"%char s)
  = (fun d => Z.of_int (Decimal.Neg d)) <$> digits false s.
Proof.
  intros H. unfold PyStr.int.
  rewrite strip_no_space; [done|].
  simpl. eapply all_chars_impl; [|exact H]. intros c Hc.
  by destruct (is_digit_facts c Hc) as (-> & _).
Qed.

Lemma string_of_uint_nonnil (d : Decimal.uint) :
  d <> Decimal.Nil ->
  NilZero.string_of_uint d = NilEmpty.string_of_uint d.
Proof. by destruct d. Qed.

(** [int(f'{n:d}', 10) == n]. *)
Lemma int_format_d (n : Z) : PyStr.int (format_d n) = Some n.
Proof.
  unfold format_d. destruct n as [|p|p]; [done|..]; simpl.
  - pose proof (DecimalPos.Unsigned.to_uint_nonnil p) as Hnil.
    rewrite string_of_uint_nonnil by done.
    rewrite int_unsigned by apply string_of_uint_digits.
    rewrite digits_string_of_uint_nonnil by done. simpl.
    f_equal. apply (DecimalZ.of_to (Z.pos p)).
  - pose proof (DecimalPos.Unsigned.to_uint_nonnil p) as Hnil.
    rewrite string_of_uint_nonnil by done.
    rewrite int_negative by apply string_of_uint_digits.
    rewrite digits_string_of_uint_nonnil by done. simpl.
    f_equal. apply (DecimalZ.of_to (Z.neg p)).
Qed.

Lemma split_no_separator (sep : ascii) (s : string) :
  contains sep s = false -> split sep s = [s].
Proof.
  induction s as [|c s IH]; simpl; [done|]. intros H.
  apply orb_false_elim in H as [Hc Hs]. rewrite Hc, IH; done.
Qed.

Lemma split_app (sep : ascii) (s t : string) :
  contains sep s = false ->
  split sep (s +:+ String sep t) = s :: split sep t.
Proof.
  induction s as [|c s IH]; simpl; intros H.
  - by rewrite Ascii.eqb_refl.
  - apply orb_false_elim in H as [Hc Hs]. by rewrite Hc, IH.
Qed.

Lemma format_d_no_dot (n : Z) : contains dot (format_d n) = false.
Proof.
  assert (forall s, all_chars is_digit s = true -> contains dot s = false) as Hd.
  { induction s as [|c s IH]; simpl; [done|]. intros H.
    apply andb_prop in H as [Hc Hs].
    destruct (is_digit_facts c Hc) as (_ & -> & _). by rewrite IH. }
  unfold format_d. destruct n as [|p|p]; [done|..]; simpl.
  - rewrite string_of_uint_nonnil
      by apply DecimalPos.Unsigned.to_uint_nonnil.
    apply Hd, string_of_uint_digits.
  - rewrite string_of_uint_nonnil
      by apply DecimalPos.Unsigned.to_uint_nonnil.
    simpl.
    apply Hd, string_of_uint_digits.
Qed.

End PyStrFacts.

(** ** The identifier *)

Module IdentifierProofs.
Import Identifier.

(** C5, as stated, fails: a type name that holds the separator, such as
    [a.b], gives the string [a.b.1], which [CopyFromString] refuses
    without changing the identifier it was called on. *)
Lemma C5_round_trip_fails_on_dotted_name :
  "a.b" <> EmptyString /\ (1 <= 1)%Z
  /\ CopyToString (init (Some "a.b") (Some 1%Z)) = Some "a.b.1"
  /\ CopyFromString (init None None) "a.b.1"
     = (init None None, Raise (ValueError "unpack")).
Proof. repeat split; try done. Qed.

(** C5, amended: for every non-empty type name without a dot and every
    sequence number from 1 on, [CopyToString] gives [name.sequence], and
    [CopyFromString] of that string, on any identifier object, gives back
    the name and the sequence number; [CopyToString] gives [None] when
    either field is [None]. *)
Theorem C5_identifier_round_trip (type : string) (sequence : Z) :
  type <> EmptyString ->
  PyStr.contains PyStr.dot type = false ->
  (1 <= sequence)%Z ->
  CopyToString (init (Some type) (Some sequence))
  = Some (type +:+ "." +:+ PyStr.format_d sequence)
  /\ (forall self,
        CopyFromString self (type +:+ "." +:+ PyStr.format_d sequence)
        = (init (Some type) (Some sequence), Return tt))
  /\ (forall n, CopyToString (init None n) = None)
  /\ (forall n, CopyToString (init n None) = None).
Proof.
  intros _ Hdot _. split; [done|]. split; [|split; [done|by intros []]].
  intros self. unfold CopyFromString.
  change ("." +:+ PyStr.format_d sequence)
    with (String PyStr.dot (PyStr.format_d sequence)).
  rewrite PyStrFacts.split_app by done.
  rewrite PyStrFacts.split_no_separator by apply PyStrFacts.format_d_no_dot.
  by rewrite PyStrFacts.int_format_d.
Qed.

Lemma C5_identifier_round_trip_witness :
  CopyToString (init (Some "event") (Some 7%Z)) = Some "event.7"
  /\ CopyFromString (init None None) "event.7"
     = (init (Some "event") (Some 7%Z), Return tt).
Proof.
  destruct (C5_identifier_round_trip "event" 7) as (H1 & H2 & _);
    [done | reflexivity | lia |].
  split; [exact H1 | exact (H2 (init None None))].
Defined.

End IdentifierProofs.

(** ** The container class registry *)

Module ManagerProofs.
Import Manager.

Lemma lower_char_not_upper (c : ascii) :
  PyStr.is_upper (PyStr.lower_char c) = false.
Proof. destruct c as [[] [] [] [] [] [] [] []]; reflexivity. Qed.

Lemma lower_has_no_upper (s : string) :
  PyStr.has_upper (PyStr.lower s) = false.
Proof.
  induction s as [|c s IH]; simpl; [done|].
  by rewrite lower_char_not_upper, IH.
Qed.

(** A name with an upper case letter is not the lower case form of any
    name. *)
Lemma upper_not_lower (s t : string) :
  PyStr.has_upper s = true -> s <> PyStr.lower t.
Proof.
  intros Hs ->. by rewrite lower_has_no_upper in Hs.
Qed.

Lemma keyed_by_lower_apply (classes : registry) (c : call) :
  keyed_by_lower classes -> keyed_by_lower (apply_call classes c).
Proof.
  intros Hinv. destruct c as [cls|cls]; simpl.
  - unfold RegisterAttributeContainer.
    destruct (classes !! PyStr.lower (CONTAINER_TYPE cls)) eqn:E; simpl; [done|].
    intros k c'. rewrite lookup_insert. case_decide as Hk.
    + intros [= <-]. done.
    + apply Hinv.
  - unfold DeregisterAttributeContainer.
    destruct (classes !! PyStr.lower (CONTAINER_TYPE cls)) eqn:E; simpl; [|done].
    intros k c'. rewrite lookup_delete. case_decide; [done|]. apply Hinv.
Qed.

Lemma keyed_by_lower_fold (calls : list call) (classes : registry) :
  keyed_by_lower classes -> keyed_by_lower (fold_left apply_call calls classes).
Proof.
  revert classes. induction calls as [|c calls IH]; intros classes H; simpl.
  - done.
  - apply IH. by apply keyed_by_lower_apply.
Qed.

Lemma keyed_by_lower_run (calls : list call) : keyed_by_lower (run calls).
Proof. apply keyed_by_lower_fold. intros k c. by rewrite lookup_empty. Qed.




End ManagerProofs.

(** ** The filter expression translator *)

Module AST2SQLProofs.
Import AST2SQL.

(** Induction on expressions; the nodes the translator refuses at once
    need no hypothesis on their parts. *)
Lemma expr_induction (P : expr -> Prop) :
  (forall op values, Forall P values -> P (BoolOp op values)) ->
  (forall left_ ops comparators,
      P left_ -> Forall P comparators -> P (Compare left_ ops comparators)) ->
  (forall value, P (Constant value)) ->
  (forall id, P (Name id)) ->
  (forall e,
      match e with
      | BoolOp _ _ | Compare _ _ _ | Constant _ | Name _ => False
      | _ => True
      end -> P e) ->
  forall e, P e.
Proof.
  intros HBool HCompare HConstant HName HOther.
  fix IH 1. intros e.
  destruct e as [op values|left_ ops comparators|value|id| | | | | | | | | | ];
    try (apply HOther; exact I).
  - apply HBool.
    exact ((fix all (l : list expr) : Forall P l :=
              match l with
              | [] => @List.Forall_nil _ P
              | x :: l' => @List.Forall_cons _ P x l' (IH x) (all l')
              end) values).
  - apply HCompare; [apply IH|].
    exact ((fix all (l : list expr) : Forall P l :=
              match l with
              | [] => @List.Forall_nil _ P
              | x :: l' => @List.Forall_cons _ P x l' (IH x) (all l')
              end) comparators).
  - apply HConstant.
  - apply HName.
Qed.

(** The translation of a list of operands, as [PythonAST2SQL] does it for a
    [BoolOp]. *)
Lemma BoolOp_unfold (op : boolop) (values : list expr) :
  PythonAST2SQL (BoolOp op values)
  = match
      (fix each (nodes : list expr) : result (list string) :=
         match nodes with
         | [] => Return []
         | ast_node_value :: rest =>
             match PythonAST2SQL ast_node_value with
             | Raise e => Raise e
             | Return s =>
                 match each rest with
                 | Raise e => Raise e
                 | Return l => Return (s :: l)
                 end
             end
         end) values
    with
    | Raise e => Raise e
    | Return l =>
        Return (PyStr.join
                  match op with And_ => " AND " | Or_ => " OR " end l)
    end.
Proof. reflexivity. Qed.

(** A shape that [supported] rejects and the translator refuses. *)
Local Ltac refused := split; [simpl; intros [=] | reflexivity].

(** The translator succeeds on the supported shapes and raises
    [TypeError] on every other expression. *)
Lemma PythonAST2SQL_supported (e : expr) :
  (supported e = true -> exists sql, PythonAST2SQL e = Return sql)
  /\ (supported e = false -> PythonAST2SQL e = Raise TypeError).
Proof.
  induction e as [op values IH|left_ ops comparators IHl IHc|value|id|e He]
    using expr_induction.
  - rewrite BoolOp_unfold. simpl supported.
    induction IH as [|x l [Hx1 Hx2] _ IHl]; simpl.
    + split; [eauto|done].
    + destruct (supported x) eqn:Ex; simpl.
      * destruct (Hx1 eq_refl) as [sx ->].
        destruct IHl as [IH1 IH2].
        destruct (forallb supported l) eqn:El.
        -- destruct (IH1 eq_refl) as [sql Hsql].
           split; [intros _|done].
           destruct ((fix each (nodes : list expr) : result (list string) := _) l);
             [eauto|done].
        -- split; [done|intros _].
           specialize (IH2 eq_refl).
           destruct ((fix each (nodes : list expr) : result (list string) := _) l);
             [done|exact IH2].
      * split; [done|intros _]. by rewrite (Hx2 eq_refl).
  - destruct ops as [|op [|op' ops]]; [refused| |destruct op; refused].
    destruct IHl as [Hl1 Hl2].
    destruct comparators as [|c [|c' cs]];
      [destruct op; refused| |destruct op; refused].
    apply Forall_cons in IHc as [[Hc1 Hc2] _].
    destruct op; try refused; simpl;
      (destruct (supported left_) eqn:El; simpl;
       [ destruct (Hl1 eq_refl) as [sl ->];
         destruct (supported c) eqn:Ec;
         [ destruct (Hc1 eq_refl) as [sc ->]; split; [eauto|intros [=]]
         | rewrite (Hc2 eq_refl); split; [intros [=]|reflexivity] ]
       | rewrite (Hl2 eq_refl); split; [intros [=]|reflexivity] ]).
  - destruct value; simpl; split; eauto; done.
  - simpl; split; eauto; done.
  - destruct e; try done; by split.
Qed.



End AST2SQLProofs.

(** ** The store *)

Module StoreProofs.
Import Identifier Manager Store.

(** *** The monad *)

Lemma bind_inv {A B} (m : M A) (k : A -> M B) w w' r :
  bind m k w = (w', r) ->
  (exists w1 a, m w = (w1, Return a) /\ k a w1 = (w', r))
  \/ (exists e, m w = (w', Raise e) /\ r = Raise e).
Proof.
  unfold bind. destruct (m w) as [w1 [a|e]]; intros H.
  - left. eauto.
  - right. injection H as <- <-. eauto.
Qed.

Lemma bind_Return {A B} (m : M A) (k : A -> M B) w w' a :
  m w = (w', Return a) -> bind m k w = k a w'.
Proof. intros H. unfold bind. by rewrite H. Qed.

Lemma bind_Raise {A B} (m : M A) (k : A -> M B) w w' e :
  m w = (w', Raise e) -> bind m k w = (w', Raise e).
Proof. intros H. unfold bind. by rewrite H. Qed.

Lemma try_unable_to_query_Return {A} (m : M A) w w' a :
  try_except m unable_to_query w = (w', Return a) -> m w = (w', Return a).
Proof.
  unfold try_except. destruct (m w) as [w1 [a1|e]]; [done|].
  destruct e as [| | | | | | | |[]]; simpl; unfold raise; done.
Qed.

Lemma execute_Return {A} stmt (effect : connection -> result (database * A))
    w w' a :
  execute stmt effect w = (w', Return a) ->
  exists conn db,
    _connection (self w) = Some conn /\ effect conn = Return (db, a)
    /\ w' = mkWorld (files w) (classes w) (objects w)
              (set_connection
                 (Some (mkConnection (conn_path conn) (conn_read_only conn) db
                          (executed conn ++ [stmt]))) (self w)).
Proof.
  unfold execute. destruct (_connection (self w)) as [conn|]; [|done].
  destruct (effect conn) as [[db a']|e] eqn:E; [|done].
  intros H. simplify_eq. by exists conn, db.
Qed.

Lemma length_chunk_rows {A} (n k : nat) (l : list A) :
  length (chunk_rows n k l) = k.
Proof.
  revert l. induction k as [|k IH]; intros l; simpl; [done|]. by rewrite IH.
Qed.

Lemma sql_insert_Return name cols n values conn db :
  sql_insert name cols n values conn = Return (db, tt) ->
  exists t new_rows,
    tables (conn_db conn) !! name = Some t
    /\ length new_rows = n
    /\ db = mkDatabase
              (<[name := mkTable (columns t) (rows t ++ new_rows)]>
                 (tables (conn_db conn))).
Proof.
  unfold sql_insert. destruct (tables (conn_db conn) !! name) as [t|]; [|done].
  repeat case_match; try done. intros [= <-].
  eexists t, _. split; [done|]. split; [|done].
  by rewrite length_fmap, length_chunk_rows.
Qed.

(** What a flush that returns has done. *)
Lemma _FlushWriteCache_Return ty wc w w' :
  _FlushWriteCache ty wc true w = (w', Return tt) ->
  files w' = files w /\ classes w' = classes w /\ objects w' = objects w
  /\ _write_cache (self w') = <[ty := tail wc]> (_write_cache (self w))
  /\ length (stored_rows w' ty)
     = (length (stored_rows w ty) + length (tail wc))%nat
  /\ updates w' = updates w.
Proof.
  unfold _FlushWriteCache. destruct wc as [|first rest]; [done|].
  intros H.
  apply bind_inv in H as [(w1 & [] & H1 & H)|(e & _ & [=])].
  unfold modify_self in H1. injection H1 as <-.
  apply bind_inv in H as [(w2 & names & H2 & H)|(e & _ & [=])].
  assert (w2 = mkWorld (files w) (classes w) (objects w)
                 (set_write_cache (<[ty:=rest]> (_write_cache (self w))) (self w)))
    as ->.
  { destruct first as [names'|values]; [by injection H2 as <- _|].
    destruct (as_strings values); by injection H2 as <-. }
  apply try_unable_to_query_Return in H.
  apply execute_Return in H as (conn & db & Hconn & Heff & ->).
  apply sql_insert_Return in Heff as (t & new_rows & Ht & Hlen & ->).
  simpl in Hconn. simpl.
  repeat split.
  - unfold stored_rows, database_of. simpl. rewrite Hconn. simpl.
    rewrite lookup_insert_eq, Ht. simpl. rewrite length_app. lia.
  - unfold updates, statements. simpl. rewrite Hconn. simpl.
    rewrite List.filter_app. simpl. by rewrite app_nil_r.
Qed.

Lemma _CommitWriteCache_Return ty w w' :
  _CommitWriteCache ty w = (w', Return tt) ->
  files w' = files w /\ classes w' = classes w /\ objects w' = objects w
  /\ pending_rows w' ty = []
  /\ length (stored_rows w' ty)
     = (length (stored_rows w ty) + length (pending_rows w ty))%nat
  /\ updates w' = updates w.
Proof.
  unfold _CommitWriteCache. intros H.
  apply bind_inv in H as [(w1 & s & [= <- <-] & H)|(e & [=] & _)].
  destruct (1 <? length _)%nat eqn:Hlen.
  - apply bind_inv in H as [(w1 & [] & H1 & H)|(e & _ & [=])].
    apply _FlushWriteCache_Return in H1 as (Hf & Hc & Ho & Hwc & Hrows & Hup).
    injection H as <-. simpl. repeat split; try done.
    unfold pending_rows. simpl. by rewrite lookup_delete_eq.
  - injection H as <-. apply Nat.ltb_ge in Hlen. unfold pending_rows.
    destruct (default [] _) as [|? [|]]; simpl in *;
      repeat split; try done; lia.
Qed.

(** *** Tables only grow *)

Lemma grows_refl w : grows w w.
Proof. by intros ty. Qed.

Lemma grows_trans w1 w2 w3 : grows w1 w2 -> grows w2 w3 -> grows w1 w3.
Proof. intros H1 H2 ty. specialize (H1 ty). specialize (H2 ty). lia. Qed.

(** A change that leaves the connection alone. *)
Lemma grows_same_connection w w' :
  _connection (self w') = _connection (self w) -> grows w w'.
Proof. intros H ty. unfold stored_rows, database_of. by rewrite H. Qed.

Lemma keeps_ret {A} (a : A) : keeps (ret a).
Proof. intros w. apply grows_refl. Qed.

Lemma keeps_raise {A} e : keeps (@raise A e).
Proof. intros w. apply grows_refl. Qed.

Lemma keeps_lift {A} (r : result A) : keeps (lift r).
Proof. intros w. apply grows_refl. Qed.

Lemma keeps_get_self : keeps get_self.
Proof. intros w. apply grows_refl. Qed.

Lemma keeps_get_classes : keeps get_classes.
Proof. intros w. apply grows_refl. Qed.

Lemma keeps_bind {A B} (m : M A) (k : A -> M B) :
  keeps m -> (forall a, keeps (k a)) -> keeps (bind m k).
Proof.
  intros Hm Hk w. unfold bind. specialize (Hm w).
  destruct (m w) as [w1 [a|e]]; [|done].
  eapply grows_trans; [exact Hm|apply Hk].
Qed.

Lemma keeps_try_except {A} (m : M A) handler :
  keeps m -> (forall e h, handler e = Some h -> keeps h) ->
  keeps (try_except m handler).
Proof.
  intros Hm Hh w. unfold try_except. specialize (Hm w).
  destruct (m w) as [w1 [a|e]]; [done|].
  destruct (handler e) as [h|] eqn:E; [|done].
  eapply grows_trans; [exact Hm|by eapply Hh].
Qed.

Lemma keeps_unable_to_query {A} (m : M A) :
  keeps m -> keeps (try_except m unable_to_query).
Proof.
  intros Hm. apply keeps_try_except; [done|].
  intros e h. destruct e as [| | | | | | | |[]]; intros [= <-]; apply keeps_raise.
Qed.

Lemma keeps_for_each {A B} (xs : list A) (body : A -> M B) :
  (forall x, keeps (body x)) -> keeps (for_each xs body).
Proof.
  intros Hbody. induction xs as [|x xs IH]; simpl.
  - apply keeps_ret.
  - apply keeps_bind; [apply Hbody|]. intros b.
    apply keeps_bind; [apply IH|]. intros bs. apply keeps_ret.
Qed.

Lemma keeps_modify_self f :
  (forall s, _connection (f s) = _connection s) -> keeps (modify_self f).
Proof. intros Hf w. apply grows_same_connection. simpl. apply Hf. Qed.

Lemma keeps_same_self {A} (m : M A) :
  (forall w, self (m w).1 = self w) -> keeps m.
Proof. intros H w. apply grows_same_connection. by rewrite H. Qed.

Lemma keeps_execute {A} stmt (effect : connection -> result (database * A)) :
  growing effect -> keeps (execute stmt effect).
Proof.
  intros Heff w ty. unfold execute.
  destruct (_connection (self w)) as [conn|] eqn:Hconn; [|done].
  unfold stored_rows, database_of.
  destruct (effect conn) as [[db a]|e] eqn:E; simpl; rewrite Hconn; simpl.
  - by eapply Heff.
  - done.
Qed.

Lemma growing_insert_table (db : database) name t t' ty :
  tables db !! name = Some t ->
  (length (rows t) <= length (rows t'))%nat ->
  (length (default [] (rows <$> tables db !! ty))
   <= length (default [] (rows <$> <[name := t']> (tables db) !! ty)))%nat.
Proof.
  intros Ht Hlen. rewrite lookup_insert. case_decide as Hn.
  - subst. by rewrite Ht.
  - done.
Qed.

Lemma growing_create_table name cols : growing (sql_create_table name cols).
Proof.
  intros conn db [] ty. unfold sql_create_table, table_exists.
  case_bool_decide as Hex; [done|]. destruct (conn_read_only conn); [done|].
  intros [= <-]. simpl. rewrite lookup_insert. case_decide as Hn; [|done].
  subst. destruct (tables (conn_db conn) !! ty) eqn:E; [|simpl; lia].
  exfalso. apply Hex. eauto.
Qed.

Lemma growing_insert name cols n values : growing (sql_insert name cols n values).
Proof.
  intros conn db [] ty H.
  apply sql_insert_Return in H as (t & new_rows & Ht & _ & ->). simpl.
  eapply growing_insert_table; [done|]. simpl. rewrite length_app. lia.
Qed.

Lemma growing_update name cols values rowid :
  growing (sql_update name cols values rowid).
Proof.
  intros conn db [] ty. unfold sql_update.
  destruct (tables (conn_db conn) !! name) as [t|] eqn:Ht; [|done].
  repeat case_match; try done; intros [= <-]; simpl;
    (eapply growing_insert_table; [done|]); simpl;
    by rewrite ?length_insert.
Qed.

Lemma growing_select_row name cols rowid : growing (sql_select_row name cols rowid).
Proof.
  intros conn db a ty. unfold sql_select_row.
  repeat case_match; try done; by intros [= <- _].
Qed.

Lemma growing_select_max_rowid name : growing (sql_select_max_rowid name).
Proof.
  intros conn db a ty. unfold sql_select_max_rowid.
  repeat case_match; try done; by intros [= <- _].
Qed.

Lemma growing_has_table name : growing (sql_has_table name).
Proof. intros conn db a ty. unfold sql_has_table. by intros [= <- _]. Qed.

Lemma growing_select_metadata : growing sql_select_metadata.
Proof.
  intros conn db a ty. unfold sql_select_metadata.
  repeat case_match; try done; by intros [= <- _].
Qed.

Create HintDb keeps.

#[local] Hint Resolve keeps_ret keeps_raise keeps_lift keeps_get_self
  keeps_get_classes keeps_unable_to_query keeps_execute
  growing_create_table growing_insert growing_update growing_select_row
  growing_select_max_rowid growing_has_table growing_select_metadata : keeps.

(** One step through the body of a call. *)
Ltac keeps_step :=
  first
    [ solve [eauto with keeps]
    | apply keeps_bind; [|intros ?]
    | apply keeps_for_each; intros ?
    | apply keeps_modify_self; intros ?; reflexivity
    | apply keeps_same_self; intros ?; reflexivity
    | match goal with
      | |- keeps (if ?b then _ else _) => destruct b
      | |- keeps (match ?x with _ => _ end) => destruct x
      | |- keeps (let '(_, _) := ?x in _) => destruct x
      end ].

Ltac keeps_tac := repeat keeps_step.

Lemma keeps_get_object ref : keeps (get_object ref).
Proof.
  apply keeps_same_self. intros w. unfold get_object.
  by destruct (objects w !! ref).
Qed.

Lemma keeps_SetIdentifier ref i : keeps (SetIdentifier ref i).
Proof.
  apply keeps_same_self. intros w. unfold SetIdentifier.
  by destruct (objects w !! ref).
Qed.

Lemma keeps_setattr ref name v : keeps (setattr ref name v).
Proof.
  apply keeps_same_self. intros w. unfold setattr.
  by destruct (objects w !! ref).
Qed.

Lemma keeps_new_container cls attrs : keeps (new_container cls attrs).
Proof. by apply keeps_same_self. Qed.

Lemma keeps_commit : keeps commit.
Proof.
  apply keeps_same_self. intros w. unfold commit.
  destruct (_connection (self w)) as [conn|]; [|done].
  by destruct (conn_read_only conn).
Qed.

Lemma keeps_update_registry f : keeps (update_registry f).
Proof.
  apply keeps_same_self. intros w. unfold update_registry.
  by destruct (f (classes w)).
Qed.

#[local] Hint Resolve keeps_get_object keeps_SetIdentifier keeps_setattr
  keeps_new_container keeps_commit keeps_update_registry : keeps.

Lemma keeps__GetAttributeContainerSchema ty :
  keeps (_GetAttributeContainerSchema ty).
Proof. unfold _GetAttributeContainerSchema. keeps_tac. Qed.

Lemma keeps__FlushWriteCache ty wc b : keeps (_FlushWriteCache ty wc b).
Proof. unfold _FlushWriteCache. keeps_tac. Qed.

#[local] Hint Resolve keeps__GetAttributeContainerSchema
  keeps__FlushWriteCache : keeps.

Lemma keeps__CommitWriteCache ty : keeps (_CommitWriteCache ty).
Proof. unfold _CommitWriteCache. keeps_tac. Qed.

Lemma keeps__CacheAttributeContainerByIndex o i :
  keeps (_CacheAttributeContainerByIndex o i).
Proof. unfold _CacheAttributeContainerByIndex. keeps_tac. Qed.

Lemma keeps__CacheAttributeContainerForWrite ty cols values :
  keeps (_CacheAttributeContainerForWrite ty cols values).
Proof. unfold _CacheAttributeContainerForWrite. keeps_tac. Qed.

Lemma keeps__HasTable name : keeps (_HasTable name).
Proof. unfold _HasTable. keeps_tac. Qed.

#[local] Hint Resolve keeps__CommitWriteCache
  keeps__CacheAttributeContainerByIndex
  keeps__CacheAttributeContainerForWrite keeps__HasTable : keeps.

Section KeepsEngine.
Variable HasDataType : string -> bool.
Variable JsonSerializeValue : string -> pyvalue -> result pyvalue.
Variable JsonDeserializeValue : string -> sqlvalue -> result pyvalue.

Lemma keeps__CreateAttributeContainerTable ty :
  keeps (_CreateAttributeContainerTable ty).
Proof. unfold _CreateAttributeContainerTable. keeps_tac. Qed.

Lemma keeps__CreatetAttributeContainerFromRow ty cols row first :
  keeps (_CreatetAttributeContainerFromRow HasDataType JsonDeserializeValue
           ty cols row first).
Proof.
  unfold _CreatetAttributeContainerFromRow. keeps_tac.
  apply keeps_try_except; [keeps_tac|].
  intros e h. destruct e; intros [= <-]; keeps_tac.
Qed.

Lemma keeps__Flush : keeps _Flush.
Proof. unfold _Flush. keeps_tac. Qed.

Lemma keeps__GetCachedAttributeContainer ty i :
  keeps (_GetCachedAttributeContainer ty i).
Proof. unfold _GetCachedAttributeContainer. keeps_tac. Qed.

Lemma keeps__RaiseIfNotWritable : keeps _RaiseIfNotWritable.
Proof. unfold _RaiseIfNotWritable. keeps_tac. Qed.

Lemma keeps_serialize_attributes ty attrs schema :
  keeps (serialize_attributes HasDataType JsonSerializeValue ty attrs schema).
Proof.
  unfold serialize_attributes. keeps_tac.
  apply keeps_try_except; [keeps_tac|].
  intros e h. destruct e; intros [= <-]; keeps_tac.
Qed.

#[local] Hint Resolve keeps__CreateAttributeContainerTable
  keeps__CreatetAttributeContainerFromRow keeps__Flush
  keeps__GetCachedAttributeContainer keeps__RaiseIfNotWritable
  keeps_serialize_attributes : keeps.

Lemma keeps__WriteExistingAttributeContainer o :
  keeps (_WriteExistingAttributeContainer HasDataType JsonSerializeValue o).
Proof. unfold _WriteExistingAttributeContainer, GetIdentifier. keeps_tac. Qed.

Lemma keeps__WriteNewAttributeContainer o :
  keeps (_WriteNewAttributeContainer HasDataType JsonSerializeValue o).
Proof. unfold _WriteNewAttributeContainer. keeps_tac. Qed.

Lemma keeps_GetAttributeContainerByIndex ty i :
  keeps (GetAttributeContainerByIndex HasDataType JsonDeserializeValue ty i).
Proof. unfold GetAttributeContainerByIndex. keeps_tac. Qed.

Lemma keeps_GetNumberOfAttributeContainers ty :
  keeps (GetNumberOfAttributeContainers ty).
Proof. unfold GetNumberOfAttributeContainers. keeps_tac. Qed.

#[local] Hint Resolve keeps__WriteExistingAttributeContainer
  keeps__WriteNewAttributeContainer keeps_GetAttributeContainerByIndex
  keeps_GetNumberOfAttributeContainers : keeps.

(** No call of a session makes a table lose a row. *)
Lemma step_keeps (c : call) :
  keeps (step HasDataType JsonSerializeValue JsonDeserializeValue c).
Proof.
  destruct c; unfold step, AddAttributeContainer, UpdateAttributeContainer,
    GetAttributeContainerByIdentifier, HasAttributeContainers; keeps_tac.
Qed.

Lemma grows_run (calls : list call) (w : world) :
  grows w (run HasDataType JsonSerializeValue JsonDeserializeValue calls w).
Proof.
  revert w. induction calls as [|c calls IH]; intros w; simpl.
  - apply grows_refl.
  - eapply grows_trans; [apply step_keeps|apply IH].
Qed.

End KeepsEngine.

(** *** Counting *)

Lemma name_char_lower (c : ascii) :
  is_name_char c = true -> PyStr.lower_char c = c.
Proof. destruct c as [[] [] [] [] [] [] [] []]; simpl; done. Qed.

Lemma name_chars_lower (s : string) :
  PyStr.all_chars is_name_char s = true -> PyStr.lower s = s.
Proof.
  induction s as [|c s IH]; simpl; [done|].
  intros H. apply andb_prop in H as [Hc Hs].
  by rewrite (name_char_lower c Hc), (IH Hs).
Qed.

Lemma plain_name_lower (name : string) :
  plain_name name = true -> PyStr.lower name = name.
Proof.
  destruct name as [|c name]; [done|]. unfold plain_name.
  intros H. repeat (apply andb_prop in H as [H ?]).
  by apply name_chars_lower.
Qed.

Lemma plain_name_not_master (name : string) :
  plain_name name = true -> name ∉ sqlite_master_names.
Proof.
  destruct name as [|c name]; [done|]. unfold plain_name.
  intros H. repeat (apply andb_prop in H as [H ?]).
  match goal with
  | Hm : negb (bool_decide (_ ∈ sqlite_master_names)) = true |- _ =>
      apply negb_true_iff, bool_decide_eq_false in Hm; exact Hm
  end.
Qed.

(** For a plain name the query is the test for the table of that name. *)
Lemma has_table_plain (db : database) (name : string) :
  plain_name name = true -> has_table db name = table_exists db name.
Proof.
  intros Hplain. unfold has_table.
  rewrite (plain_name_lower name Hplain).
  pose proof (plain_name_not_master name Hplain) as Hnot.
  unfold sqlite_master_names in Hnot.
  rewrite !bool_decide_eq_false_2; [done| | |].
  - intros Hin. apply Hnot.
    repeat (apply elem_of_cons in Hin as [->|Hin]; [compute_done|]).
    by apply elem_of_nil in Hin.
  - intros ->. apply Hnot. compute_done.
  - intros Hin. apply Hnot.
    repeat (apply elem_of_cons in Hin as [->|Hin]; [compute_done|]).
    by apply elem_of_nil in Hin.
Qed.

Lemma _HasTable_spec name w :
  match _connection (self w) with
  | Some conn =>
      exists w',
        _HasTable name w = (w', Return (has_table (conn_db conn) name))
        /\ files w' = files w /\ classes w' = classes w
        /\ objects w' = objects w
        /\ database_of w' = database_of w
        /\ _write_cache (self w') = _write_cache (self w)
  | None => _HasTable name w = (w, Raise AttributeError)
  end.
Proof.
  unfold _HasTable, try_except, execute, sql_has_table, database_of.
  destruct (_connection (self w)) as [conn|]; [|done].
  eexists. split; [reflexivity|]. done.
Qed.

Lemma table_exists_stored_rows w conn ty :
  _connection (self w) = Some conn ->
  table_exists (conn_db conn) ty = false -> stored_rows w ty = [].
Proof.
  intros Hconn Hex. unfold stored_rows, database_of. rewrite Hconn. simpl.
  unfold table_exists in Hex. apply bool_decide_eq_false in Hex.
  destruct (tables (conn_db conn) !! ty); [|done]. exfalso. eauto.
Qed.

(** A count that returns has flushed the type and gives the number of rows
    of its table, zero without a table. *)
Lemma GetNumberOfAttributeContainers_Return ty w w' n :
  plain_name ty = true ->
  GetNumberOfAttributeContainers ty w = (w', Return n) ->
  n = Z.of_nat (length (stored_rows w' ty)) /\ pending_rows w' ty = [].
Proof.
  unfold GetNumberOfAttributeContainers. intros Hplain H.
  apply bind_inv in H as [(w1 & [] & Hcommit & H)|(e & _ & [=])].
  apply _CommitWriteCache_Return in Hcommit as (_ & _ & _ & Hpending & _ & _).
  pose proof (_HasTable_spec ty w1) as Hhas.
  destruct (_connection (self w1)) as [conn|] eqn:Hconn.
  2:{ by rewrite (bind_Raise _ _ _ _ _ Hhas) in H. }
  destruct Hhas as (w2 & Hhas & _ & _ & _ & Hdb & Hwc).
  rewrite (bind_Return _ _ _ _ _ Hhas) in H.
  assert (pending_rows w2 ty = []) as Hpending2
    by (unfold pending_rows in *; by rewrite Hwc).
  assert (stored_rows w2 ty = stored_rows w1 ty) as Hrows
    by (unfold stored_rows; by rewrite Hdb).
  rewrite (has_table_plain _ _ Hplain) in H.
  destruct (table_exists (conn_db conn) ty) eqn:Hex; simpl in H.
  - apply bind_inv in H as [(w3 & row & Hsel & H)|(e & _ & [=])].
    apply try_unable_to_query_Return in Hsel.
    apply execute_Return in Hsel as (conn2 & db & Hconn2 & Heff & ->).
    unfold sql_select_max_rowid in Heff.
    assert (conn_db conn2 = conn_db conn) as Hdb2.
    { unfold database_of in Hdb. rewrite Hconn2, Hconn in Hdb. by injection Hdb. }
    destruct (tables (conn_db conn2) !! ty) as [t|] eqn:Ht; [|done].
    injection Heff as <- <-.
    unfold pending_rows, stored_rows, database_of in *.
    destruct (rows t) as [|r rs] eqn:Hr; simpl in H; injection H as <- <-;
      simpl; rewrite Ht; simpl; rewrite Hr; done.
  - injection H as <- <-. split; [|done].
    rewrite Hrows. by rewrite (table_exists_stored_rows w1 conn ty).
Qed.

(** A count on a store with a connection and no pending row of the type. *)
Lemma GetNumberOfAttributeContainers_total ty w :
  plain_name ty = true ->
  is_Some (_connection (self w)) -> pending_rows w ty = [] ->
  exists w' n,
    GetNumberOfAttributeContainers ty w = (w', Return n)
    /\ files w' = files w /\ classes w' = classes w
    /\ _write_cache (self w') = _write_cache (self w)
    /\ is_Some (_connection (self w')).
Proof.
  intros Hplain [conn Hconn] Hpending. unfold GetNumberOfAttributeContainers.
  assert (_CommitWriteCache ty w = (w, Return tt)) as Hcommit.
  { unfold _CommitWriteCache, bind, get_self. simpl.
    unfold pending_rows in Hpending.
    by destruct (default [] (_write_cache (self w) !! ty)) as [|? [|]]. }
  rewrite (bind_Return _ _ _ _ _ Hcommit).
  pose proof (_HasTable_spec ty w) as Hhas. rewrite Hconn in Hhas.
  destruct Hhas as (w2 & Hhas & Hf & Hc & _ & Hdb & Hwc).
  rewrite (bind_Return _ _ _ _ _ Hhas).
  assert (exists conn2, _connection (self w2) = Some conn2
                        /\ conn_db conn2 = conn_db conn) as (conn2 & Hconn2 & Hdb2).
  { unfold database_of in Hdb. rewrite Hconn in Hdb.
    destruct (_connection (self w2)) as [conn2|]; [|done].
    exists conn2. split; [done|]. by injection Hdb. }
  rewrite (has_table_plain _ _ Hplain).
  destruct (table_exists (conn_db conn) ty) eqn:Hex; simpl.
  - unfold table_exists in Hex. apply bool_decide_eq_true in Hex as [t Ht].
    unfold bind, try_except, execute, sql_select_max_rowid.
    rewrite Hconn2, Hdb2, Ht. simpl.
    destruct (rows t); simpl; eexists _, _; (split; [reflexivity|]); simpl; eauto.
  - eexists _, _. split; [reflexivity|]. rewrite Hconn2. eauto.
Qed.

Section Count.
Variable HasDataType : string -> bool.
Variable JsonSerializeValue : string -> pyvalue -> result pyvalue.
Variable JsonDeserializeValue : string -> sqlvalue -> result pyvalue.


End Count.


(** *** Opening *)

Lemma _SetAttributeContainerNextSequenceNumber_ready ty n w :
  ready w ->
  exists w', _SetAttributeContainerNextSequenceNumber ty n w = (w', Return tt)
             /\ classes w' = classes w /\ ready w'.
Proof.
  intros [Hc Hw]. eexists. split; [reflexivity|]. split; [done|]. by split.
Qed.

Lemma ready_pending w ty : ready w -> pending_rows w ty = [].
Proof. intros [_ H]. unfold pending_rows. by rewrite H, lookup_empty. Qed.

(** Seeding the sequence numbers of a store that is ready succeeds for
    every list of container types. *)
Lemma seed_sequence_numbers_total (types : list string) (w : world) :
  Forall (fun ty => plain_name ty = true) types ->
  ready w ->
  exists w' l,
    for_each types
      (fun container_type =>
         let* next_sequence_number :=
           GetNumberOfAttributeContainers container_type in
         _SetAttributeContainerNextSequenceNumber container_type
           next_sequence_number) w
    = (w', Return l).
Proof.
  intros Hplain. revert w.
  induction Hplain as [|ty types Hty _ IH]; intros w Hready; simpl.
  - by eexists _, _.
  - destruct (GetNumberOfAttributeContainers_total ty w Hty)
      as (w1 & n & Hcount & _ & _ & Hwc & Hconn);
      [apply Hready|by apply ready_pending|].
    assert (ready w1) as Hready1 by (split; [done|by rewrite Hwc; apply Hready]).
    destruct (_SetAttributeContainerNextSequenceNumber_ready ty n w1 Hready1)
      as (w2 & Hset & _ & Hready2).
    destruct (IH w2 Hready2) as (w3 & l & Hrest).
    eexists _, _.
    rewrite (bind_Return _ _ w w2 tt).
    + rewrite (bind_Return _ _ _ _ _ Hrest). reflexivity.
    + by rewrite (bind_Return _ _ _ _ _ Hcount).
Qed.

Section OpenChecks.
Variable versions : version_constants.

(** What [_ReadAndCheckStorageMetadata] does on a connection whose database
    has a readable [metadata] table. *)
Lemma _ReadMetadata_spec w conn md :
  _connection (self w) = Some conn ->
  stored_metadata (conn_db conn) = Some md ->
  exists w',
    _ReadMetadata w = (w', Return md)
    /\ classes w' = classes w
    /\ _write_cache (self w') = _write_cache (self w)
    /\ is_Some (_connection (self w')).
Proof.
  intros Hconn Hmd. unfold stored_metadata in Hmd.
  destruct (tables (conn_db conn) !! "metadata") as [t|] eqn:Ht; [|done].
  destruct (has_columns t ["key"; "value"]) eqn:Hcols; [|done].
  injection Hmd as <-.
  unfold _ReadMetadata, bind, try_except, execute, sql_select_metadata, ret.
  rewrite Hconn, Ht, Hcols. simpl.
  eexists. split; [reflexivity|]. simpl. eauto.
Qed.

Lemma _ReadAndCheckStorageMetadata_Raise w conn md check e :
  _connection (self w) = Some conn ->
  stored_metadata (conn_db conn) = Some md ->
  _CheckStorageMetadata versions md check = Raise e ->
  (_ReadAndCheckStorageMetadata versions check w).2 = Raise e.
Proof.
  intros Hconn Hmd Hcheck.
  destruct (_ReadMetadata_spec w conn md Hconn Hmd) as (w1 & Hread & _).
  unfold _ReadAndCheckStorageMetadata.
  rewrite (bind_Return _ _ _ _ _ Hread).
  unfold bind, lift. by rewrite Hcheck.
Qed.

Lemma _ReadAndCheckStorageMetadata_Return w conn md check v :
  _connection (self w) = Some conn ->
  stored_metadata (conn_db conn) = Some md ->
  _CheckStorageMetadata versions md check = Return v ->
  exists w',
    _ReadAndCheckStorageMetadata versions check w = (w', Return tt)
    /\ classes w' = classes w
    /\ _write_cache (self w') = _write_cache (self w)
    /\ is_Some (_connection (self w')).
Proof.
  intros Hconn Hmd Hcheck.
  destruct (_ReadMetadata_spec w conn md Hconn Hmd)
    as (w1 & Hread & Hc & Hwc & Hconn1).
  unfold _ReadAndCheckStorageMetadata.
  rewrite (bind_Return _ _ _ _ _ Hread).
  unfold bind, lift. rewrite Hcheck.
  assert (md !! "serialization_format" = Some (SqlText "json")) as ->.
  { unfold _CheckStorageMetadata in Hcheck.
    repeat case_match; try done.
    match goal with H : bool_decide _ = true |- _ =>
      by apply bool_decide_eq_true in H end. }
  eexists. split; [reflexivity|]. done.
Qed.

(** C3: for a closed store object whose registered container types are
    plain names and a store file whose metadata holds as format version
    the text [s] of the integer [v] (an ASCII number, within the number of
    digits [int()] takes), whatever the version constants: opening
    read-write raises the too old to write [IOError] when [v] is below the
    append floor; opening read-only succeeds when [v] is between the read
    floor and the current version and the serialization format is [json];
    hence a version from the read floor up and below the append floor is
    readable and not writable. *)
Theorem C3_version_gating
    (w : world) (path : string) (db : database)
    (md : gmap string sqlvalue) (s : string) (v : Z) :
  _is_open (self w) = false ->
  _write_cache (self w) = ∅ ->
  PyStr.truthy path = true ->
  files w !! path = Some (DatabaseFile db) ->
  forallb plain_name (GetContainerTypes (classes w)) = true ->
  stored_metadata db = Some md ->
  md !! "format_version" = Some (SqlText s) ->
  PyStr.int s = Some v ->
  (String.length s <=? 4300)%nat = true ->
  ((v < _APPEND_COMPATIBLE_FORMAT_VERSION versions)%Z ->
   (Open versions (Some path) false w).2 = Raise (IOError (TooOldToWrite v)))
  /\ ((_READ_COMPATIBLE_FORMAT_VERSION versions <= v)%Z ->
      (v <= _FORMAT_VERSION versions)%Z ->
      md !! "serialization_format" = Some (SqlText "json") ->
      (Open versions (Some path) true w).2 = Return tt)
  /\ ((_READ_COMPATIBLE_FORMAT_VERSION versions <= v)%Z ->
      (v < _APPEND_COMPATIBLE_FORMAT_VERSION versions)%Z ->
      (v <= _FORMAT_VERSION versions)%Z ->
      md !! "serialization_format" = Some (SqlText "json") ->
      (Open versions (Some path) true w).2 = Return tt
      /\ (Open versions (Some path) false w).2
         = Raise (IOError (TooOldToWrite v))).
Proof.
  intros Hclosed Hwc Hpath Hfile Hplain Hmd Hfv Hint _.
  assert (parse_format_version (md !! "format_version") = Return v)
    as Hparse.
  { rewrite Hfv. unfold parse_format_version.
    destruct s as [|c s]; [by vm_compute in Hint|]. simpl PyStr.truthy.
    cbn [negb]. by rewrite Hint. }
  assert (forall read_only,
            Open versions (Some path) read_only w
            = (let* _ :=
                 if read_only then _ReadAndCheckStorageMetadata versions true
                 else
                   let* has_table := _HasTable "metadata" in
                   let* _ :=
                     if negb has_table then _WriteMetadata versions
                     else
                       let* _ := _ReadAndCheckStorageMetadata versions false in
                       _UpdateStorageMetadataFormatVersion versions in
                   commit in
               let* classes := get_classes in
               let* _ :=
                 for_each (GetContainerTypes classes)
                   (fun container_type =>
                      let* next_sequence_number :=
                        GetNumberOfAttributeContainers container_type in
                      _SetAttributeContainerNextSequenceNumber container_type
                        next_sequence_number) in
               ret tt)
                (mkWorld (files w) (classes w) (objects w)
                   (set_read_only read_only
                      (set_is_open true
                         (set_connection
                            (Some (mkConnection path read_only db []))
                            (self w)))))) as Hopen.
  { intros read_only. unfold Open.
    unfold bind at 1. unfold get_self at 1. rewrite Hclosed, Hpath. simpl.
    unfold bind at 1. unfold connect. rewrite Hfile.
    unfold bind at 1. reflexivity. }
  assert (tables db !! "metadata" <> None) as Htable.
  { unfold stored_metadata in Hmd. by destruct (tables db !! "metadata"). }
  assert (forall check,
            (check = true
             \/ (_APPEND_COMPATIBLE_FORMAT_VERSION versions <= v)%Z) ->
            (_READ_COMPATIBLE_FORMAT_VERSION versions <= v)%Z ->
            (v <= _FORMAT_VERSION versions)%Z ->
            md !! "serialization_format" = Some (SqlText "json") ->
            _CheckStorageMetadata versions md check = Return v) as Hok.
  { intros check Hcheck Hr Hf Hs. unfold _CheckStorageMetadata.
    rewrite Hparse, Hs.
    assert (negb check && (v <? _APPEND_COMPATIBLE_FORMAT_VERSION versions)%Z
            = false) as ->.
    { destruct Hcheck as [->|Ha]; [done|].
      apply andb_false_intro2. by apply Z.ltb_ge. }
    rewrite (proj2 (Z.ltb_ge _ _) Hr), (proj2 (Z.ltb_ge _ _) Hf).
    by rewrite bool_decide_eq_true_2. }
  assert ((v < _APPEND_COMPATIBLE_FORMAT_VERSION versions)%Z ->
          (Open versions (Some path) false w).2
          = Raise (IOError (TooOldToWrite v))) as Hwrite.
  { intros Hold. rewrite Hopen.
    set (w0 := mkWorld _ _ _ _).
    pose proof (_HasTable_spec "metadata" w0) as Hhas. simpl in Hhas.
    destruct Hhas as (w1 & Hhas & _ & _ & _ & Hdb & _).
    assert (has_table db "metadata" = true) as Hex.
    { rewrite has_table_plain by (vm_compute; reflexivity).
      unfold table_exists. apply bool_decide_eq_true.
      by destruct (tables db !! "metadata"); [eauto|]. }
    rewrite Hex in Hhas.
    assert (exists conn1, _connection (self w1) = Some conn1
                          /\ conn_db conn1 = db) as (conn1 & Hconn1 & Hdb1).
    { unfold database_of in Hdb. simpl in Hdb.
      destruct (_connection (self w1)) as [conn1|]; [|done].
      exists conn1. split; [done|]. by injection Hdb. }
    assert ((_ReadAndCheckStorageMetadata versions false w1).2
            = Raise (IOError (TooOldToWrite v))) as Hcheck.
    { eapply _ReadAndCheckStorageMetadata_Raise; [done|by rewrite Hdb1|].
      unfold _CheckStorageMetadata. rewrite Hparse. simpl.
      by rewrite (proj2 (Z.ltb_lt _ _) Hold). }
    unfold bind at 1. unfold bind at 1. rewrite Hhas. simpl.
    unfold bind at 1. unfold bind at 1.
    destruct (_ReadAndCheckStorageMetadata versions false w1) as [w2 r].
    simpl in Hcheck. by subst r. }
  assert ((_READ_COMPATIBLE_FORMAT_VERSION versions <= v)%Z ->
          (v <= _FORMAT_VERSION versions)%Z ->
          md !! "serialization_format" = Some (SqlText "json") ->
          (Open versions (Some path) true w).2 = Return tt) as Hread.
  { intros Hr Hf Hs. rewrite Hopen.
    set (w0 := mkWorld _ _ _ _).
    destruct (_ReadAndCheckStorageMetadata_Return w0
                (mkConnection path true db []) md true v)
      as (w1 & Hcheck & Hc & Hwc1 & Hconn1); [done|done|by apply Hok; auto|].
    rewrite (bind_Return _ _ _ _ _ Hcheck).
    unfold bind at 1. unfold get_classes.
    assert (ready w1) as Hready by (split; [done|by rewrite Hwc1]).
    destruct (seed_sequence_numbers_total (GetContainerTypes (classes w1)) w1)
      as (w2 & l & Hseed); [|exact Hready|].
    { rewrite Hc. apply Forall_forall. intros ty Hty.
      rewrite forallb_forall in Hplain. apply Hplain.
      by apply list_elem_of_In. }
    by rewrite (bind_Return _ _ _ _ _ Hseed). }
  split; [exact Hwrite|]. split; [exact Hread|].
  intros Hr Ha Hf Hs. split; [by apply Hread|by apply Hwrite].
Qed.

End OpenChecks.

(** With the constants of the class, a file of version 20220101 cannot be
    opened read-write and a file of the current version opens read-only;
    with a read floor below the append floor, the old file opens
    read-only and not read-write. *)
Lemma C3_version_gating_witness :
  (Open SQLiteAttributeContainerStore_versions (Some "/tmp/old.sqlite") false
     version_world).2
  = Raise (IOError (TooOldToWrite 20220101))
  /\ (Open SQLiteAttributeContainerStore_versions (Some "/tmp/good.sqlite")
        true version_world).2 = Return tt
  /\ (Open older_read_floor_versions (Some "/tmp/old.sqlite") true
        version_world).2 = Return tt
  /\ (Open older_read_floor_versions (Some "/tmp/old.sqlite") false
        version_world).2 = Raise (IOError (TooOldToWrite 20220101)).
Proof.
  assert (files version_world !! "/tmp/old.sqlite"
          = Some (DatabaseFile (store_database "20220101" "json"))) as Hold
    by (vm_compute; reflexivity).
  assert (files version_world !! "/tmp/good.sqlite"
          = Some (DatabaseFile (store_database "20230312" "json"))) as Hgood
    by (vm_compute; reflexivity).
  assert (stored_metadata (store_database "20220101" "json")
          = Some (store_metadata_values "20220101" "json")) as Hmd_old
    by (vm_compute; reflexivity).
  assert (stored_metadata (store_database "20230312" "json")
          = Some (store_metadata_values "20230312" "json")) as Hmd_good
    by (vm_compute; reflexivity).
  assert (forall v, store_metadata_values v "json" !! "format_version"
                    = Some (SqlText v)) as Hfv
    by (intros v; vm_compute; reflexivity).
  assert (forall v, store_metadata_values v "json" !! "serialization_format"
                    = Some (SqlText "json")) as Hjson
    by (intros v; apply lookup_insert_eq).
  assert (forallb plain_name (GetContainerTypes (classes version_world))
          = true) as Hplain by (vm_compute; reflexivity).
  assert (PyStr.int "20220101" = Some 20220101%Z) as Hv_old
    by (vm_compute; reflexivity).
  assert (PyStr.int "20230312" = Some 20230312%Z) as Hv_good
    by (vm_compute; reflexivity).
  destruct (C3_version_gating SQLiteAttributeContainerStore_versions
              version_world "/tmp/old.sqlite" _ _ "20220101" 20220101
              eq_refl eq_refl eq_refl Hold Hplain Hmd_old (Hfv _) Hv_old
              eq_refl) as (H1 & _ & _).
  destruct (C3_version_gating SQLiteAttributeContainerStore_versions
              version_world "/tmp/good.sqlite" _ _ "20230312" 20230312
              eq_refl eq_refl eq_refl Hgood Hplain Hmd_good (Hfv _) Hv_good
              eq_refl) as (_ & H2 & _).
  destruct (C3_version_gating older_read_floor_versions
              version_world "/tmp/old.sqlite" _ _ "20220101" 20220101
              eq_refl eq_refl eq_refl Hold Hplain Hmd_old (Hfv _) Hv_old
              eq_refl) as (_ & _ & H3).
  split; [apply H1; reflexivity|].
  split; [apply H2; [discriminate|discriminate|apply Hjson]|].
  apply H3; [discriminate|reflexivity|discriminate|apply Hjson].
Defined.

Lemma _GetAttributeContainerSchema_pure ty w :
  (_GetAttributeContainerSchema ty w).1 = w.
Proof.
  unfold _GetAttributeContainerSchema, bind, get_classes, ret. simpl.
  by destruct (GetSchema (classes w) ty).
Qed.

Lemma _GetAttributeContainerSchema_classes ty w w' :
  classes w' = classes w ->
  _GetAttributeContainerSchema ty w'
  = (w', (_GetAttributeContainerSchema ty w).2).
Proof.
  intros H. unfold _GetAttributeContainerSchema, bind, get_classes, ret.
  simpl. rewrite H. by destruct (GetSchema (classes w) ty).
Qed.

(** C10: writing an existing container first commits the write cache of
    its type. When the type has no schema, either that commit raises, and
    its exception is what the caller gets, or the unsupported container
    type [IOError] is raised in the world the commit left: no row of the
    type is pending any more, the rows that were pending are in the table,
    and no [UPDATE] has been executed. *)
Theorem C10_update_error_comes_after_commit
    (HasDataType : string -> bool)
    (JsonSerializeValue : string -> pyvalue -> result pyvalue)
    (container : objref) (c : AttributeContainer) (w : world) :
  objects w !! container = Some c ->
  (_GetAttributeContainerSchema (CONTAINER_TYPE (class_of c)) w).2 = Return ∅ ->
  let container_type := CONTAINER_TYPE (class_of c) in
  let committed := (_CommitWriteCache container_type w).1 in
  (forall e,
      (_CommitWriteCache container_type w).2 = Raise e ->
      _WriteExistingAttributeContainer HasDataType JsonSerializeValue
        container w = (committed, Raise e))
  /\ ((_CommitWriteCache container_type w).2 = Return tt ->
      _WriteExistingAttributeContainer HasDataType JsonSerializeValue
        container w
      = (committed, Raise (IOError (UnsupportedContainerType container_type)))
      /\ pending_rows committed container_type = []
      /\ length (stored_rows committed container_type)
         = (length (stored_rows w container_type)
            + length (pending_rows w container_type))%nat
      /\ updates committed = updates w).
Proof.
  intros Hc Hschema container_type committed.
  assert (get_object container w = (w, Return c)) as Hget
    by (unfold get_object; by rewrite Hc).
  unfold _WriteExistingAttributeContainer.
  rewrite (bind_Return _ _ _ _ _ Hget). fold container_type.
  destruct (_CommitWriteCache container_type w) as [w1 r] eqn:Hcommit.
  subst committed. simpl. split.
  - intros e ->. by apply bind_Raise.
  - intros ->.
    destruct (_CommitWriteCache_Return _ _ _ Hcommit)
      as (Hf & Hcl & Ho & Hpending & Hrows & Hup).
    split; [|done].
    rewrite (bind_Return _ _ _ _ _ Hcommit).
    assert (GetIdentifier container w1 = (w1, Return (_identifier c))) as Hid.
    { unfold GetIdentifier, bind, get_object, ret. by rewrite Ho, Hc. }
    rewrite (bind_Return _ _ _ _ _ Hid).
    pose proof (_GetAttributeContainerSchema_classes container_type w w1 Hcl) as Hs.
    fold container_type in Hschema. rewrite Hschema in Hs.
    rewrite (bind_Return _ _ _ _ _ Hs). done.
Qed.

(** The row of a container whose class has been deregistered is flushed
    by the update that is refused. *)
Lemma C10_update_error_comes_after_commit_witness :
  length (pending_rows deregistered_world "event") = 1%nat
  /\ length (stored_rows deregistered_world "event") = 0%nat
  /\ exists committed,
      _WriteExistingAttributeContainer standard_data_types no_json_serializer
        0%nat deregistered_world
      = (committed, Raise (IOError (UnsupportedContainerType "event")))
      /\ pending_rows committed "event" = []
      /\ length (stored_rows committed "event") = 1%nat
      /\ updates committed = [].
Proof.
  split; [vm_compute; reflexivity|]. split; [vm_compute; reflexivity|].
  destruct (objects deregistered_world !! 0%nat) as [c|] eqn:Hc;
    [|vm_compute in Hc; discriminate].
  assert (CONTAINER_TYPE (class_of c) = "event") as Hty
    by (vm_compute in Hc; by injection Hc as <-).
  destruct (C10_update_error_comes_after_commit
              standard_data_types no_json_serializer 0%nat c
              deregistered_world Hc) as [_ H].
  { rewrite Hty. vm_compute. reflexivity. }
  rewrite Hty in H.
  destruct H as (H1 & H2 & H3 & H4); [vm_compute; reflexivity|].
  eexists. split; [exact H1|]. split; [exact H2|]. split.
  - rewrite H3. vm_compute. reflexivity.
  - rewrite H4. vm_compute. reflexivity.
Defined.


(** C8: reading by identifier is reading by index at the sequence number
    minus one: same returned container or [None], same exception, same
    world afterwards, whatever the world before. *)
Theorem C8_read_by_identifier_is_read_by_index
    (HasDataType : string -> bool)
    (JsonDeserializeValue : string -> sqlvalue -> result pyvalue)
    (container_type : string) (name : option string) (s : Z) (w : world) :
  GetAttributeContainerByIdentifier HasDataType JsonDeserializeValue
    container_type (mkIdentifier name (Some s)) w
  = GetAttributeContainerByIndex HasDataType JsonDeserializeValue
      container_type (s - 1) w.
Proof. reflexivity. Qed.

(** C2 on the code: of 51 new containers of one type written to a newly
    opened store, the first 48 execute no [INSERT]; the 49th executes the
    one batched [INSERT], of 49 rows, and leaves nothing pending; the 50th
    and the 51st stay pending; counting then gives 51. The list compared
    with [_MAXIMUM_WRITE_CACHE_SIZE] holds the column names next to the
    rows, so the flush comes one row before the 50th. *)
Theorem C2_auto_flush_comes_at_49_rows :
  inserts (std_run (write_events 48) opened_world) = []
  /\ length (pending_rows (std_run (write_events 48) opened_world) "event") = 48%nat
  /\ inserts (std_run (write_events 49) opened_world)
     = [INSERT_INTO "event" ["a"; "b"] 49]
  /\ pending_rows (std_run (write_events 49) opened_world) "event" = []
  /\ inserts (std_run (write_events 50) opened_world)
     = [INSERT_INTO "event" ["a"; "b"] 49]
  /\ length (pending_rows (std_run (write_events 50) opened_world) "event") = 1%nat
  /\ inserts (std_run (write_events 51) opened_world)
     = [INSERT_INTO "event" ["a"; "b"] 49]
  /\ length (pending_rows (std_run (write_events 51) opened_world) "event") = 2%nat
  /\ (std_step (CallGetNumber "event")
        (std_run (write_events 51) opened_world)).2 = Return (RInt 51).
Proof. repeat split; vm_compute; reflexivity. Qed.

(** C1 on the code: after a new container is added, the read cache and the
    storage agree on it. After an update through another object with the
    same identifier, the cache still has its entry, the read by index
    returns the values of the cached object, and row 1 of the storage
    holds the values of the update. *)
Theorem C1_update_leaves_cache_stale :
  let added := std_run (firstn 2 update_with_another_object) opened_world in
  let updated := std_run update_with_another_object opened_world in
  has_cache_entry added "event" 0 = true
  /\ cached_read "event" 0 added = Some (event_attributes 1 "x")
  /\ storage_read "event" 0 added = Some (event_attributes 1 "x")
  /\ has_cache_entry updated "event" 0 = true
  /\ cached_read "event" 0 updated = Some (event_attributes 1 "x")
  /\ storage_read "event" 0 updated = Some (event_attributes 2 "y")
  /\ cached_read "event" 0 updated <> storage_read "event" 0 updated.
Proof.
  intros added updated.
  assert (cached_read "event" 0 updated = Some (event_attributes 1 "x")) as Hc
    by (vm_compute; reflexivity).
  assert (storage_read "event" 0 updated = Some (event_attributes 2 "y")) as Hs
    by (vm_compute; reflexivity).
  repeat split; try (vm_compute; reflexivity).
  rewrite Hc, Hs. intros H.
  apply (f_equal (fun o : option (gmap string pyvalue) =>
                    match o with Some m => m !! "a" | None => None end)) in H.
  vm_compute in H. discriminate H.
Qed.

(** C7 on the code: the probe never changes the world, answers [False]
    where there is no file, where the file is no database and where the
    database has no [metadata] table, and [True] for a store; but for a
    store whose [format_version] is missing or is no number it ends in the
    [UnboundLocalError] of [return result], not in [False]. *)
Theorem C7_probe_raises_on_unparsable_version :
  (forall path w, (CheckSupportedFormat path w).1 = w)
  /\ (CheckSupportedFormat "/tmp/missing.sqlite" probe_world).2 = Return false
  /\ (CheckSupportedFormat "/tmp/text.txt" probe_world).2 = Return false
  /\ (CheckSupportedFormat "/tmp/store.sqlite"
        (mkWorld {["/tmp/store.sqlite" := DatabaseFile (mkDatabase ∅)]} ∅ []
           (init_store SQLiteAttributeContainerStore_versions))).2
     = Return false
  /\ (CheckSupportedFormat "/tmp/good.sqlite" probe_world).2 = Return true
  /\ (CheckSupportedFormat "/tmp/unparsable.sqlite" probe_world).2
     = Raise (UnboundLocalError "result")
  /\ (CheckSupportedFormat "/tmp/unversioned.sqlite" probe_world).2
     = Raise (UnboundLocalError "result").
Proof.
  split.
  { intros path w. unfold CheckSupportedFormat.
    destruct (files w !! path) as [f|]; [|done].
    destruct (CheckSupportedFormat_try f) as [[b|]|[| | | | | | | |[]]]; done. }
  repeat split; vm_compute; reflexivity.
Qed.

End StoreProofs.


Module IdentifierStrings.
Import Identifier.

Lemma contains_app_sep (sep : ascii) (s t : string) :
  PyStr.contains sep (s +:+ String sep t) = true.
Proof.
  induction s as [|c s IH]; simpl.
  - by rewrite Ascii.eqb_refl.
  - rewrite IH. apply orb_true_r.
Qed.

(** A string has one way at most of being a part without the separator
    put after the separator that ends any prefix. *)
Lemma last_separator_unique (sep : ascii) (s1 s2 d1 d2 : string) :
  PyStr.contains sep d1 = false -> PyStr.contains sep d2 = false ->
  s1 +:+ String sep d1 = s2 +:+ String sep d2 -> s1 = s2 /\ d1 = d2.
Proof.
  intros H1 H2. revert s2.
  induction s1 as [|c s1 IH]; intros [|c2 s2]; simpl; intros E.
  - by injection E as ->.
  - injection E as <- ->. by rewrite contains_app_sep in H1.
  - injection E as -> <-. by rewrite contains_app_sep in H2.
  - injection E as -> E. by destruct (IH s2 E) as [-> ->].
Qed.

Lemma format_d_injective (a b : Z) :
  PyStr.format_d a = PyStr.format_d b -> a = b.
Proof.
  intros H. pose proof (PyStrFacts.int_format_d a) as Ha.
  rewrite H, PyStrFacts.int_format_d in Ha. by injection Ha.
Qed.

(** [CopyToString] never gives the same string for two identifiers,
    whatever their names: the sequence number is what follows the last
    dot. *)
Theorem CopyToString_injective (i j : AttributeContainerIdentifier)
    (s : string) :
  CopyToString i = Some s -> CopyToString j = Some s -> i = j.
Proof.
  destruct i as [[n1|] [s1|]], j as [[n2|] [s2|]]; try done.
  unfold CopyToString. simpl. intros [= <-] [= H].
  apply last_separator_unique in H as [-> H];
    try apply PyStrFacts.format_d_no_dot.
  by apply format_d_injective in H as ->.
Qed.

Lemma CopyToString_injective_witness :
  init (Some "a.1") (Some 2%Z) = init (Some "a.1") (Some 2%Z).
Proof.
  apply (CopyToString_injective _ _ "a.1.2"); reflexivity.
Defined.

(** [CopyFromString] on a malformed string: without a dot the unpacking
    raises and the identifier is as it was; with one dot and a second part
    that is an ASCII string and no number, [int()] raises when the name
    has already been replaced, the sequence number being as it was. *)
Theorem CopyFromString_malformed
    (self : AttributeContainerIdentifier) (name' sequence' : string) :
  PyStr.contains PyStr.dot name' = false ->
  PyStr.contains PyStr.dot sequence' = false ->
  PyStr.is_ascii sequence' = true ->
  PyStr.int sequence' = None ->
  CopyFromString self name' = (self, Raise (ValueError "unpack"))
  /\ CopyFromString self (name' +:+ "." +:+ sequence')
     = (mkIdentifier (Some name') (sequence_number self),
        Raise (ValueError "invalid literal for int()")).
Proof.
  intros Hn Hs _ Hint. unfold CopyFromString. split.
  - by rewrite PyStrFacts.split_no_separator.
  - change ("." +:+ sequence') with (String PyStr.dot sequence').
    rewrite PyStrFacts.split_app by done.
    rewrite PyStrFacts.split_no_separator by done. by rewrite Hint.
Qed.

Lemma CopyFromString_malformed_witness :
  CopyFromString (init (Some "event") (Some 7%Z)) "task"
  = (init (Some "event") (Some 7%Z), Raise (ValueError "unpack"))
  /\ CopyFromString (init (Some "event") (Some 7%Z)) "task.x1"
     = (init (Some "task") (Some 7%Z),
        Raise (ValueError "invalid literal for int()")).
Proof.
  apply (CopyFromString_malformed (init (Some "event") (Some 7%Z)) "task" "x1");
    reflexivity.
Defined.

End IdentifierStrings.

Module RegistryUpdates.
Import Manager.

(** Two classes whose container types are ASCII names that differ in the
    case of letters only cannot both be registered: the second
    registration raises [KeyError] and leaves the registry as the first
    one made it. *)
Theorem Register_case_collision
    (classes : registry) (c1 c2 : container_class) :
  PyStr.is_ascii (CONTAINER_TYPE c1) = true ->
  PyStr.is_ascii (CONTAINER_TYPE c2) = true ->
  PyStr.lower (CONTAINER_TYPE c1) = PyStr.lower (CONTAINER_TYPE c2) ->
  classes !! PyStr.lower (CONTAINER_TYPE c1) = None ->
  (RegisterAttributeContainer classes c1).2 = Return tt
  /\ RegisterAttributeContainer (RegisterAttributeContainer classes c1).1 c2
     = ((RegisterAttributeContainer classes c1).1,
        Raise (KeyError (CONTAINER_TYPE c2))).
Proof.
  intros _ _ Hcase Hfree.
  assert (RegisterAttributeContainer classes c1
          = (<[PyStr.lower (CONTAINER_TYPE c1) := c1]> classes, Return tt))
    as -> by (unfold RegisterAttributeContainer; by rewrite Hfree).
  split; [done|]. simpl.
  unfold RegisterAttributeContainer. by rewrite <- Hcase, lookup_insert_eq.
Qed.

Lemma Register_case_collision_witness :
  RegisterAttributeContainer
    (RegisterAttributeContainer ∅ (mkClass "Event" None)).1
    (mkClass "event" None)
  = ((RegisterAttributeContainer ∅ (mkClass "Event" None)).1,
     Raise (KeyError "event")).
Proof.
  apply (Register_case_collision ∅ (mkClass "Event" None)
           (mkClass "event" None)); reflexivity.
Defined.

(** For a class whose container type is an ASCII name: deregistering the
    class when it has just been registered gives back the registry as it
    was before, and deregistering it when its lower case type is not a key
    raises [KeyError] and changes nothing. *)
Theorem Deregister_after_Register
    (classes : registry) (c : container_class) :
  PyStr.is_ascii (CONTAINER_TYPE c) = true ->
  classes !! PyStr.lower (CONTAINER_TYPE c) = None ->
  DeregisterAttributeContainer (RegisterAttributeContainer classes c).1 c
  = (classes, Return tt)
  /\ DeregisterAttributeContainer classes c
     = (classes, Raise (KeyError (CONTAINER_TYPE c))).
Proof.
  intros _ Hfree.
  unfold RegisterAttributeContainer, DeregisterAttributeContainer.
  rewrite Hfree. simpl. rewrite lookup_insert_eq.
  split; [|done]. f_equal. by apply delete_insert_id.
Qed.

Lemma Deregister_after_Register_witness :
  DeregisterAttributeContainer
    (RegisterAttributeContainer ∅ (mkClass "Event" None)).1
    (mkClass "Event" None)
  = (∅, Return tt).
Proof.
  apply (Deregister_after_Register ∅ (mkClass "Event" None)); reflexivity.
Defined.

(** [RegisterAttributeContainers] is not all or nothing: when the classes
    of a first part of the list register and the next class finds its key
    taken, the [KeyError] of that class ends the call, the classes before
    it stay registered and the ones after it are not looked at. *)
Theorem RegisterAttributeContainers_stops_at_collision
    (classes registered : registry)
    (before after : list container_class) (c : container_class) :
  RegisterAttributeContainers classes before = (registered, Return tt) ->
  is_Some (registered !! PyStr.lower (CONTAINER_TYPE c)) ->
  RegisterAttributeContainers classes (before ++ c :: after)
  = (registered, Raise (KeyError (CONTAINER_TYPE c))).
Proof.
  revert classes. induction before as [|b before IH]; intros classes; simpl.
  - intros [= <-] [x Hx]. unfold RegisterAttributeContainer. by rewrite Hx.
  - destruct (RegisterAttributeContainer classes b) as [classes' [[]|e]];
      [|done].
    apply IH.
Qed.

Lemma RegisterAttributeContainers_stops_at_collision_witness :
  RegisterAttributeContainers ∅
    [mkClass "task" None; mkClass "Event" None; mkClass "event" None;
     mkClass "other" None]
  = ((RegisterAttributeContainers ∅
        [mkClass "task" None; mkClass "Event" None]).1,
     Raise (KeyError "event")).
Proof.
  apply (RegisterAttributeContainers_stops_at_collision ∅ _
           [mkClass "task" None; mkClass "Event" None]
           [mkClass "other" None] (mkClass "event" None)).
  - reflexivity.
  - vm_compute. eauto.
Defined.

End RegistryUpdates.

Module FilterGrouping.
Import AST2SQL.

Lemma append_assoc (a b c : string) : (a +:+ b) +:+ c = a +:+ (b +:+ c).
Proof.
  induction a as [|x a IH]; [done|].
  change (String x ((a +:+ b) +:+ c) = String x (a +:+ (b +:+ c))).
  by rewrite IH.
Qed.

(** The translator writes no parentheses, so the grouping of a
    disjunction inside a conjunction is lost: [(x or y) and z] and
    [x or (y and z)] give the same text, which SQL reads as the second. *)
Theorem PythonAST2SQL_loses_grouping (x y z : expr) (sx sy sz : string) :
  PythonAST2SQL x = Return sx ->
  PythonAST2SQL y = Return sy ->
  PythonAST2SQL z = Return sz ->
  PythonAST2SQL (BoolOp And_ [BoolOp Or_ [x; y]; z])
  = Return (sx +:+ " OR " +:+ sy +:+ " AND " +:+ sz)
  /\ PythonAST2SQL (BoolOp Or_ [x; BoolOp And_ [y; z]])
     = Return (sx +:+ " OR " +:+ sy +:+ " AND " +:+ sz).
Proof.
  intros Hx Hy Hz. simpl. rewrite Hx, Hy, Hz. simpl. split; [|done].
  f_equal. by rewrite !append_assoc.
Qed.

Lemma PythonAST2SQL_loses_grouping_witness :
  PythonAST2SQL
    (BoolOp And_
       [BoolOp Or_ [Compare (Name "a") [Eq_] [Constant (CInt 1)];
                    Compare (Name "b") [Eq_] [Constant (CInt 2)]];
        Compare (Name "c") [Eq_] [Constant (CInt 3)]])
  = PythonAST2SQL
      (BoolOp Or_
         [Compare (Name "a") [Eq_] [Constant (CInt 1)];
          BoolOp And_ [Compare (Name "b") [Eq_] [Constant (CInt 2)];
                       Compare (Name "c") [Eq_] [Constant (CInt 3)]]]).
Proof.
  destruct (PythonAST2SQL_loses_grouping
              (Compare (Name "a") [Eq_] [Constant (CInt 1)])
              (Compare (Name "b") [Eq_] [Constant (CInt 2)])
              (Compare (Name "c") [Eq_] [Constant (CInt 3)])
              "a = 1" "b = 2" "c = 3" eq_refl eq_refl eq_refl) as [H1 H2].
  by rewrite H1, H2.
Defined.

End FilterGrouping.


Module SchemaHelperProofs.
Import Identifier Manager Store StoreSpec.

Section RoundTrip.
Variable HasDataType : string -> bool.
Variable JsonSerializeValue : string -> pyvalue -> result pyvalue.
Variable JsonDeserializeValue : string -> sqlvalue -> result pyvalue.

(** A value of the Python type of its data type that SQLite stores (an
    integer of 64 bits) is serialized to a value sqlite3 binds, and what
    is stored deserializes to the value. *)
Lemma value_round_trip (data_type : string) (v : pyvalue) :
  HasDataType data_type = true ->
  matches_data_type data_type v = true ->
  exists serialized stored,
    SerializeValue HasDataType JsonSerializeValue data_type (Some v)
    = Return (Some serialized)
    /\ bind_parameter (Some serialized) = Return (Some stored)
    /\ DeserializeValue HasDataType JsonDeserializeValue data_type
         (Some stored) = Return (Some v).
Proof.
  intros Hsupported Htyped.
  unfold SerializeValue, DeserializeValue. rewrite Hsupported. simpl.
  destruct v as [b|n|s|[[n|] [s|]]|r]; simpl in Htyped; try done.
  - apply String.eqb_eq in Htyped as ->.
    destruct b; eexists _, _; (split; [reflexivity|]);
      split; reflexivity.
  - apply andb_prop in Htyped as [Htyped Hrange].
    apply orb_prop in Htyped as [->%String.eqb_eq| ->%String.eqb_eq];
      eexists _, _; (split; [reflexivity|]); simpl; rewrite Hrange;
      split; reflexivity.
  - apply String.eqb_eq in Htyped as ->.
    eexists _, _. split; [reflexivity|]. split; reflexivity.
  - apply andb_prop in Htyped as [->%String.eqb_eq Hdot].
    apply andb_prop in Hdot as [Hdot _].
    apply negb_true_iff in Hdot.
    eexists _, _. split; [reflexivity|]. split; [reflexivity|]. simpl.
    unfold CopyFromString.
    change ("." +:+ PyStr.format_d s) with (String PyStr.dot (PyStr.format_d s)).
    rewrite PyStrFacts.split_app by done.
    rewrite PyStrFacts.split_no_separator
      by apply PyStrFacts.format_d_no_dot.
    by rewrite PyStrFacts.int_format_d.
  - by rewrite andb_false_r in Htyped.
  - by rewrite andb_false_r in Htyped.
  - by rewrite andb_false_r in Htyped.
Qed.

(** A value of the Python type of its data type comes back from the
    database as it went in, an integer being one of 64 bits, which is what
    sqlite3 binds: [SerializeValue], the binding of the result by sqlite3
    and [DeserializeValue] of what is stored give the value again.
    An integer written to a [bool] attribute does not: it is stored as the
    integer and read as the boolean that tells whether it is not zero. *)
Theorem SerializeValue_DeserializeValue_round_trip
    (data_type : string) (v : pyvalue) :
  HasDataType data_type = true ->
  matches_data_type data_type v = true ->
  (exists serialized stored,
      SerializeValue HasDataType JsonSerializeValue data_type (Some v)
      = Return (Some serialized)
      /\ bind_parameter (Some serialized) = Return (Some stored)
      /\ DeserializeValue HasDataType JsonDeserializeValue data_type
           (Some stored) = Return (Some v))
  /\ (data_type = "bool" -> forall n : Z,
        SerializeValue HasDataType JsonSerializeValue data_type
          (Some (PyInt n)) = Return (Some (PyInt n))
        /\ DeserializeValue HasDataType JsonDeserializeValue data_type
             (Some (SqlInteger n)) = Return (Some (PyBool (negb (n =? 0)%Z)))).
Proof.
  intros Hsupported Htyped. split; [by apply value_round_trip|].
  intros -> n. unfold SerializeValue, DeserializeValue. rewrite Hsupported.
  split; reflexivity.
Qed.

End RoundTrip.

Lemma SerializeValue_DeserializeValue_round_trip_witness :
  exists serialized stored,
    SerializeValue standard_data_types no_json_serializer
      "AttributeContainerIdentifier"
      (Some (PyIdentifier (init (Some "event") (Some 3%Z))))
    = Return (Some serialized)
    /\ bind_parameter (Some serialized) = Return (Some stored)
    /\ DeserializeValue standard_data_types no_json_deserializer
         "AttributeContainerIdentifier" (Some stored)
       = Return (Some (PyIdentifier (init (Some "event") (Some 3%Z)))).
Proof.
  apply (SerializeValue_DeserializeValue_round_trip standard_data_types
           no_json_serializer no_json_deserializer
           "AttributeContainerIdentifier"
           (PyIdentifier (init (Some "event") (Some 3%Z))));
    reflexivity.
Defined.

End SchemaHelperProofs.

Module ContainerObjectProofs.
Import Identifier Store ContainerObject.

Lemma od_get_None {V} (name : string) (d : list (string * V)) :
  od_get name d = None <-> name ∉ d.*1.
Proof.
  induction d as [|[k v] d IH]; simpl.
  - split; [intros _; apply not_elem_of_nil|done].
  - destruct (String.eqb k name) eqn:E.
    + apply String.eqb_eq in E as ->. split; [done|].
      intros H. exfalso. apply H. apply elem_of_cons. by left.
    + apply String.eqb_neq in E. rewrite IH. rewrite not_elem_of_cons.
      split; [by intros ?; split|by intros [_ ?]].
Qed.

Lemma od_set_fresh {V} (name : string) (value : V) (d : list (string * V)) :
  od_get name d = None -> od_set name value d = (d ++ [(name, value)])%list.
Proof.
  induction d as [|[k v] d IH]; simpl; [done|].
  destruct (String.eqb k name); [done|]. intros H. by rewrite IH.
Qed.

Lemma od_get_app_None {V} (name : string) (d1 d2 : list (string * V)) :
  od_get name d1 = None -> od_get name d2 = None ->
  od_get name (d1 ++ d2) = None.
Proof.
  rewrite !od_get_None, fmap_app. intros H1 H2 [H|H]%elem_of_app; auto.
Qed.

Lemma is_serialized_nonempty (protected : list string) (name : string) :
  name <> EmptyString ->
  exists b, is_serialized protected name = Return b.
Proof.
  destruct name as [|c name]; [done|]. intros _. unfold is_serialized. simpl.
  destruct (negb (Ascii.eqb c "_")); eauto.
Qed.

Lemma CopyFromDict_appends protected d attributes :
  NoDup attributes.*1 ->
  Forall (fun name => name <> EmptyString) attributes.*1 ->
  (forall name, name ∈ attributes.*1 ->
                is_serialized protected name = Return true ->
                od_get name d = None) ->
  CopyFromDict (mkObject protected d) attributes
  = (mkObject protected (d ++ kept protected attributes), Return tt).
Proof.
  revert d. induction attributes as [|[name value] attributes IH];
    intros d Hnodup Hnames Hfresh; simpl.
  - by rewrite app_nil_r.
  - simpl in Hnodup, Hnames. apply NoDup_cons in Hnodup as [Hnotin Hnodup].
    apply Forall_cons in Hnames as [Hname Hnames].
    destruct (is_serialized_nonempty protected name Hname) as [b Hb].
    rewrite Hb. destruct b.
    + rewrite od_set_fresh
        by (apply Hfresh; [apply elem_of_cons; by left|done]).
      rewrite IH; [by rewrite <- app_assoc|done|done|].
      intros name' Hin Hs. apply od_get_app_None.
      * apply Hfresh; [apply elem_of_cons; by right|done].
      * simpl. destruct (String.eqb name name') eqn:E; [|done].
        apply String.eqb_eq in E as ->. done.
    + apply IH; [done|done|].
      intros name' Hin Hs. apply Hfresh; [apply elem_of_cons; by right|done].
Qed.

Lemma GetAttributes_items_app protected items1 items2 yielded1 yielded2 :
  GetAttributes_items protected items1 = Return yielded1 ->
  GetAttributes_items protected items2 = Return yielded2 ->
  GetAttributes_items protected (items1 ++ items2)
  = Return (yielded1 ++ yielded2)%list.
Proof.
  revert yielded1. induction items1 as [|[name [value|]] items1 IH];
    intros yielded1; simpl.
  - by intros [= <-].
  - destruct (is_serialized protected name) as [b|e]; [|done].
    destruct (GetAttributes_items protected items1) as [y|e]; [|done].
    intros [= <-] H2. rewrite (IH y eq_refl H2). by destruct b.
  - apply IH.
Qed.

Lemma GetAttributes_items_kept protected attributes :
  Forall (fun name => name <> EmptyString) attributes.*1 ->
  GetAttributes_items protected (kept protected attributes)
  = Return (serialized_items protected attributes).
Proof.
  induction attributes as [|[name value] attributes IH]; simpl; [done|].
  intros [Hname Hnames]%Forall_cons. specialize (IH Hnames).
  destruct (is_serialized_nonempty protected name Hname) as [b Hb].
  unfold serialized_items. simpl. rewrite Hb.
  destruct b; simpl; [|exact IH].
  destruct value as [value|]; simpl; [|exact IH].
  rewrite Hb, IH. done.
Qed.

(** What [CopyFromDict] sets on a new container is what [CopyToDict]
    gives back: the items whose value is not [None] and whose name is
    public or listed as a serializable protected attribute, in their
    order; and the identifier of the container is as it was, since
    [_identifier] is protected and not listed. *)
Theorem CopyFromDict_CopyToDict_round_trip
    (protected : list string) (CONTAINER_TYPE : option string) (id : Z)
    (attributes : list (string * option pyvalue)) :
  "_identifier" ∉ protected ->
  NoDup attributes.*1 ->
  Forall (fun name => name <> EmptyString) attributes.*1 ->
  let filled := CopyFromDict (init protected CONTAINER_TYPE id) attributes in
  filled.2 = Return tt
  /\ CopyToDict filled.1 = Return (serialized_items protected attributes)
  /\ GetIdentifier filled.1
     = Return (Some (PyIdentifier (Identifier.init CONTAINER_TYPE (Some id)))).
Proof.
  intros Hprotected Hnodup Hnames filled. subst filled.
  assert (is_serialized protected "_identifier" = Return false) as Hid.
  { change (is_serialized protected "_identifier")
      with (Return (A:=bool) (bool_decide ("_identifier" ∈ protected))).
    by rewrite bool_decide_eq_false_2. }
  unfold init. rewrite CopyFromDict_appends; try done.
  2:{ intros name _ Hs. apply od_get_None. simpl.
      intros [->|Hin]%elem_of_cons; [congruence|].
      by apply elem_of_nil in Hin. }
  cbn [fst snd]. split; [done|]. split.
  - unfold CopyToDict, GetAttributes.
    cbn [__dict__ _SERIALIZABLE_PROTECTED_ATTRIBUTES].
    apply (GetAttributes_items_app protected _ _ [] _).
    + cbn [GetAttributes_items]. by rewrite Hid.
    + by apply GetAttributes_items_kept.
  - unfold GetIdentifier. cbn [__dict__]. done.
Qed.

Lemma CopyFromDict_CopyToDict_round_trip_witness :
  CopyToDict
    (CopyFromDict (init ["_event_values_hash"] (Some "event") 7)
       [("timestamp", Some (PyInt 5)); ("_parser", Some (PyStr "p"));
        ("_event_values_hash", Some (PyInt 9)); ("tag", None);
        ("_identifier", Some (PyStr "x"))]).1
  = Return [("timestamp", PyInt 5); ("_event_values_hash", PyInt 9)].
Proof.
  apply (CopyFromDict_CopyToDict_round_trip ["_event_values_hash"]
           (Some "event") 7
           [("timestamp", Some (PyInt 5)); ("_parser", Some (PyStr "p"));
            ("_event_values_hash", Some (PyInt 9)); ("tag", None);
            ("_identifier", Some (PyStr "x"))]).
  - compute_done.
  - compute_done.
  - compute_done.
Defined.

(** [CopyFromDict] is not all or nothing: the empty attribute name makes
    the test of its first character raise [IndexError], the items before
    it stay set on the container and the items after it are not looked
    at. *)
Theorem CopyFromDict_stops_at_the_empty_name
    (self : AttributeContainer)
    (before after : list (string * option pyvalue))
    (value : option pyvalue) :
  (CopyFromDict self before).2 = Return tt ->
  CopyFromDict self (before ++ (EmptyString, value) :: after)
  = ((CopyFromDict self before).1, Raise IndexError).
Proof.
  revert self. induction before as [|[name v] before IH]; intros self; simpl.
  - done.
  - destruct (is_serialized (_SERIALIZABLE_PROTECTED_ATTRIBUTES self) name)
      as [[|]|e]; [apply IH|apply IH|done].
Qed.

Lemma CopyFromDict_stops_at_the_empty_name_witness :
  CopyFromDict (init [] (Some "event") 7)
    [("a", Some (PyInt 1)); ("", Some (PyInt 2)); ("b", Some (PyInt 3))]
  = ((CopyFromDict (init [] (Some "event") 7) [("a", Some (PyInt 1))]).1,
     Raise IndexError).
Proof.
  apply (CopyFromDict_stops_at_the_empty_name (init [] (Some "event") 7)
           [("a", Some (PyInt 1))] [("b", Some (PyInt 3))] (Some (PyInt 2))).
  reflexivity.
Defined.

Lemma GetAttributes_items_names protected items yielded found name value :
  GetAttributes_items protected items = Return yielded ->
  public_names items.*1 = Return found ->
  (name, value) ∈ yielded ->
  name ∈ (protected ++ found)%list.
Proof.
  revert yielded found.
  induction items as [|[n [v|]] items IH]; intros yielded found;
    rewrite ?fmap_cons; cbn [GetAttributes_items public_names fst].
  - intros [= <-] _ H. by apply elem_of_nil in H.
  - unfold is_serialized.
    destruct (is_public n) as [public|e]; [|by destruct e].
    destruct (public_names items.*1) as [found'|e]; [|by destruct public].
    destruct (GetAttributes_items protected items) as [yielded'|e];
      [|by destruct public].
    specialize (IH yielded' found' eq_refl eq_refl).
    destruct public; intros [= <-] [= <-] Hin.
    + apply elem_of_cons in Hin as [[= -> ->]|Hin].
      * apply elem_of_app. right. apply elem_of_cons. by left.
      * apply IH in Hin. apply elem_of_app in Hin as [Hin|Hin];
          apply elem_of_app; [by left|right].
        apply elem_of_cons. by right.
    + destruct (bool_decide (n ∈ protected)) eqn:E.
      * apply elem_of_cons in Hin as [[= -> ->]|Hin]; [|by apply IH].
        apply bool_decide_eq_true in E. apply elem_of_app. by left.
      * by apply IH.
  - destruct (is_public n) as [public|e]; [|done].
    destruct (public_names items.*1) as [found'|e]; [|done].
    intros Hy [= <-] Hin. specialize (IH yielded found' Hy eq_refl Hin).
    destruct public; [|done].
    apply elem_of_app in IH as [Hin'|Hin']; apply elem_of_app; [by left|right].
    apply elem_of_cons. by right.
Qed.

(** Every attribute [GetAttributes] yields is named by
    [GetAttributeNames], when both return. *)
Theorem GetAttributes_yields_attribute_names
    (self : AttributeContainer) (yielded : list (string * pyvalue))
    (names : list string) (name : string) (value : pyvalue) :
  GetAttributes self = Return yielded ->
  GetAttributeNames self = Return names ->
  (name, value) ∈ yielded ->
  name ∈ names.
Proof.
  unfold GetAttributes, GetAttributeNames. intros Hy Hn Hin.
  destruct (public_names (__dict__ self).*1) as [found|e] eqn:E; [|done].
  injection Hn as <-. by eapply GetAttributes_items_names.
Qed.

Lemma GetAttributes_yields_attribute_names_witness :
  "_event_values_hash"
  ∈ ["_event_values_hash"; "timestamp"].
Proof.
  apply (GetAttributes_yields_attribute_names
           (CopyFromDict (init ["_event_values_hash"] (Some "event") 7)
              [("timestamp", Some (PyInt 5));
               ("_event_values_hash", Some (PyInt 9))]).1
           [("timestamp", PyInt 5); ("_event_values_hash", PyInt 9)]
           ["_event_values_hash"; "timestamp"]
           "_event_values_hash" (PyInt 9)).
  - reflexivity.
  - reflexivity.
  - apply elem_of_cons. right. apply elem_of_cons. by left.
Defined.

End ContainerObjectProofs.


Module StoreInvariants.
Import Identifier Manager Store StoreSpec.

(** *** Relations kept by every call of a session *)

Section Respects.
Variable R : world -> world -> Prop.
Hypothesis R_refl : forall w, R w w.
Hypothesis R_trans : forall w1 w2 w3, R w1 w2 -> R w2 w3 -> R w1 w3.

Lemma respects_ret {A} (a : A) : respects R (ret a).
Proof. intros w. apply R_refl. Qed.

Lemma respects_raise {A} e : respects R (@raise A e).
Proof. intros w. apply R_refl. Qed.

Lemma respects_lift {A} (r : result A) : respects R (lift r).
Proof. intros w. apply R_refl. Qed.

Lemma respects_get_self : respects R get_self.
Proof. intros w. apply R_refl. Qed.

Lemma respects_get_classes : respects R get_classes.
Proof. intros w. apply R_refl. Qed.

Lemma respects_get_object ref : respects R (get_object ref).
Proof.
  intros w. unfold get_object. destruct (objects w !! ref); apply R_refl.
Qed.

Lemma respects_bind {A B} (m : M A) (k : A -> M B) :
  respects R m -> (forall a, respects R (k a)) -> respects R (bind m k).
Proof.
  intros Hm Hk w. unfold bind. specialize (Hm w).
  destruct (m w) as [w1 [a|e]]; [|done].
  eapply R_trans; [exact Hm|apply Hk].
Qed.

Lemma respects_try_except {A} (m : M A) handler :
  respects R m -> (forall e h, handler e = Some h -> respects R h) ->
  respects R (try_except m handler).
Proof.
  intros Hm Hh w. unfold try_except. specialize (Hm w).
  destruct (m w) as [w1 [a|e]]; [done|].
  destruct (handler e) as [h|] eqn:E; [|done].
  eapply R_trans; [exact Hm|by eapply Hh].
Qed.

Lemma respects_unable_to_query {A} (m : M A) :
  respects R m -> respects R (try_except m unable_to_query).
Proof.
  intros Hm. apply respects_try_except; [done|].
  intros e h. destruct e as [| | | | | | | |[]]; intros [= <-];
    apply respects_raise.
Qed.

Lemma respects_for_each {A B} (xs : list A) (body : A -> M B) :
  (forall x, respects R (body x)) -> respects R (for_each xs body).
Proof.
  intros Hbody. induction xs as [|x xs IH]; simpl.
  - apply respects_ret.
  - apply respects_bind; [apply Hbody|]. intros b.
    apply respects_bind; [apply IH|]. intros bs. apply respects_ret.
Qed.

End Respects.

Create HintDb respects.

#[local] Hint Resolve respects_ret respects_raise respects_lift
  respects_get_self respects_get_classes respects_get_object
  respects_unable_to_query : respects.

(** The side conditions on the relation itself. *)
Ltac respects_side := first [assumption | solve [eauto with respects]].

(** One step through the body of a call. *)
Ltac respects_step :=
  first
    [ solve [eauto with respects]
    | apply respects_bind; [respects_side| |intros ?]
    | apply respects_for_each; [respects_side|respects_side|intros ?]
    | apply respects_try_except;
        [respects_side|
        |let e := fresh "e" in let h := fresh "h" in
         intros e h; destruct e; intros [= <-]]
    | match goal with
      | |- respects _ (if ?b then _ else _) => destruct b
      | |- respects _ (match ?x with _ => _ end) => destruct x
      | |- respects _ (let '(_, _) := ?x in _) => destruct x
      end ].

Ltac respects_tac := repeat respects_step.

(** The calls that work on the write cache, from what the relation allows
    to the primitives they are made of. *)
Section WriteCacheCalls.
Variable R : world -> world -> Prop.
Hypothesis R_refl : forall w, R w w.
Hypothesis R_trans : forall w1 w2 w3, R w1 w2 -> R w2 w3 -> R w1 w3.
Hypothesis R_write_cache :
  forall f, respects R (modify_self (fun s => set_write_cache (f s) s)).
Hypothesis R_insert :
  forall stmt name column_names n values,
    respects R (execute stmt (sql_insert name column_names n values)).
Hypothesis R_commit : respects R commit.

#[local] Hint Resolve R_refl R_trans R_write_cache R_insert R_commit
  : respects.

Lemma respects__FlushWriteCache ty wc b : respects R (_FlushWriteCache ty wc b).
Proof. unfold _FlushWriteCache. respects_tac. Qed.

#[local] Hint Resolve respects__FlushWriteCache : respects.

Lemma respects__CacheAttributeContainerForWrite ty cols values :
  respects R (_CacheAttributeContainerForWrite ty cols values).
Proof. unfold _CacheAttributeContainerForWrite. respects_tac. Qed.

Lemma respects__CommitWriteCache ty : respects R (_CommitWriteCache ty).
Proof. unfold _CommitWriteCache. respects_tac. Qed.

Lemma respects__Flush : respects R _Flush.
Proof. unfold _Flush. respects_tac. Qed.

End WriteCacheCalls.

(** Every call of a session, from the calls that work on the caches and
    the counters and from the statements. *)
Section SessionCalls.
Variable HasDataType : string -> bool.
Variable JsonSerializeValue : string -> pyvalue -> result pyvalue.
Variable JsonDeserializeValue : string -> sqlvalue -> result pyvalue.
Variable R : world -> world -> Prop.
Hypothesis R_trans : forall w1 w2 w3, R w1 w2 -> R w2 w3 -> R w1 w3.
Hypothesis R_self_files :
  forall w w', self w' = self w -> files w' = files w -> R w w'.
Hypothesis R_next :
  forall ty, respects R (_GetAttributeContainerNextSequenceNumber ty).
Hypothesis R_cache_by_index :
  forall o i, respects R (_CacheAttributeContainerByIndex o i).
Hypothesis R_cached :
  forall ty i, respects R (_GetCachedAttributeContainer ty i).
Hypothesis R_cache_for_write :
  forall ty cols values,
    respects R (_CacheAttributeContainerForWrite ty cols values).
Hypothesis R_commit_write_cache : forall ty, respects R (_CommitWriteCache ty).
Hypothesis R_flush : respects R _Flush.
Hypothesis R_query :
  forall A stmt (effect : connection -> result (database * A)),
    (forall conn db a, effect conn = Return (db, a) -> db = conn_db conn) ->
    respects R (execute stmt effect).
Hypothesis R_create_table :
  forall stmt name cols, respects R (execute stmt (sql_create_table name cols)).
Hypothesis R_update :
  forall stmt name cols values rowid,
    respects R (execute stmt (sql_update name cols values rowid)).

Lemma R_refl w : R w w.
Proof. by apply R_self_files. Qed.

Lemma respects_same_self_files {A} (m : M A) :
  (forall w, self (m w).1 = self w /\ files (m w).1 = files w) ->
  respects R m.
Proof. intros H w. apply R_self_files; apply H. Qed.

Lemma respects_SetIdentifier ref i : respects R (SetIdentifier ref i).
Proof.
  apply respects_same_self_files. intros w. unfold SetIdentifier.
  by destruct (objects w !! ref).
Qed.

Lemma respects_setattr ref name v : respects R (setattr ref name v).
Proof.
  apply respects_same_self_files. intros w. unfold setattr.
  by destruct (objects w !! ref).
Qed.

Lemma respects_new_container cls attrs : respects R (new_container cls attrs).
Proof. by apply respects_same_self_files. Qed.

Lemma respects_update_registry f : respects R (update_registry f).
Proof.
  apply respects_same_self_files. intros w. unfold update_registry.
  by destruct (f (classes w)).
Qed.

Lemma respects_has_table stmt name :
  respects R (execute stmt (sql_has_table name)).
Proof. apply R_query. unfold sql_has_table. by intros conn db a [= <- _]. Qed.

Lemma respects_select_row stmt name cols rowid :
  respects R (execute stmt (sql_select_row name cols rowid)).
Proof.
  apply R_query. intros conn db a. unfold sql_select_row.
  repeat case_match; try done; by intros [= <- _].
Qed.

Lemma respects_select_max_rowid stmt name :
  respects R (execute stmt (sql_select_max_rowid name)).
Proof.
  apply R_query. intros conn db a. unfold sql_select_max_rowid.
  repeat case_match; try done; by intros [= <- _].
Qed.

#[local] Hint Resolve R_refl R_trans R_next R_cache_by_index R_cached
  R_cache_for_write R_commit_write_cache R_flush R_create_table R_update
  respects_SetIdentifier respects_setattr respects_new_container
  respects_update_registry respects_has_table respects_select_row
  respects_select_max_rowid : respects.

Lemma respects__GetAttributeContainerSchema ty :
  respects R (_GetAttributeContainerSchema ty).
Proof. unfold _GetAttributeContainerSchema. respects_tac. Qed.

Lemma respects__HasTable name : respects R (_HasTable name).
Proof. unfold _HasTable. respects_tac. Qed.

#[local] Hint Resolve respects__GetAttributeContainerSchema
  respects__HasTable : respects.

Lemma respects__CreateAttributeContainerTable ty :
  respects R (_CreateAttributeContainerTable ty).
Proof. unfold _CreateAttributeContainerTable. respects_tac. Qed.

Lemma respects__CreatetAttributeContainerFromRow ty cols row first :
  respects R (_CreatetAttributeContainerFromRow HasDataType
                JsonDeserializeValue ty cols row first).
Proof. unfold _CreatetAttributeContainerFromRow. respects_tac. Qed.

Lemma respects__RaiseIfNotWritable : respects R _RaiseIfNotWritable.
Proof. unfold _RaiseIfNotWritable. respects_tac. Qed.

Lemma respects_serialize_attributes ty attrs schema :
  respects R (serialize_attributes HasDataType JsonSerializeValue ty attrs
                schema).
Proof. unfold serialize_attributes. respects_tac. Qed.

#[local] Hint Resolve respects__CreateAttributeContainerTable
  respects__CreatetAttributeContainerFromRow respects__RaiseIfNotWritable
  respects_serialize_attributes : respects.

Lemma respects__WriteExistingAttributeContainer o :
  respects R (_WriteExistingAttributeContainer HasDataType JsonSerializeValue o).
Proof. unfold _WriteExistingAttributeContainer, GetIdentifier. respects_tac. Qed.

Lemma respects__WriteNewAttributeContainer o :
  respects R (_WriteNewAttributeContainer HasDataType JsonSerializeValue o).
Proof. unfold _WriteNewAttributeContainer. respects_tac. Qed.

Lemma respects_GetAttributeContainerByIndex ty i :
  respects R (GetAttributeContainerByIndex HasDataType JsonDeserializeValue
                ty i).
Proof. unfold GetAttributeContainerByIndex. respects_tac. Qed.

Lemma respects_GetNumberOfAttributeContainers ty :
  respects R (GetNumberOfAttributeContainers ty).
Proof. unfold GetNumberOfAttributeContainers. respects_tac. Qed.

#[local] Hint Resolve respects__WriteExistingAttributeContainer
  respects__WriteNewAttributeContainer respects_GetAttributeContainerByIndex
  respects_GetNumberOfAttributeContainers : respects.

Lemma respects_step (c : call) :
  respects R (step HasDataType JsonSerializeValue JsonDeserializeValue c).
Proof.
  destruct c; unfold step, AddAttributeContainer, UpdateAttributeContainer,
    GetAttributeContainerByIdentifier, HasAttributeContainers; respects_tac.
Qed.

Lemma respects_run (calls : list call) (w : world) :
  R w (run HasDataType JsonSerializeValue JsonDeserializeValue calls w).
Proof.
  revert w. induction calls as [|c calls IH]; intros w; simpl.
  - apply R_refl.
  - eapply R_trans; [apply respects_step|apply IH].
Qed.

End SessionCalls.

(** Changes of one attribute of the store object that a relation does not
    look at, and the calls that only make such changes. *)
Section Harmless.
Variable R : world -> world -> Prop.
Hypothesis R_refl : forall w, R w w.
Hypothesis R_connection :
  forall w c, R w (with_self w (set_connection c (self w))).
Hypothesis R_cache : forall w v, R w (with_self w (set_cache v (self w))).
Hypothesis R_counters :
  forall w v, R w (with_self w (set_sequence_numbers v (self w))).
Hypothesis R_write_cache :
  forall w v, R w (with_self w (set_write_cache v (self w))).
Hypothesis R_files :
  forall w fs, R w (mkWorld fs (classes w) (objects w) (self w)).

Lemma harmless_execute {A} stmt
    (effect : connection -> result (database * A)) :
  respects R (execute stmt effect).
Proof.
  intros w. unfold execute.
  destruct (_connection (self w)) as [conn|]; [|apply R_refl].
  destruct (effect conn) as [[db a]|e]; apply R_connection.
Qed.

Lemma harmless_commit : respects R commit.
Proof.
  intros w. unfold commit.
  destruct (_connection (self w)) as [conn|]; [|apply R_refl].
  destruct (conn_read_only conn); [apply R_refl|apply R_files].
Qed.

Lemma harmless_write_cache f :
  respects R (modify_self (fun s => set_write_cache (f s) s)).
Proof. intros w. apply R_write_cache. Qed.

Lemma harmless__GetAttributeContainerNextSequenceNumber ty :
  respects R (_GetAttributeContainerNextSequenceNumber ty).
Proof. intros w. apply R_counters. Qed.

Lemma harmless_cache f :
  respects R (modify_self (fun s => set_cache (f s) s)).
Proof. intros w. apply R_cache. Qed.

Hypothesis R_trans : forall w1 w2 w3, R w1 w2 -> R w2 w3 -> R w1 w3.

#[local] Hint Resolve R_refl harmless_cache : respects.

Lemma harmless__CacheAttributeContainerByIndex o i :
  respects R (_CacheAttributeContainerByIndex o i).
Proof. unfold _CacheAttributeContainerByIndex. respects_tac. Qed.

Lemma harmless__GetCachedAttributeContainer ty i :
  respects R (_GetCachedAttributeContainer ty i).
Proof. unfold _GetCachedAttributeContainer. respects_tac. Qed.

End Harmless.

(** *** What [execute] and [commit] leave alone *)

Lemma execute_frame {A} stmt (effect : connection -> result (database * A)) w :
  let w' := (execute stmt effect w).1 in
  files w' = files w /\ classes w' = classes w /\ objects w' = objects w
  /\ _write_cache (self w') = _write_cache (self w)
  /\ _attribute_container_cache (self w') = _attribute_container_cache (self w)
  /\ _attribute_container_sequence_numbers (self w')
     = _attribute_container_sequence_numbers (self w)
  /\ _is_open (self w') = _is_open (self w)
  /\ _read_only (self w') = _read_only (self w).
Proof.
  unfold execute. destruct (_connection (self w)) as [conn|]; [|done].
  by destruct (effect conn) as [[db a]|e].
Qed.

(** *** The sequence counters never go down *)

Lemma counters_advance_refl w : counters_advance w w.
Proof. by intros ty. Qed.

Lemma counters_advance_trans w1 w2 w3 :
  counters_advance w1 w2 -> counters_advance w2 w3 -> counters_advance w1 w3.
Proof. intros H1 H2 ty. specialize (H1 ty). specialize (H2 ty). lia. Qed.

Lemma counters_advance_same w w' :
  _attribute_container_sequence_numbers (self w')
  = _attribute_container_sequence_numbers (self w) ->
  counters_advance w w'.
Proof. intros H ty. unfold sequence_number_of. by rewrite H. Qed.

Lemma counters_advance_next ty :
  respects counters_advance (_GetAttributeContainerNextSequenceNumber ty).
Proof.
  intros w ty'. simpl. unfold sequence_number_of at 2. simpl.
  rewrite lookup_insert. case_decide as H; simpl; [subst|]; unfold sequence_number_of; lia.
Qed.

Section Counters.
Variable HasDataType : string -> bool.
Variable JsonSerializeValue : string -> pyvalue -> result pyvalue.
Variable JsonDeserializeValue : string -> sqlvalue -> result pyvalue.

(** Whatever the caller does in a session, no sequence counter of the
    store goes down. *)
Lemma counters_advance_run (calls : list call) (w : world) :
  counters_advance w
    (run HasDataType JsonSerializeValue JsonDeserializeValue calls w).
Proof.
  apply respects_run.
  - apply counters_advance_trans.
  - intros w0 w' Hs _. apply counters_advance_same. by rewrite Hs.
  - apply counters_advance_next.
  - apply harmless__CacheAttributeContainerByIndex;
      [apply counters_advance_refl|by intros; apply counters_advance_same
      |apply counters_advance_trans].
  - apply harmless__GetCachedAttributeContainer;
      [apply counters_advance_refl|by intros; apply counters_advance_same
      |apply counters_advance_trans].
  - apply respects__CacheAttributeContainerForWrite;
      [apply counters_advance_refl|apply counters_advance_trans|..].
    + intros f w0. by apply counters_advance_same.
    + intros. apply harmless_execute;
        [apply counters_advance_refl|by intros; apply counters_advance_same].
  - apply respects__CommitWriteCache;
      [apply counters_advance_refl|apply counters_advance_trans|..].
    + intros f w0. by apply counters_advance_same.
    + intros. apply harmless_execute;
        [apply counters_advance_refl|by intros; apply counters_advance_same].
  - apply respects__Flush;
      [apply counters_advance_refl|apply counters_advance_trans|..].
    + intros f w0. by apply counters_advance_same.
    + intros. apply harmless_execute;
        [apply counters_advance_refl|by intros; apply counters_advance_same].
    + apply harmless_commit;
        [apply counters_advance_refl|by intros; apply counters_advance_same].
  - intros. apply harmless_execute;
      [apply counters_advance_refl|by intros; apply counters_advance_same].
  - intros. apply harmless_execute;
      [apply counters_advance_refl|by intros; apply counters_advance_same].
  - intros. apply harmless_execute;
      [apply counters_advance_refl|by intros; apply counters_advance_same].
Qed.

End Counters.

(** *** Properties of the world that every call maintains *)

Lemma maintains_refl P w : maintains P w w.
Proof. by intros H. Qed.

Lemma maintains_trans P w1 w2 w3 :
  maintains P w1 w2 -> maintains P w2 w3 -> maintains P w1 w3.
Proof. intros H1 H2 H. by apply H2, H1. Qed.

(** *** The read cache stays within its bound *)

Lemma length_od_set {V} key (value : V) d :
  (length (od_set key value d) <= S (length d))%nat.
Proof.
  induction d as [|[k v] d IH]; simpl; [lia|].
  destruct (String.eqb k key); simpl; lia.
Qed.

Lemma length_od_remove {V} key (d : list (string * V)) v :
  od_get key d = Some v -> S (length (od_remove key d)) = length d.
Proof.
  induction d as [|[k x] d IH]; simpl; [done|].
  destruct (String.eqb k key); simpl; [done|]. intros H. by rewrite IH.
Qed.

Lemma length_od_move_to_front {V} key (d : list (string * V)) :
  length (od_move_to_front key d) = length d.
Proof.
  unfold od_move_to_front. destruct (od_get key d) as [v|] eqn:E; [|done].
  simpl. by eapply length_od_remove.
Qed.

Lemma length_od_popitem_last {V} (d : list (string * V)) :
  length (od_popitem_last d) = pred (length d).
Proof.
  unfold od_popitem_last. induction d as [|x [|y d] IH]; simpl in *; [done..|].
  by rewrite IH.
Qed.

Lemma maximum_cached_containers_positive :
  (1 <= _MAXIMUM_CACHED_CONTAINERS)%nat.
Proof. apply Nat.leb_le. vm_compute. reflexivity. Qed.

Lemma read_cache_bound__CacheAttributeContainerByIndex o i :
  respects (maintains read_cache_within_bound)
    (_CacheAttributeContainerByIndex o i).
Proof.
  intros w. unfold maintains, read_cache_within_bound.
  pose proof maximum_cached_containers_positive as Hpos.
  unfold _CacheAttributeContainerByIndex.
  remember _MAXIMUM_CACHED_CONTAINERS as N eqn:HN. clear HN.
  intros Hbound.
  unfold bind at 1. unfold get_self at 1.
  unfold bind at 1.
  set (c := _attribute_container_cache (self w)) in *.
  assert (exists c', (length c' <= N - 1 \/ (length c' < N)%nat)%nat
                     /\ (if (N <=? length c)%nat
                         then modify_self (fun s =>
                                set_cache (od_popitem_last
                                             (_attribute_container_cache s)) s)
                         else ret tt) w
                        = (with_self w (set_cache c' (self w)), Return tt))
    as (c' & Hc' & ->).
  { destruct (N <=? length c)%nat eqn:E.
    - exists (od_popitem_last c). split; [|done].
      left. rewrite length_od_popitem_last. lia.
    - exists c. split; [right; apply Nat.leb_gt in E; lia|].
      unfold ret, with_self. f_equal. destruct w as [? ? ? []]; done. }
  unfold bind, get_object, modify_self, ret. simpl.
  destruct (objects w !! o) as [obj|]; simpl.
  - rewrite length_od_move_to_front.
    pose proof (length_od_set
                  (lookup_key_of (CONTAINER_TYPE (class_of obj)) i) o c').
    lia.
  - lia.
Qed.

Lemma read_cache_bound__GetCachedAttributeContainer ty i :
  respects (maintains read_cache_within_bound)
    (_GetCachedAttributeContainer ty i).
Proof.
  intros w. unfold maintains, read_cache_within_bound.
  unfold _GetCachedAttributeContainer, bind, get_self, modify_self, ret.
  simpl. destruct (od_get _ _); simpl; [|done].
  by rewrite length_od_move_to_front.
Qed.

Lemma read_cache_bound_same w w' :
  _attribute_container_cache (self w') = _attribute_container_cache (self w) ->
  maintains read_cache_within_bound w w'.
Proof. intros H. unfold maintains, read_cache_within_bound. by rewrite H. Qed.

(** *** No list of the write cache reaches its bound *)

Lemma write_cache_bound_same w w' :
  _write_cache (self w') = _write_cache (self w) ->
  maintains write_cache_within_bound w w'.
Proof. intros H. unfold maintains, write_cache_within_bound. by rewrite H. Qed.

(** The write cache after a flush, whether the statement failed or not. *)
Lemma _FlushWriteCache_write_cache ty first rest in_dictionary w :
  _write_cache (self (_FlushWriteCache ty (first :: rest) in_dictionary w).1)
  = if in_dictionary then <[ty := rest]> (_write_cache (self w))
    else _write_cache (self w).
Proof.
  unfold _FlushWriteCache.
  set (w0 := ((if in_dictionary
               then modify_self (fun s =>
                      set_write_cache (<[ty:=rest]> (_write_cache s)) s)
               else ret tt) w).1).
  assert (_write_cache (self w0)
          = if in_dictionary then <[ty := rest]> (_write_cache (self w))
            else _write_cache (self w)) as Hw0
    by (subst w0; by destruct in_dictionary).
  assert ((if in_dictionary
           then modify_self (fun s =>
                  set_write_cache (<[ty:=rest]> (_write_cache s)) s)
           else ret tt) w = (w0, Return tt)) as Hstep
    by (subst w0; by destruct in_dictionary).
  rewrite (StoreProofs.bind_Return _ _ _ _ _ Hstep). rewrite <- Hw0.
  unfold bind.
  destruct (match first with
            | ColumnNames names => ret names
            | RowValues values =>
                match as_strings values with
                | Some names => ret names
                | None => raise TypeError
                end
            end w0) as [w1 [names|e]] eqn:Enames.
  - assert (w1 = w0) as ->.
    { destruct first as [n|v]; [by injection Enames|].
      destruct (as_strings v); by injection Enames. }
    unfold try_except.
    pose proof (execute_frame (INSERT_INTO ty names (length rest))
                  (sql_insert ty names (length rest)
                     (concat (item_values <$> rest))) w0) as Hframe.
    simpl in Hframe. destruct Hframe as (_ & _ & _ & Hwc & _).
    destruct (execute _ _ w0) as [w2 [[]|e]]; simpl in *; [done|].
    destruct (unable_to_query e) as [h|] eqn:Eh; [|done].
    destruct e as [| | | | | | | |[]]; simpl in Eh; try done;
      injection Eh as <-; done.
  - assert (w1 = w0) as ->; [|done].
    destruct first as [n|v]; [by injection Enames|].
    destruct (as_strings v); by injection Enames.
Qed.

Lemma write_cache_bound_insert_tail ty (l : list write_cache_item) w w' :
  (length l <= _MAXIMUM_WRITE_CACHE_SIZE)%nat ->
  _write_cache (self w') = <[ty := tail l]> (_write_cache (self w)) ->
  l <> [] ->
  maintains write_cache_within_bound w w'.
Proof.
  intros Hlen Hwc Hne Hbound ty' l'. rewrite Hwc, lookup_insert.
  case_decide; [|apply Hbound].
  intros [= <-]. destruct l; [done|]. simpl in *. lia.
Qed.

Lemma write_cache_bound__CommitWriteCache ty :
  respects (maintains write_cache_within_bound) (_CommitWriteCache ty).
Proof.
  intros w Hbound. unfold _CommitWriteCache.
  unfold bind at 1. unfold get_self at 1.
  destruct (_write_cache (self w) !! ty) as [l|] eqn:El; simpl; [|done].
  destruct (1 <? length l)%nat eqn:Hlen; [|done].
  destruct l as [|first rest]; [done|].
  pose proof (_FlushWriteCache_write_cache ty first rest true w) as Hwc.
  unfold bind.
  destruct (_FlushWriteCache ty (first :: rest) true w) as [w1 [[]|e]];
    simpl in *.
  - intros ty' l'. simpl. rewrite Hwc, lookup_delete. case_decide; [done|].
    rewrite lookup_insert_ne by done. apply Hbound.
  - eapply (write_cache_bound_insert_tail ty (first :: rest) w w1);
      [|done|done|done].
    specialize (Hbound ty _ El). lia.
Qed.

Lemma write_cache_bound__CacheAttributeContainerForWrite ty cols values :
  respects (maintains write_cache_within_bound)
    (_CacheAttributeContainerForWrite ty cols values).
Proof.
  intros w Hbound. unfold _CacheAttributeContainerForWrite.
  unfold bind at 1. unfold get_self at 1.
  set (cached := _write_cache (self w) !! ty).
  set (l := (default [ColumnNames cols] cached ++ [RowValues values])%list).
  assert (length l <= _MAXIMUM_WRITE_CACHE_SIZE)%nat as Hl.
  { subst l. rewrite length_app. simpl.
    destruct cached as [l0|] eqn:E; simpl.
    - specialize (Hbound ty l0 E). lia.
    - unfold _MAXIMUM_WRITE_CACHE_SIZE. lia. }
  assert (exists first rest, l = first :: rest) as (first & rest & Hcons).
  { subst l. destruct (default [ColumnNames cols] cached); simpl; eauto. }
  set (w0 := ((if bool_decide (is_Some cached)
               then modify_self (fun s =>
                      set_write_cache (<[ty:=l]> (_write_cache s)) s)
               else ret tt) w).1).
  assert ((if bool_decide (is_Some cached)
           then modify_self (fun s =>
                  set_write_cache (<[ty:=l]> (_write_cache s)) s)
           else ret tt) w = (w0, Return tt)) as Hstep
    by (subst w0; by destruct (bool_decide (is_Some cached))).
  rewrite (StoreProofs.bind_Return _ _ _ _ _ Hstep).
  assert (_write_cache (self w0)
          = if bool_decide (is_Some cached)
            then <[ty := l]> (_write_cache (self w))
            else _write_cache (self w)) as Hw0
    by (subst w0; by destruct (bool_decide (is_Some cached))).
  destruct (_MAXIMUM_WRITE_CACHE_SIZE <=? length l)%nat eqn:Hfull.
  - rewrite Hcons.
    pose proof (_FlushWriteCache_write_cache ty first rest
                  (bool_decide (is_Some cached)) w0) as Hwc.
    unfold bind.
    destruct (_FlushWriteCache ty (first :: rest)
                (bool_decide (is_Some cached)) w0) as [w1 [[]|e]];
      simpl in *.
    + intros ty' l'. simpl. rewrite lookup_insert. case_decide.
      * intros [= <-]. simpl. unfold _MAXIMUM_WRITE_CACHE_SIZE. lia.
      * rewrite Hwc, Hw0.
        destruct (bool_decide (is_Some cached));
          rewrite ?lookup_insert_ne by done; apply Hbound.
    + intros ty' l'. rewrite Hwc, Hw0.
      destruct (bool_decide (is_Some cached)).
      * rewrite insert_insert_eq, lookup_insert. case_decide; [|apply Hbound].
        intros [= <-]. rewrite Hcons in Hl. simpl in Hl. lia.
      * apply Hbound.
  - unfold bind, ret, modify_self. simpl.
    intros ty' l'. simpl. rewrite lookup_insert. case_decide.
    + intros [= <-]. apply Nat.leb_gt in Hfull. lia.
    + rewrite Hw0.
      destruct (bool_decide (is_Some cached));
        rewrite ?lookup_insert_ne by done; apply Hbound.
Qed.

Lemma write_cache_bound_flush_loop
    (items : list (string * list write_cache_item)) (w : world) :
  Forall (fun item => (length item.2 <= _MAXIMUM_WRITE_CACHE_SIZE)%nat) items ->
  write_cache_within_bound w ->
  write_cache_within_bound
    (for_each items
       (fun '(container_type, write_cache) =>
          if (1 <? length write_cache)%nat
          then _FlushWriteCache container_type write_cache true
          else ret tt) w).1.
Proof.
  intros Hitems. revert w.
  induction Hitems as [|[ty l] items Hl _ IH]; intros w Hbound; simpl; [done|].
  unfold bind at 1.
  destruct (1 <? length l)%nat eqn:Hlen.
  - destruct l as [|first rest]; [done|].
    pose proof (_FlushWriteCache_write_cache ty first rest true w) as Hwc.
    assert (write_cache_within_bound
              (_FlushWriteCache ty (first :: rest) true w).1) as Hbound1.
    { eapply (write_cache_bound_insert_tail ty (first :: rest) w);
        [done|done|done|done]. }
    destruct (_FlushWriteCache ty (first :: rest) true w) as [w1 [[]|e]];
      simpl in *; [|done].
    specialize (IH w1 Hbound1). unfold bind.
    by destruct (for_each items _ w1) as [w2 [bs|e]].
  - unfold ret at 1. specialize (IH w Hbound). unfold bind.
    by destruct (for_each items _ w) as [w2 [bs|e]].
Qed.

Lemma write_cache_bound__Flush :
  respects (maintains write_cache_within_bound) _Flush.
Proof.
  intros w Hbound. unfold _Flush.
  unfold bind at 1. unfold get_self at 1.
  pose proof (write_cache_bound_flush_loop (map_to_list (_write_cache (self w)))
                w) as Hloop.
  unfold bind at 1.
  destruct (for_each (map_to_list (_write_cache (self w))) _ w)
    as [w1 [bs|e]] eqn:E; simpl in *.
  - unfold bind, modify_self, commit. simpl.
    destruct (_connection (self w1)) as [conn|]; simpl;
      [destruct (conn_read_only conn); simpl|];
      intros ty l; simpl; by rewrite lookup_empty.
  - apply Hloop; [|done].
    apply Forall_forall. intros [ty l] Hin. simpl.
    apply elem_of_map_to_list in Hin. specialize (Hbound ty l Hin). lia.
Qed.

(** *** A read-only connection is never written through *)

Lemma untouched_refl w : untouched_when_read_only w w.
Proof. by intros H. Qed.

Lemma untouched_trans w1 w2 w3 :
  untouched_when_read_only w1 w2 -> untouched_when_read_only w2 w3 ->
  untouched_when_read_only w1 w3.
Proof.
  intros H1 H2 H. destruct (H1 H) as (Hr & Hd & Hf).
  destruct (H2 Hr) as (Hr' & Hd' & Hf').
  split; [done|]. split; congruence.
Qed.

Lemma untouched_same w w' :
  _connection (self w') = _connection (self w) -> files w' = files w ->
  untouched_when_read_only w w'.
Proof.
  intros Hc Hf [conn [H1 H2]]. split; [|split; [|done]].
  - exists conn. by rewrite Hc.
  - unfold database_of. by rewrite Hc.
Qed.

(** A statement that a read-only connection executes changes nothing of
    the database when the connection refuses it or when it is a query. *)
Lemma untouched_execute {A} stmt
    (effect : connection -> result (database * A)) :
  (forall conn db a,
      conn_read_only conn = true -> effect conn = Return (db, a) ->
      db = conn_db conn) ->
  respects untouched_when_read_only (execute stmt effect).
Proof.
  intros Heffect w [conn [Hconn Hro]]. unfold execute. rewrite Hconn.
  destruct (effect conn) as [[db a]|e] eqn:E; simpl.
  - apply Heffect in E as ->; [|done].
    split; [by eexists|]. split; [|done].
    unfold database_of. simpl. by rewrite Hconn.
  - split; [by eexists|]. split; [|done].
    unfold database_of. simpl. by rewrite Hconn.
Qed.

Lemma untouched_commit : respects untouched_when_read_only commit.
Proof.
  intros w [conn [Hconn Hro]]. unfold commit. rewrite Hconn, Hro. simpl.
  split; [by exists conn|done].
Qed.

Lemma read_only_sql_insert name cols n values conn db a :
  conn_read_only conn = true ->
  sql_insert name cols n values conn = Return (db, a) -> db = conn_db conn.
Proof.
  intros Hro. unfold sql_insert. rewrite Hro. repeat case_match; done.
Qed.

Lemma read_only_sql_update name cols values rowid conn db a :
  conn_read_only conn = true ->
  sql_update name cols values rowid conn = Return (db, a) -> db = conn_db conn.
Proof.
  intros Hro. unfold sql_update. rewrite Hro. repeat case_match; done.
Qed.

Lemma read_only_sql_create_table name cols conn db a :
  conn_read_only conn = true ->
  sql_create_table name cols conn = Return (db, a) -> db = conn_db conn.
Proof.
  intros Hro. unfold sql_create_table. rewrite Hro. repeat case_match; done.
Qed.

Section Maintained.
Variable HasDataType : string -> bool.
Variable JsonSerializeValue : string -> pyvalue -> result pyvalue.
Variable JsonDeserializeValue : string -> sqlvalue -> result pyvalue.

Lemma read_cache_bound_run (calls : list call) (w : world) :
  maintains read_cache_within_bound w
    (run HasDataType JsonSerializeValue JsonDeserializeValue calls w).
Proof.
  assert (forall {A} stmt (effect : connection -> result (database * A)),
            respects (maintains read_cache_within_bound)
              (execute stmt effect)) as Hexecute.
  { intros. apply harmless_execute;
      [apply maintains_refl|by intros; apply read_cache_bound_same]. }
  apply respects_run.
  - apply maintains_trans.
  - intros w0 w' Hs _. apply read_cache_bound_same. by rewrite Hs.
  - apply harmless__GetAttributeContainerNextSequenceNumber.
    by intros; apply read_cache_bound_same.
  - apply read_cache_bound__CacheAttributeContainerByIndex.
  - apply read_cache_bound__GetCachedAttributeContainer.
  - apply respects__CacheAttributeContainerForWrite;
      [apply maintains_refl|apply maintains_trans|..].
    + intros f w0. by apply read_cache_bound_same.
    + intros. apply Hexecute.
  - apply respects__CommitWriteCache;
      [apply maintains_refl|apply maintains_trans|..].
    + intros f w0. by apply read_cache_bound_same.
    + intros. apply Hexecute.
  - apply respects__Flush;
      [apply maintains_refl|apply maintains_trans|..].
    + intros f w0. by apply read_cache_bound_same.
    + intros. apply Hexecute.
    + apply harmless_commit;
        [apply maintains_refl|by intros; apply read_cache_bound_same].
  - intros. apply Hexecute.
  - intros. apply Hexecute.
  - intros. apply Hexecute.
Qed.

Lemma write_cache_bound_run (calls : list call) (w : world) :
  maintains write_cache_within_bound w
    (run HasDataType JsonSerializeValue JsonDeserializeValue calls w).
Proof.
  assert (forall {A} stmt (effect : connection -> result (database * A)),
            respects (maintains write_cache_within_bound)
              (execute stmt effect)) as Hexecute.
  { intros. apply harmless_execute;
      [apply maintains_refl|by intros; apply write_cache_bound_same]. }
  apply respects_run.
  - apply maintains_trans.
  - intros w0 w' Hs _. apply write_cache_bound_same. by rewrite Hs.
  - apply harmless__GetAttributeContainerNextSequenceNumber.
    by intros; apply write_cache_bound_same.
  - apply harmless__CacheAttributeContainerByIndex;
      [apply maintains_refl|by intros; apply write_cache_bound_same
      |apply maintains_trans].
  - apply harmless__GetCachedAttributeContainer;
      [apply maintains_refl|by intros; apply write_cache_bound_same
      |apply maintains_trans].
  - apply write_cache_bound__CacheAttributeContainerForWrite.
  - apply write_cache_bound__CommitWriteCache.
  - apply write_cache_bound__Flush.
  - intros. apply Hexecute.
  - intros. apply Hexecute.
  - intros. apply Hexecute.
Qed.

Lemma untouched_run (calls : list call) (w : world) :
  untouched_when_read_only w
    (run HasDataType JsonSerializeValue JsonDeserializeValue calls w).
Proof.
  apply respects_run.
  - apply untouched_trans.
  - intros w0 w' Hs Hf. apply untouched_same; [by rewrite Hs|done].
  - apply harmless__GetAttributeContainerNextSequenceNumber.
    by intros; apply untouched_same.
  - apply harmless__CacheAttributeContainerByIndex;
      [apply untouched_refl|by intros; apply untouched_same
      |apply untouched_trans].
  - apply harmless__GetCachedAttributeContainer;
      [apply untouched_refl|by intros; apply untouched_same
      |apply untouched_trans].
  - apply respects__CacheAttributeContainerForWrite;
      [apply untouched_refl|apply untouched_trans|..].
    + intros f w0. by apply untouched_same.
    + intros. apply untouched_execute. apply read_only_sql_insert.
  - apply respects__CommitWriteCache;
      [apply untouched_refl|apply untouched_trans|..].
    + intros f w0. by apply untouched_same.
    + intros. apply untouched_execute. apply read_only_sql_insert.
  - apply respects__Flush;
      [apply untouched_refl|apply untouched_trans|..].
    + intros f w0. by apply untouched_same.
    + intros. apply untouched_execute. apply read_only_sql_insert.
    + apply untouched_commit.
  - intros A stmt effect Hq. apply untouched_execute.
    intros conn db a _. apply Hq.
  - intros. apply untouched_execute. apply read_only_sql_create_table.
  - intros. apply untouched_execute. apply read_only_sql_update.
Qed.

End Maintained.

(** *** The calls that only work on the storage *)

Section StorageCalls.
Variable R : world -> world -> Prop.
Hypothesis R_refl : forall w, R w w.
Hypothesis R_trans : forall w1 w2 w3, R w1 w2 -> R w2 w3 -> R w1 w3.
Hypothesis R_execute :
  forall A stmt (effect : connection -> result (database * A)),
    respects R (execute stmt effect).
Hypothesis R_commit : respects R commit.
Hypothesis R_write_cache :
  forall f, respects R (modify_self (fun s => set_write_cache (f s) s)).

#[local] Hint Resolve R_refl R_trans R_execute R_commit R_write_cache
  : respects.

Lemma storage__HasTable name : respects R (_HasTable name).
Proof. unfold _HasTable. respects_tac. Qed.

Lemma storage__GetAttributeContainerSchema ty :
  respects R (_GetAttributeContainerSchema ty).
Proof. unfold _GetAttributeContainerSchema. respects_tac. Qed.

#[local] Hint Resolve storage__HasTable storage__GetAttributeContainerSchema
  : respects.

Lemma storage__CreateAttributeContainerTable ty :
  respects R (_CreateAttributeContainerTable ty).
Proof. unfold _CreateAttributeContainerTable. respects_tac. Qed.

Lemma storage__CommitWriteCache ty : respects R (_CommitWriteCache ty).
Proof. apply respects__CommitWriteCache; auto. Qed.

Lemma storage__CacheAttributeContainerForWrite ty cols values :
  respects R (_CacheAttributeContainerForWrite ty cols values).
Proof. apply respects__CacheAttributeContainerForWrite; auto. Qed.

Lemma storage__Flush : respects R _Flush.
Proof. apply respects__Flush; auto. Qed.

#[local] Hint Resolve storage__CommitWriteCache storage__Flush : respects.

Lemma storage_GetNumberOfAttributeContainers ty :
  respects R (GetNumberOfAttributeContainers ty).
Proof. unfold GetNumberOfAttributeContainers. respects_tac. Qed.

Lemma storage_serialize_attributes HasDataType JsonSerializeValue ty attrs
    schema :
  respects R (serialize_attributes HasDataType JsonSerializeValue ty attrs
                schema).
Proof. unfold serialize_attributes. respects_tac. Qed.

Lemma storage__WriteMetadata versions : respects R (_WriteMetadata versions).
Proof. unfold _WriteMetadata, _WriteMetadataValue. respects_tac. Qed.

Lemma storage__UpdateStorageMetadataFormatVersion versions :
  respects R (_UpdateStorageMetadataFormatVersion versions).
Proof. unfold _UpdateStorageMetadataFormatVersion. respects_tac. Qed.

Hypothesis R_format :
  forall version serialization,
    respects R (modify_self (set_format version serialization)).

#[local] Hint Resolve R_format : respects.

Lemma storage__ReadAndCheckStorageMetadata versions check :
  respects R (_ReadAndCheckStorageMetadata versions check).
Proof.
  unfold _ReadAndCheckStorageMetadata, _ReadMetadata. respects_tac.
Qed.

Hypothesis R_counter :
  forall ty n, respects R (_SetAttributeContainerNextSequenceNumber ty n).

#[local] Hint Resolve storage_GetNumberOfAttributeContainers
  storage__WriteMetadata storage__UpdateStorageMetadataFormatVersion
  storage__ReadAndCheckStorageMetadata R_counter : respects.

(** Once [Open] has a connection it goes on from the world in which the
    connection is stored. *)
Lemma Open_after_connect versions p read_only w w0 conn :
  _is_open (self w) = false -> PyStr.truthy p = true ->
  connect p read_only w = (w0, Return conn) ->
  R (connected conn read_only w0) (Open versions (Some p) read_only w).1.
Proof.
  intros Hopen Hpath Hconnect.
  destruct (Open versions (Some p) read_only w) as [w' r] eqn:HOpen. simpl.
  unfold Open in HOpen. unfold bind at 1 in HOpen.
  unfold get_self at 1 in HOpen. cbv beta iota in HOpen.
  rewrite Hopen, Hpath in HOpen. change (negb true) with false in HOpen.
  cbv iota in HOpen.
  unfold bind at 1 in HOpen. rewrite Hconnect in HOpen.
  unfold bind at 1 in HOpen. unfold modify_self at 1 in HOpen.
  change (mkWorld (files w0) (classes w0) (objects w0) _)
    with (connected conn read_only w0) in HOpen.
  match type of HOpen with
  | ?m _ = _ => assert (respects R m) as Hm
  end.
  { respects_tac. }
  specialize (Hm (connected conn read_only w0)). by rewrite HOpen in Hm.
Qed.

(** [Open] either raises before it has a connection, the store object
    being as it was, or goes on from the world in which it has stored the
    connection. *)
Lemma Open_from_connect versions path read_only w :
  (exists e w0,
      Open versions path read_only w = (w0, Raise e)
      /\ self w0 = self w /\ objects w0 = objects w
      /\ classes w0 = classes w)
  \/ (exists p conn w0,
         path = Some p /\ connect p read_only w = (w0, Return conn)
         /\ R (connected conn read_only w0)
              (Open versions path read_only w).1).
Proof.
  destruct (_is_open (self w)) eqn:Hopen.
  { left. unfold Open, bind, get_self. rewrite Hopen. by eexists _, _. }
  destruct path as [p|].
  2:{ left. unfold Open, bind, get_self. rewrite Hopen. by eexists _, _. }
  destruct (PyStr.truthy p) eqn:Hpath.
  2:{ left. unfold Open, bind, get_self. rewrite Hopen, Hpath.
      by eexists _, _. }
  destruct (connect p read_only w) as [w0 [conn|e]] eqn:Hconnect.
  - right. exists p, conn, w0. split; [done|]. split; [done|].
    by apply Open_after_connect.
  - left. exists e, w0.
    unfold Open. unfold bind at 1. unfold get_self at 1. cbv beta iota.
    rewrite Hopen, Hpath. change (negb true) with false. cbv iota.
    unfold bind at 1. rewrite Hconnect.
    split; [done|]. unfold connect in Hconnect.
    destruct (files w !! p) as [[|db]|]; [| |destruct read_only];
      by simplify_eq.
Qed.

Hypothesis R_disconnect : respects R (modify_self (set_connection None)).
Hypothesis R_is_open : forall b, respects R (modify_self (set_is_open b)).

#[local] Hint Resolve R_disconnect R_is_open : respects.

Lemma storage_Close : respects R Close.
Proof. unfold Close. respects_tac. Qed.

End StorageCalls.

(** *** What the calls on the storage leave alone *)

Lemma keeps_session_refl w : keeps_session w w.
Proof. by repeat split. Qed.

Lemma keeps_session_trans w1 w2 w3 :
  keeps_session w1 w2 -> keeps_session w2 w3 -> keeps_session w1 w3.
Proof.
  intros (H1 & H2 & H3 & H4 & H5 & H6) (H1' & H2' & H3' & H4' & H5' & H6').
  repeat split; try congruence; intros; by (apply H3, H3' || apply H3', H3).
Qed.

Lemma keeps_session_same w w' :
  _is_open (self w') = _is_open (self w) ->
  _read_only (self w') = _read_only (self w) ->
  _connection (self w') = _connection (self w) ->
  _attribute_container_cache (self w') = _attribute_container_cache (self w) ->
  objects w' = objects w -> classes w' = classes w ->
  keeps_session w w'.
Proof. intros ? ? H ? ? ?. repeat split; try done; by rewrite H. Qed.

Lemma keeps_session_execute {A} stmt
    (effect : connection -> result (database * A)) :
  respects keeps_session (execute stmt effect).
Proof.
  intros w. unfold execute.
  destruct (_connection (self w)) as [conn|] eqn:Hconn;
    [|apply keeps_session_refl].
  destruct (effect conn) as [[db a]|e]; simpl;
    repeat split; simpl; try done; rewrite ?Hconn; eauto.
Qed.

Lemma keeps_session_commit : respects keeps_session commit.
Proof.
  intros w. unfold commit.
  destruct (_connection (self w)) as [conn|]; [|apply keeps_session_refl].
  destruct (conn_read_only conn); [apply keeps_session_refl|].
  by apply keeps_session_same.
Qed.

Lemma keeps_session_write_cache f :
  respects keeps_session (modify_self (fun s => set_write_cache (f s) s)).
Proof. intros w. by apply keeps_session_same. Qed.

Lemma keeps_session_format version serialization :
  respects keeps_session (modify_self (set_format version serialization)).
Proof. intros w. by apply keeps_session_same. Qed.

Lemma keeps_session_counter ty n :
  respects keeps_session (_SetAttributeContainerNextSequenceNumber ty n).
Proof. intros w. by apply keeps_session_same. Qed.

Lemma only_storage_changes_refl w : only_storage_changes w w.
Proof. split; [apply keeps_session_refl|done]. Qed.

Lemma only_storage_changes_trans w1 w2 w3 :
  only_storage_changes w1 w2 -> only_storage_changes w2 w3 ->
  only_storage_changes w1 w3.
Proof.
  intros [H1 H2] [H1' H2']. split; [by eapply keeps_session_trans|congruence].
Qed.

Lemma only_storage_changes_execute {A} stmt
    (effect : connection -> result (database * A)) :
  respects only_storage_changes (execute stmt effect).
Proof.
  intros w. split; [apply keeps_session_execute|].
  apply (execute_frame stmt effect w).
Qed.

Lemma only_storage_changes_commit : respects only_storage_changes commit.
Proof.
  intros w. split; [apply keeps_session_commit|].
  unfold commit. destruct (_connection (self w)) as [conn|]; [|done].
  by destruct (conn_read_only conn).
Qed.

Lemma only_storage_changes_write_cache f :
  respects only_storage_changes
    (modify_self (fun s => set_write_cache (f s) s)).
Proof. intros w. split; [apply keeps_session_write_cache|done]. Qed.

(** What is left of [Open] once the connection is stored keeps the
    session. *)
Lemma Open_keeps_session versions p read_only w w0 conn :
  _is_open (self w) = false -> PyStr.truthy p = true ->
  connect p read_only w = (w0, Return conn) ->
  keeps_session (connected conn read_only w0)
    (Open versions (Some p) read_only w).1.
Proof.
  apply Open_after_connect.
  - apply keeps_session_refl.
  - apply keeps_session_trans.
  - intros. apply keeps_session_execute.
  - apply keeps_session_commit.
  - apply keeps_session_write_cache.
  - apply keeps_session_format.
  - apply keeps_session_counter.
Qed.

Lemma connect_Return path read_only w w0 conn :
  connect path read_only w = (w0, Return conn) ->
  self w0 = self w /\ objects w0 = objects w /\ classes w0 = classes w
  /\ conn_path conn = path /\ conn_read_only conn = read_only
  /\ executed conn = []
  /\ files w0 !! path = Some (DatabaseFile (conn_db conn)).
Proof.
  unfold connect. destruct (files w !! path) as [[|db]|] eqn:Hfile;
    [done| |destruct read_only; [done|]]; intros [= <- <-]; simpl;
    rewrite ?lookup_insert_eq; done.
Qed.

End StoreInvariants.

Module StoreSessions.
Import Identifier Manager Store StoreSpec.

Section Sessions.
Variable HasDataType : string -> bool.
Variable JsonSerializeValue : string -> pyvalue -> result pyvalue.
Variable JsonDeserializeValue : string -> sqlvalue -> result pyvalue.

Local Abbreviation run' :=
  (run HasDataType JsonSerializeValue JsonDeserializeValue).

(** Whatever the caller does between [Open] and [Close], with calls that
    return and calls that raise, no sequence counter of the store goes
    down: an identifier the store has given to a new container is never
    given again in the session. *)
Theorem sequence_counters_never_go_down
    (calls : list call) (w : world) (container_type : string) :
  (sequence_number_of (self w) container_type
   <= sequence_number_of (self (run' calls w)) container_type)%Z.
Proof. apply StoreInvariants.counters_advance_run. Qed.

(** The read cache never holds more than [_MAXIMUM_CACHED_CONTAINERS]
    containers, whatever is read and written in a session. *)
Theorem read_cache_stays_within_bound (calls : list call) (w : world) :
  (length (_attribute_container_cache (self w))
   <= _MAXIMUM_CACHED_CONTAINERS)%nat ->
  (length (_attribute_container_cache (self (run' calls w)))
   <= _MAXIMUM_CACHED_CONTAINERS)%nat.
Proof. apply StoreInvariants.read_cache_bound_run. Qed.

(** Between two calls no list of the write cache holds
    [_MAXIMUM_WRITE_CACHE_SIZE] elements or more, the column names that
    come first included: the rows that wait for a type are 48 at most. *)
Theorem write_cache_lists_stay_below_bound (calls : list call) (w : world) :
  (forall container_type write_cache,
      _write_cache (self w) !! container_type = Some write_cache ->
      (length write_cache < _MAXIMUM_WRITE_CACHE_SIZE)%nat) ->
  forall container_type,
    (length (pending_rows (run' calls w) container_type)
     < _MAXIMUM_WRITE_CACHE_SIZE - 1)%nat.
Proof.
  intros Hbound ty.
  pose proof (StoreInvariants.write_cache_bound_run HasDataType
                JsonSerializeValue JsonDeserializeValue calls w Hbound) as H.
  unfold pending_rows.
  destruct (_write_cache (self (run' calls w)) !! ty) as [l|] eqn:E; simpl.
  - specialize (H ty l E). destruct l; simpl in *;
      unfold _MAXIMUM_WRITE_CACHE_SIZE in *; lia.
  - unfold _MAXIMUM_WRITE_CACHE_SIZE. lia.
Qed.

(** Through a connection opened with [mode=ro] no call of a session
    changes the database or any file, the calls that flush and commit
    included, and the connection stays the read-only one. *)
Theorem read_only_session_changes_nothing (calls : list call) (w : world) :
  read_only_connection w ->
  read_only_connection (run' calls w)
  /\ database_of (run' calls w) = database_of w
  /\ files (run' calls w) = files w.
Proof. apply StoreInvariants.untouched_run. Qed.

End Sessions.

Lemma read_cache_stays_within_bound_witness :
  (length (_attribute_container_cache
             (self (std_run (write_events 2 ++ [CallGetByIndex "event" 0])
                      opened_world)))
   <= _MAXIMUM_CACHED_CONTAINERS)%nat.
Proof.
  apply (read_cache_stays_within_bound standard_data_types no_json_serializer
           no_json_deserializer).
  apply Nat.leb_le. vm_compute. reflexivity.
Defined.

Lemma write_cache_lists_stay_below_bound_witness :
  (length (pending_rows (std_run (write_events 3) opened_world) "event")
   < _MAXIMUM_WRITE_CACHE_SIZE - 1)%nat.
Proof.
  apply (write_cache_lists_stay_below_bound standard_data_types
           no_json_serializer no_json_deserializer).
  intros container_type write_cache. vm_compute. discriminate.
Defined.

Lemma read_only_session_changes_nothing_witness :
  files
    (std_run
       [NewContainer event_class (event_attributes 1 "x"); CallAdd 0%nat;
        CallCommitWriteCache "event"; CallFlush; CallGetNumber "event"]
       read_only_world)
  = files read_only_world.
Proof.
  apply (read_only_session_changes_nothing standard_data_types
           no_json_serializer no_json_deserializer).
  vm_compute. eexists. split; reflexivity.
Defined.

End StoreSessions.

Module StoreLifecycle.
Import Identifier Manager Store StoreSpec StoreInvariants.

(** *** Opening and closing *)

(** When [Open] raises after it has connected, on a metadata check that
    fails for one, the store object is left open with the connection: it
    refuses every further [Open] until it is closed, and when it was being
    opened read-write it lets the writers through although the check has
    failed. *)
Theorem failed_Open_leaves_store_open
    (versions : version_constants) (path : string) (read_only : bool)
    (w : world) (db : database) (e : exception) :
  _is_open (self w) = false ->
  PyStr.truthy path = true ->
  files w !! path = Some (DatabaseFile db) ->
  (Open versions (Some path) read_only w).2 = Raise e ->
  let w' := (Open versions (Some path) read_only w).1 in
  _is_open (self w') = true
  /\ _read_only (self w') = read_only
  /\ is_Some (_connection (self w'))
  /\ (forall path' read_only',
        Open versions path' read_only' w' = (w', Raise (IOError AlreadyOpened)))
  /\ (read_only = false -> _RaiseIfNotWritable w' = (w', Return tt)).
Proof.
  intros Hopen Hpath Hfile _ w'.
  assert (connect path read_only w
          = (w, Return (mkConnection path read_only db []))) as Hconnect
    by (unfold connect; by rewrite Hfile).
  pose proof (Open_keeps_session versions path read_only w w _
                Hopen Hpath Hconnect) as (H1 & H2 & H3 & _).
  fold w' in H1, H2, H3. simpl in H1, H2, H3.
  split; [done|]. split; [done|]. split; [apply H3; eauto|].
  split.
  - intros path' read_only'. unfold Open, bind, get_self. by rewrite H1.
  - intros ->. unfold _RaiseIfNotWritable, bind, get_self. by rewrite H1, H2.
Qed.

Lemma failed_Open_leaves_store_open_witness :
  _is_open (self (std_Open (Some "/tmp/old.sqlite") false version_world).1)
  = true.
Proof.
  apply (failed_Open_leaves_store_open SQLiteAttributeContainerStore_versions
           "/tmp/old.sqlite" false version_world
           (store_database "20220101" "json")
           (IOError (TooOldToWrite 20220101)));
    vm_compute; reflexivity.
Defined.

Section Reads.
Variable HasDataType : string -> bool.
Variable JsonDeserializeValue : string -> sqlvalue -> result pyvalue.

(** [Close] does not empty the read cache and [Open] does not either: a
    container that is cached when the store is closed is what a read by
    its index returns after the store object has been opened again, on
    whatever file, and no statement is executed for it. *)
Theorem read_cache_survives_Close_and_Open
    (versions : version_constants) (path : option string) (read_only : bool)
    (w : world) (container_type : string) (index : Z) (container : objref) :
  od_get (lookup_key_of container_type index)
    (_attribute_container_cache (self w)) = Some container ->
  let w' := (Open versions path read_only (Close w).1).1 in
  exists w'',
    GetAttributeContainerByIndex HasDataType JsonDeserializeValue
      container_type index w' = (w'', Return (Some container))
    /\ statements w'' = statements w'.
Proof.
  intros Hcached w'.
  set (P := fun w : world =>
              od_get (lookup_key_of container_type index)
                (_attribute_container_cache (self w)) = Some container).
  assert (forall w1 w2,
             _attribute_container_cache (self w2)
             = _attribute_container_cache (self w1) ->
             maintains P w1 w2) as Hsame
    by (intros w1 w2 E H; unfold P; by rewrite E).
  assert (forall A stmt (effect : connection -> result (database * A)),
             respects (maintains P) (execute stmt effect)) as Hexecute.
  { intros. apply harmless_execute; [apply maintains_refl|].
    intros. by apply Hsame. }
  assert (respects (maintains P) commit) as Hcommit.
  { apply harmless_commit; [apply maintains_refl|]. intros. by apply Hsame. }
  assert (P (Close w).1) as HP1.
  { apply (storage_Close (maintains P)); try done.
    - apply maintains_refl.
    - apply maintains_trans.
    - intros f w0. by apply Hsame.
    - intros w0. by apply Hsame.
    - intros b w0. by apply Hsame. }
  assert (P w') as HP.
  { subst w'. set (w1 := (Close w).1) in *.
    destruct (Open_from_connect (maintains P) (maintains_refl P)
                (maintains_trans P) Hexecute Hcommit
                (fun f w0 => Hsame _ _ eq_refl)
                (fun v s w0 => Hsame _ _ eq_refl)
                (fun ty n w0 => Hsame _ _ eq_refl)
                versions path read_only w1)
      as [(e & w0 & -> & Hself & _)|(p & conn & w0 & _ & Hconnect & HR)].
    - unfold P. simpl. by rewrite Hself.
    - apply HR. apply connect_Return in Hconnect as (Hself & _).
      unfold P, connected. simpl. by rewrite Hself. }
  unfold P in HP.
  unfold GetAttributeContainerByIndex, _GetCachedAttributeContainer, bind,
    get_self, modify_self, ret. simpl. rewrite HP. simpl.
  eexists. split; [reflexivity|]. done.
Qed.

End Reads.

Lemma read_cache_survives_Close_and_Open_witness :
  exists w'',
    GetAttributeContainerByIndex standard_data_types no_json_deserializer
      "event" 0
      (std_Open (Some "/tmp/other.sqlite") false
         (Close (std_run (write_events 1) opened_world)).1).1
    = (w'', Return (Some 0%nat))
    /\ statements w''
       = statements
           (std_Open (Some "/tmp/other.sqlite") false
              (Close (std_run (write_events 1) opened_world)).1).1.
Proof.
  apply (read_cache_survives_Close_and_Open standard_data_types
           no_json_deserializer SQLiteAttributeContainerStore_versions
           (Some "/tmp/other.sqlite") false
           (std_run (write_events 1) opened_world) "event" 0 0%nat).
  vm_compute. reflexivity.
Defined.

End StoreLifecycle.

Module StoreFlush.
Import Identifier Manager Store StoreSpec StoreInvariants.

(** *** Flushing the write cache *)

Lemma same_database_file_refl w : same_database_file w w.
Proof. done. Qed.

Lemma same_database_file_trans w1 w2 w3 :
  same_database_file w1 w2 -> same_database_file w2 w3 ->
  same_database_file w1 w3.
Proof. intros (? & ? & ?) (? & ? & ?). repeat split; congruence. Qed.

Lemma same_database_file_execute {A} stmt
    (effect : connection -> result (database * A)) :
  respects same_database_file (execute stmt effect).
Proof.
  intros w. unfold execute.
  destruct (_connection (self w)) as [conn|] eqn:Hconn; [|done].
  destruct (effect conn) as [[db a]|e]; repeat split; simpl;
    by rewrite Hconn.
Qed.

Lemma same_database_file_write_cache f :
  respects same_database_file
    (modify_self (fun s => set_write_cache (f s) s)).
Proof. done. Qed.

Lemma same_database_file__FlushWriteCache ty wc b :
  respects same_database_file (_FlushWriteCache ty wc b).
Proof.
  apply respects__FlushWriteCache.
  - apply same_database_file_refl.
  - apply same_database_file_trans.
  - apply same_database_file_write_cache.
  - intros. apply same_database_file_execute.
Qed.

(** A flush that raises has changed nothing in the database. *)
Lemma _FlushWriteCache_Raise ty wc b w e :
  (_FlushWriteCache ty wc b w).2 = Raise e ->
  database_of (_FlushWriteCache ty wc b w).1 = database_of w.
Proof.
  unfold _FlushWriteCache. destruct wc as [|first rest]; [done|].
  set (m0 := if b
             then modify_self (fun s =>
                    set_write_cache (<[ty:=rest]> (_write_cache s)) s)
             else ret tt).
  assert (exists w0, m0 w = (w0, Return tt)
                     /\ _connection (self w0) = _connection (self w))
    as (w0 & Hm0 & Hconn0) by (subst m0; destruct b; by eexists).
  rewrite (StoreProofs.bind_Return _ _ _ _ _ Hm0).
  unfold bind.
  destruct (match first with
            | ColumnNames names => ret names
            | RowValues values =>
                match as_strings values with
                | Some names => ret names
                | None => raise TypeError
                end
            end w0) as [w1 [names|e']] eqn:Enames.
  - assert (w1 = w0) as ->.
    { destruct first as [n|v]; [by injection Enames|].
      destruct (as_strings v); by injection Enames. }
    unfold try_except, execute, database_of. rewrite Hconn0.
    destruct (_connection (self w)) as [conn|] eqn:Hconn; simpl;
      [|by rewrite ?Hconn0, ?Hconn].
    destruct (sql_insert _ _ _ _ conn) as [[db []]|e'] eqn:Einsert;
      simpl; [done|].
    by destruct e' as [| | | | | | | |[]].
  - assert (w1 = w0) as ->.
    { destruct first as [n|v]; [by injection Enames|].
      destruct (as_strings v); by injection Enames. }
    simpl. unfold database_of. by rewrite Hconn0.
Qed.

(** A flush that returns has not touched the table of another type. *)
Lemma _FlushWriteCache_other_tables ty wc w w' ty' :
  _FlushWriteCache ty wc true w = (w', Return tt) -> ty' <> ty ->
  stored_rows w' ty' = stored_rows w ty'.
Proof.
  unfold _FlushWriteCache. destruct wc as [|first rest]; [done|].
  intros H Hne.
  apply StoreProofs.bind_inv in H as [(w1 & [] & H1 & H)|(e & _ & [=])].
  unfold modify_self in H1. injection H1 as <-.
  apply StoreProofs.bind_inv in H as [(w2 & names & H2 & H)|(e & _ & [=])].
  assert (w2 = mkWorld (files w) (classes w) (objects w)
                 (set_write_cache (<[ty:=rest]> (_write_cache (self w)))
                    (self w))) as ->.
  { destruct first as [names'|values]; [by injection H2 as <- _|].
    destruct (as_strings values); by injection H2 as <-. }
  apply StoreProofs.try_unable_to_query_Return in H.
  apply StoreProofs.execute_Return in H as (conn & db & Hconn & Heff & ->).
  apply StoreProofs.sql_insert_Return in Heff
    as (t & new_rows & Ht & Hlen & ->).
  simpl in Hconn. unfold stored_rows, database_of. simpl. rewrite Hconn.
  simpl. by rewrite lookup_insert_ne.
Qed.

(** The loop of [_Flush] over the lists of the write cache, when it
    comes to its end: every table has got the rows that waited for it. *)
Lemma flush_loop_Return
    (items : list (string * list write_cache_item)) (w w' : world) bs :
  NoDup items.*1 ->
  for_each items
    (fun '(container_type, write_cache) =>
       if (1 <? length write_cache)%nat
       then _FlushWriteCache container_type write_cache true
       else ret tt) w = (w', Return bs) ->
  forall ty,
    length (stored_rows w' ty)
    = (length (stored_rows w ty)
       + length (tail (default []
                         ((list_to_map items
                           : gmap string (list write_cache_item)) !! ty))))%nat.
Proof.
  revert w bs. induction items as [|[ty0 l0] items IH]; intros w bs Hnodup H ty.
  - injection H as <- _. simpl. rewrite lookup_empty. simpl. lia.
  - simpl in Hnodup. apply NoDup_cons in Hnodup as [Hnotin Hnodup].
    simpl in H.
    apply StoreProofs.bind_inv in H as [(w1 & [] & Hfirst & H)|(e & _ & [=])].
    apply StoreProofs.bind_inv in H as [(w2 & bs' & Hrest & H)|(e & _ & [=])].
    injection H as <- _.
    rewrite (IH w1 bs' Hnodup Hrest ty). simpl.
    destruct (decide (ty = ty0)) as [->|Hne].
    + rewrite lookup_insert_eq. simpl.
      rewrite (not_elem_of_list_to_map_1 _ _ Hnotin). simpl.
      destruct (1 <? length l0)%nat eqn:Hlen.
      * apply StoreProofs._FlushWriteCache_Return in Hfirst
          as (_ & _ & _ & _ & Hrows & _). lia.
      * injection Hfirst as <-. apply Nat.ltb_ge in Hlen.
        destruct l0 as [|? [|]]; simpl in *; lia.
    + rewrite lookup_insert_ne by done.
      destruct (1 <? length l0)%nat.
      * by rewrite (_FlushWriteCache_other_tables _ _ _ _ ty Hfirst Hne).
      * by injection Hfirst as <-.
Qed.

Lemma flush_loop_same_database_file
    (items : list (string * list write_cache_item)) :
  respects same_database_file
    (for_each items
       (fun '(container_type, write_cache) =>
          if (1 <? length write_cache)%nat
          then _FlushWriteCache container_type write_cache true
          else ret tt)).
Proof.
  apply respects_for_each.
  - apply same_database_file_refl.
  - apply same_database_file_trans.
  - intros [ty l]. destruct (1 <? length l)%nat.
    + apply same_database_file__FlushWriteCache.
    + apply respects_ret, same_database_file_refl.
Qed.

(** A [_Flush] that returns: nothing waits any more, every table of the
    connection has got the rows that waited for it, and with a connection
    that is not read-only the file is what the connection sees. *)
Lemma _Flush_Return w w' conn :
  _connection (self w) = Some conn ->
  _Flush w = (w', Return tt) ->
  exists conn',
    _connection (self w') = Some conn'
    /\ conn_path conn' = conn_path conn
    /\ _write_cache (self w') = ∅
    /\ _is_open (self w') = _is_open (self w)
    /\ (forall ty,
          length (rows_of (conn_db conn') ty)
          = (length (stored_rows w ty) + length (pending_rows w ty))%nat)
    /\ (conn_read_only conn = false ->
        files w' = <[conn_path conn := DatabaseFile (conn_db conn')]> (files w)).
Proof.
  intros Hconn H. unfold _Flush in H.
  apply StoreProofs.bind_inv in H as [(w0 & s & [= <- <-] & H)|(e & [=] & _)].
  apply StoreProofs.bind_inv in H as [(w1 & bs & Hloop & H)|(e & _ & [=])].
  apply StoreProofs.bind_inv in H as [(w2 & [] & [= <-] & H)|(e & [=] & _)].
  pose proof (flush_loop_same_database_file
                (map_to_list (_write_cache (self w))) w) as (Hp & Hr & Hf).
  rewrite Hloop in Hp, Hr, Hf. simpl in Hp, Hr, Hf. rewrite Hconn in Hp, Hr.
  pose proof (flush_loop_Return _ _ _ _
                (NoDup_fst_map_to_list (_write_cache (self w))) Hloop)
    as Hrows.
  pose proof (respects_for_each keeps_session keeps_session_refl
                keeps_session_trans (map_to_list (_write_cache (self w)))
                (fun '(container_type, write_cache) =>
                   if (1 <? length write_cache)%nat
                   then _FlushWriteCache container_type write_cache true
                   else ret tt)) as Hsession.
  destruct (_connection (self w1)) as [conn1|] eqn:Hconn1; [|done].
  simpl in Hp, Hr. injection Hp as Hp. injection Hr as Hr.
  assert (_is_open (self w1) = _is_open (self w)) as Hopen.
  { assert (keeps_session w w1) as (? & _); [|done].
    change w1 with (w1, Return bs : result (list unit)).1.
    rewrite <- Hloop. apply Hsession. intros [ty l].
    destruct (1 <? length l)%nat.
    - apply respects__FlushWriteCache.
      + apply keeps_session_refl.
      + apply keeps_session_trans.
      + apply keeps_session_write_cache.
      + intros. apply keeps_session_execute.
    - apply respects_ret, keeps_session_refl. }
  unfold commit in H. simpl in H. rewrite Hconn1 in H.
  exists conn1.
  assert (forall ty,
             length (rows_of (conn_db conn1) ty)
             = (length (stored_rows w ty) + length (pending_rows w ty))%nat)
    as Hcount.
  { intros ty. specialize (Hrows ty).
    rewrite list_to_map_to_list in Hrows.
    unfold stored_rows at 1, database_of in Hrows. rewrite Hconn1 in Hrows.
    simpl in Hrows. unfold rows_of, pending_rows. by rewrite Hrows. }
  destruct (conn_read_only conn1) eqn:Hro; injection H as <-; simpl;
    rewrite Hconn1; repeat split; try done.
  - intros Hro'. congruence.
  - intros _. by rewrite Hp, Hf.
Qed.

(** When [_CommitWriteCache] raises, the rows of the type that are in the
    database are the same, and of the list of the type in the write cache
    the first element is gone: the column names, so that the first row
    that waited stands in their place and only the rows after it still
    wait. *)
Theorem failed_commit_loses_a_pending_row
    (container_type : string) (w : world) (e : exception) :
  (_CommitWriteCache container_type w).2 = Raise e ->
  let w' := (_CommitWriteCache container_type w).1 in
  (exists first,
      _write_cache (self w) !! container_type
      = Some (first :: default [] (_write_cache (self w') !! container_type)))
  /\ pending_rows w' container_type = tail (pending_rows w container_type)
  /\ stored_rows w' container_type = stored_rows w container_type.
Proof.
  intros Hraise w'. subst w'.
  destruct (_CommitWriteCache container_type w) as [w' r] eqn:H.
  simpl in *. subst r. unfold _CommitWriteCache in H.
  apply StoreProofs.bind_inv in H as [(w0 & s & [= <- <-] & H)|(e' & [=] & _)].
  destruct (_write_cache (self w) !! container_type) as [l|] eqn:El;
    simpl in H; [|done].
  destruct (1 <? length l)%nat eqn:Hlen; [|done].
  destruct l as [|first rest]; [done|].
  pose proof (_FlushWriteCache_write_cache container_type first rest true w)
    as Hwc.
  pose proof (_FlushWriteCache_Raise container_type (first :: rest) true w)
    as Hdb.
  apply StoreProofs.bind_inv in H as [(w1 & [] & _ & [=])|(e1 & H & _)].
  rewrite H in Hwc, Hdb. simpl in Hwc, Hdb.
  split; [|split].
  - exists first. by rewrite Hwc, lookup_insert_eq.
  - unfold pending_rows. by rewrite Hwc, lookup_insert_eq, El.
  - unfold stored_rows. by rewrite (Hdb e1).
Qed.

Lemma failed_commit_loses_a_pending_row_witness :
  pending_rows (_CommitWriteCache "event" schema_changed_world).1 "event"
  = tail (pending_rows schema_changed_world "event").
Proof.
  apply (failed_commit_loses_a_pending_row "event" schema_changed_world
           (Sqlite3Error ProgrammingError)).
  vm_compute. reflexivity.
Defined.

(** When [Close] returns on a store whose connection is not read-only,
    the store is closed and has no connection, nothing waits in the write
    cache, and the file of the connection holds, in the table of every
    type, as many rows as the connection saw plus the rows that waited. *)
Theorem Close_persists_pending_rows (w : world) (path : string) :
  conn_path <$> _connection (self w) = Some path ->
  conn_read_only <$> _connection (self w) = Some false ->
  (Close w).2 = Return tt ->
  let w' := (Close w).1 in
  _is_open (self w') = false
  /\ _connection (self w') = None
  /\ _write_cache (self w') = ∅
  /\ exists db,
       files w' !! path = Some (DatabaseFile db)
       /\ forall container_type,
            length (rows_of db container_type)
            = (length (stored_rows w container_type)
               + length (pending_rows w container_type))%nat.
Proof.
  intros Hpath Hro Hreturn w'. subst w'.
  destruct (_connection (self w)) as [conn|] eqn:Hconn; [|done].
  simpl in Hpath, Hro. injection Hpath as <-. injection Hro as Hro.
  destruct (Close w) as [w' r] eqn:H. simpl in *. subst r.
  unfold Close in H.
  apply StoreProofs.bind_inv in H as [(w0 & s & [= <- <-] & H)|(e' & [=] & _)].
  destruct (_is_open (self w)); simpl in H; [|done].
  rewrite Hconn in H.
  apply StoreProofs.bind_inv in H as [(w1 & [] & H1 & H)|(e' & _ & [=])].
  apply StoreProofs.bind_inv in H1 as [(w2 & [] & HFlush & H1)|(e' & _ & [=])].
  destruct (_Flush_Return w w2 conn Hconn HFlush)
    as (conn2 & Hconn2 & Hpath & Hwc & _ & Hrows & Hfiles).
  injection H1 as <-. injection H as <-. simpl.
  repeat split; try done.
  exists (conn_db conn2). split; [|done].
  by rewrite (Hfiles Hro), lookup_insert_eq.
Qed.

Lemma Close_persists_pending_rows_witness :
  exists db,
    files (Close (std_run (write_events 3) opened_world)).1
      !! "/tmp/store.sqlite" = Some (DatabaseFile db)
    /\ forall container_type,
         length (rows_of db container_type)
         = (length (stored_rows (std_run (write_events 3) opened_world)
                      container_type)
            + length (pending_rows (std_run (write_events 3) opened_world)
                        container_type))%nat.
Proof.
  apply (Close_persists_pending_rows (std_run (write_events 3) opened_world)
           "/tmp/store.sqlite");
    vm_compute; reflexivity.
Defined.

End StoreFlush.

Module StoreProbe.
Import Identifier Manager Store StoreSpec.

(** *** The format probe *)

Lemma int_Some_truthy (s : string) (n : Z) :
  PyStr.int s = Some n -> PyStr.truthy s = true.
Proof. destruct s; [by vm_compute|done]. Qed.

Lemma probe_metadata (format_version serialization_format : string) :
  sql_select_all_metadata (store_database format_version serialization_format)
  = Return [(Some (SqlText "format_version"), Some (SqlText format_version));
            (Some (SqlText "serialization_format"),
             Some (SqlText serialization_format))].
Proof. vm_compute. reflexivity. Qed.

Lemma probe_format_version (format_version serialization_format : string) :
  dict_of_rows
    [(Some (SqlText "format_version"), Some (SqlText format_version));
     (Some (SqlText "serialization_format"),
      Some (SqlText serialization_format))] !! "format_version"
  = Some (SqlText format_version).
Proof. vm_compute. reflexivity. Qed.

(** [CheckSupportedFormat] looks at nothing but whether [format_version]
    reads as an integer: a store file whose format version is a number
    (an ASCII number, within the number of digits [int()] takes) is
    reported as supported whatever the number and whatever the
    serialization format, also when [Open] refuses the file for being too
    old, too new or not JSON; and nothing is changed. *)
Theorem probe_ignores_version_and_serialization
    (path : string) (w : world)
    (format_version serialization_format : string) (n : Z) :
  files w !! path = Some (store_file format_version serialization_format) ->
  PyStr.is_ascii format_version = true ->
  (String.length format_version <=? 4300)%nat = true ->
  PyStr.int format_version = Some n ->
  CheckSupportedFormat path w = (w, Return true).
Proof.
  intros Hfile _ _ Hint. unfold CheckSupportedFormat. rewrite Hfile.
  unfold store_file, CheckSupportedFormat_try.
  rewrite probe_metadata, probe_format_version.
  by rewrite (int_Some_truthy _ _ Hint), Hint.
Qed.

Lemma probe_ignores_version_and_serialization_witness :
  CheckSupportedFormat "/tmp/old.sqlite" version_world
  = (version_world, Return true)
  /\ (Open SQLiteAttributeContainerStore_versions (Some "/tmp/old.sqlite")
        true version_world).2
     = Raise (IOError (TooOldToRead 20220101)).
Proof.
  split; [|vm_compute; reflexivity].
  apply (probe_ignores_version_and_serialization "/tmp/old.sqlite"
           version_world "20220101" "json" 20220101);
    vm_compute; reflexivity.
Defined.

End StoreProbe.

Module StoreOpen.
Import Identifier Manager Store StoreSpec StoreInvariants.

(** *** Seeding the sequence counters *)

Lemma only_counters_change_refl w : only_counters_change w w.
Proof. split; [apply keeps_session_refl|done]. Qed.

Lemma only_counters_change_trans w1 w2 w3 :
  only_counters_change w1 w2 -> only_counters_change w2 w3 ->
  only_counters_change w1 w3.
Proof.
  intros (H1 & (Ha & Hb & Hc) & H3 & H4) (H1' & (Ha' & Hb' & Hc') & H3' & H4').
  split; [by eapply keeps_session_trans|].
  repeat split; congruence.
Qed.

Lemma ready_only_counters_change w w' :
  only_counters_change w w' -> ready w -> ready w'.
Proof.
  intros ((_ & _ & Hconn & _) & _ & _ & Hwc) [Hc Hw].
  split; [by apply Hconn|by rewrite Hwc].
Qed.

Lemma stored_rows_only_counters_change w w' ty :
  only_counters_change w w' -> stored_rows w' ty = stored_rows w ty.
Proof. intros (_ & _ & Hdb & _). unfold stored_rows. by rewrite Hdb. Qed.

(** A count on a store that is ready executes queries only, whatever it
    gives. *)
Lemma GetNumberOfAttributeContainers_ready_frame ty w :
  ready w ->
  only_counters_change w (GetNumberOfAttributeContainers ty w).1
  /\ _attribute_container_sequence_numbers
       (self (GetNumberOfAttributeContainers ty w).1)
     = _attribute_container_sequence_numbers (self w).
Proof.
  intros [[conn Hconn] Hwc]. unfold GetNumberOfAttributeContainers.
  assert (_CommitWriteCache ty w = (w, Return tt)) as Hcommit.
  { unfold _CommitWriteCache, bind, get_self. simpl.
    by rewrite Hwc, lookup_empty. }
  rewrite (StoreProofs.bind_Return _ _ _ _ _ Hcommit).
  unfold _HasTable, bind, try_except, execute, sql_has_table.
  rewrite Hconn. simpl.
  assert (forall stmts,
             let w' :=
               mkWorld (files w) (classes w) (objects w)
                 (set_connection
                    (Some (mkConnection (conn_path conn) (conn_read_only conn)
                             (conn_db conn) (executed conn ++ stmts)))
                    (self w)) in
             only_counters_change w w'
             /\ _attribute_container_sequence_numbers (self w')
                = _attribute_container_sequence_numbers (self w)) as Hdone.
  { intros stmts w'. split; [|done].
    unfold only_counters_change, keeps_session, same_database_file,
      database_of. simpl. rewrite Hconn. simpl.
    repeat split; try done; eauto. }
  destruct (has_table (conn_db conn) ty); simpl; [|apply Hdone].
  unfold sql_select_max_rowid. simpl.
  destruct (tables (conn_db conn) !! ty) as [t|]; simpl.
  - rewrite <- app_assoc. destruct (rows t); simpl; apply Hdone.
  - unfold raise. simpl. rewrite <- app_assoc. apply Hdone.
Qed.

(** A count of a type that is a plain name, on a store that is ready,
    gives the number of rows of the table. *)
Lemma GetNumberOfAttributeContainers_ready ty w :
  plain_name ty = true ->
  ready w ->
  exists w' n,
    GetNumberOfAttributeContainers ty w = (w', Return n)
    /\ n = Z.of_nat (length (stored_rows w ty)).
Proof.
  intros Hplain Hready.
  destruct (StoreProofs.GetNumberOfAttributeContainers_total ty w Hplain)
    as (w' & n & Hcount & _); [apply Hready|by apply StoreProofs.ready_pending|].
  exists w', n. split; [done|].
  pose proof (GetNumberOfAttributeContainers_ready_frame ty w Hready)
    as [Hchange _].
  rewrite Hcount in Hchange. simpl in Hchange.
  apply (StoreProofs.GetNumberOfAttributeContainers_Return _ _ _ _ Hplain)
    in Hcount as [-> _].
  by rewrite (stored_rows_only_counters_change w w').
Qed.

(** The loop that ends [Open], on a store that is ready, when it comes to
    its end: it has changed nothing but the counters, and has left in the
    counter of every type of the list that is a plain name the number of
    rows of its table. *)
Lemma seed_sequence_numbers_Return (types : list string) (w w' : world) l :
  ready w ->
  for_each types seed_sequence_number w = (w', Return l) ->
  only_counters_change w w'
  /\ (forall ty, ty ∈ types -> plain_name ty = true ->
        sequence_number_of (self w') ty
        = Z.of_nat (length (stored_rows w ty)))
  /\ (forall ty, ty ∉ types ->
        sequence_number_of (self w') ty = sequence_number_of (self w) ty).
Proof.
  revert w l. induction types as [|ty0 types IH]; intros w l Hready H.
  - injection H as <- <-.
    split; [apply only_counters_change_refl|].
    split; [by intros ty ?%elem_of_nil|done].
  - cbn [for_each] in H.
    apply StoreProofs.bind_inv in H as [(w2 & [] & Hstep & H)|(e & _ & [=])].
    apply StoreProofs.bind_inv in H as [(w3 & l' & Hrest & H)|(e & _ & [=])].
    injection H as <- <-.
    unfold seed_sequence_number in Hstep.
    apply StoreProofs.bind_inv in Hstep
      as [(w1 & n & Hcount & Hset)|(e & _ & [=])].
    pose proof (GetNumberOfAttributeContainers_ready_frame ty0 w Hready)
      as [Hchange1 Hcounters1].
    rewrite Hcount in Hchange1, Hcounters1. simpl in Hchange1, Hcounters1.
    injection Hset as <-.
    set (w2 := mkWorld (files w1) (classes w1) (objects w1) _) in *.
    assert (only_counters_change w1 w2) as Hchange2 by done.
    assert (only_counters_change w w2) as Hchange
      by (by eapply only_counters_change_trans).
    assert (ready w2) as Hready2
      by (by eapply ready_only_counters_change).
    destruct (IH w2 l' Hready2 Hrest) as (Hchange3 & Hin & Hout).
    split; [by eapply only_counters_change_trans|].
    assert (sequence_number_of (self w2) ty0 = n) as Hty0.
    { unfold sequence_number_of. subst w2. simpl.
      by rewrite lookup_insert_eq. }
    split.
    + intros ty Hty Hplain.
      destruct (decide (ty ∈ types)) as [Htypes|Htypes].
      * rewrite (Hin ty Htypes Hplain).
        by rewrite (stored_rows_only_counters_change w w2).
      * rewrite (Hout ty Htypes).
        apply elem_of_cons in Hty as [->|Hty]; [|done].
        rewrite Hty0.
        destruct (GetNumberOfAttributeContainers_ready ty0 w Hplain Hready)
          as (w1' & n' & Hcount' & ->).
        rewrite Hcount in Hcount'. by injection Hcount' as _ ->.
    + intros ty Hty. apply not_elem_of_cons in Hty as [Hne Hty].
      rewrite (Hout ty Hty). unfold sequence_number_of. subst w2. simpl.
      rewrite lookup_insert_ne by done. by rewrite Hcounters1.
Qed.

(** The loop comes to its end when the types are plain names. *)
Lemma seed_sequence_numbers_plain (types : list string) (w : world) :
  forallb plain_name types = true ->
  ready w ->
  exists w' l, for_each types seed_sequence_number w = (w', Return l).
Proof.
  intros Hplain Hready.
  apply StoreProofs.seed_sequence_numbers_total; [|done].
  apply Forall_forall. intros ty Hty.
  rewrite forallb_forall in Hplain. apply Hplain. by apply list_elem_of_In.
Qed.

(** *** [Open] *)

(** An [Open] that returns has connected, has checked or written the
    metadata, and has seeded the counters of the registered types. *)
Lemma Open_Return versions p read_only w w' :
  Open versions (Some p) read_only w = (w', Return tt) ->
  exists conn w0 w1 l,
    _is_open (self w) = false
    /\ connect p read_only w = (w0, Return conn)
    /\ check_or_write_metadata versions read_only (connected conn read_only w0)
       = (w1, Return tt)
    /\ for_each (GetContainerTypes (classes w1)) seed_sequence_number w1
       = (w', Return l).
Proof.
  intros H. unfold Open in H.
  apply StoreProofs.bind_inv in H as [(? & s & [= <- <-] & H)|(e & [=] & _)].
  destruct (_is_open (self w)) eqn:Hopen; [done|].
  destruct (negb (PyStr.truthy p)); [done|].
  apply StoreProofs.bind_inv in H as [(w0 & conn & Hconnect & H)|(e & _ & [=])].
  apply StoreProofs.bind_inv in H as [(? & [] & [= <-] & H)|(e & [=] & _)].
  apply StoreProofs.bind_inv in H as [(w1 & [] & Hmeta & H)|(e & _ & [=])].
  apply StoreProofs.bind_inv in H as [(? & c & [= <- <-] & H)|(e & [=] & _)].
  apply StoreProofs.bind_inv in H as [(w2 & l & Hseed & H)|(e & _ & [=])].
  injection H as <-.
  exists conn, w0, w1, l. split; [done|]. split; [done|]. split; done.
Qed.

Lemma check_or_write_metadata_respects (R : world -> world -> Prop)
    versions read_only :
  (forall w, R w w) ->
  (forall w1 w2 w3, R w1 w2 -> R w2 w3 -> R w1 w3) ->
  (forall A stmt (effect : connection -> result (database * A)),
      respects R (execute stmt effect)) ->
  respects R commit ->
  (forall version serialization,
      respects R (modify_self (set_format version serialization))) ->
  respects R (check_or_write_metadata versions read_only).
Proof.
  intros R_refl R_trans R_execute R_commit R_format.
  pose proof (storage__HasTable R R_refl R_trans R_execute).
  pose proof (storage__WriteMetadata R R_refl R_trans R_execute versions).
  pose proof (storage__ReadAndCheckStorageMetadata R R_refl R_trans R_execute
                R_format versions).
  pose proof (storage__UpdateStorageMetadataFormatVersion R R_refl R_trans
                R_execute versions).
  unfold check_or_write_metadata. respects_tac.
Qed.

Lemma check_or_write_metadata_keeps versions read_only w :
  keeps_session w (check_or_write_metadata versions read_only w).1
  /\ _write_cache (self (check_or_write_metadata versions read_only w).1)
     = _write_cache (self w)
  /\ _attribute_container_sequence_numbers
       (self (check_or_write_metadata versions read_only w).1)
     = _attribute_container_sequence_numbers (self w).
Proof.
  split; [|split].
  - apply check_or_write_metadata_respects.
    + apply keeps_session_refl.
    + apply keeps_session_trans.
    + intros. apply keeps_session_execute.
    + apply keeps_session_commit.
    + apply keeps_session_format.
  - apply (check_or_write_metadata_respects
             (fun w w' => _write_cache (self w') = _write_cache (self w)));
      try done.
    + intros; congruence.
    + intros A stmt effect w0. apply (execute_frame stmt effect w0).
    + intros w0. unfold commit.
      destruct (_connection (self w0)) as [conn|]; [|done].
      by destruct (conn_read_only conn).
  - apply (check_or_write_metadata_respects
             (fun w w' => _attribute_container_sequence_numbers (self w')
                          = _attribute_container_sequence_numbers (self w)));
      try done.
    + intros; congruence.
    + intros A stmt effect w0. apply (execute_frame stmt effect w0).
    + intros w0. unfold commit.
      destruct (_connection (self w0)) as [conn|]; [|done].
      by destruct (conn_read_only conn).
Qed.

(** What an [Open] that returns on a store object with an empty write
    cache leaves behind. *)
Lemma Open_Return_seeded versions p read_only w w' :
  _write_cache (self w) = ∅ ->
  Open versions (Some p) read_only w = (w', Return tt) ->
  classes w' = classes w
  /\ objects w' = objects w
  /\ _attribute_container_cache (self w')
     = _attribute_container_cache (self w)
  /\ ready w'
  /\ _is_open (self w') = true
  /\ _read_only (self w') = read_only
  /\ (forall ty, is_Some (classes w !! ty) -> plain_name ty = true ->
         sequence_number_of (self w') ty
         = Z.of_nat (length (stored_rows w' ty)))
  /\ (forall ty, classes w !! ty = None ->
         sequence_number_of (self w') ty = sequence_number_of (self w) ty).
Proof.
  intros Hwc H.
  apply Open_Return in H as (conn & w0 & w1 & l & Hopen & Hconnect & Hmeta & Hseed).
  apply connect_Return in Hconnect as (Hself & Hobjects & Hclasses & _).
  pose proof (check_or_write_metadata_keeps versions read_only
                (connected conn read_only w0)) as (Hsession & Hwc1 & Hcounters1).
  rewrite Hmeta in Hsession, Hwc1, Hcounters1.
  simpl in Hsession, Hwc1, Hcounters1.
  destruct Hsession as (Ho1 & Hr1 & Hc1 & Hcache1 & Hobj1 & Hcls1).
  simpl in Ho1, Hr1, Hc1, Hcache1, Hobj1, Hcls1.
  assert (ready w1) as Hready1.
  { split; [apply Hc1; eauto|]. by rewrite Hwc1, Hself. }
  destruct (seed_sequence_numbers_Return (GetContainerTypes (classes w1)) w1
              w' l Hready1 Hseed) as (Hchange & Hin & Hout).
  pose proof Hchange as ((Ho & Hr & Hc & Hcache & Hobj & Hcls) & _).
  assert (forall ty, ty ∈ GetContainerTypes (classes w1)
                     <-> is_Some (classes w !! ty)) as Htypes.
  { intros ty. unfold GetContainerTypes.
    rewrite Hcls1, Hclasses. rewrite list_elem_of_fmap. split.
    - intros ([k c] & -> & Hin'). apply elem_of_map_to_list in Hin'. eauto.
    - intros [c Hc']. exists (ty, c). split; [done|].
      by apply elem_of_map_to_list. }
  split; [congruence|]. split; [congruence|]. split; [by rewrite Hcache, Hcache1, Hself|].
  split; [by eapply ready_only_counters_change|].
  split; [congruence|]. split; [congruence|]. split.
  - intros ty Hty Hplain. rewrite (Hin ty) by (done || by apply Htypes).
    by rewrite (stored_rows_only_counters_change w1 w').
  - intros ty Hty. rewrite (Hout ty).
    + unfold sequence_number_of. by rewrite Hcounters1, Hself.
    + intros Hin'. apply Htypes in Hin' as [c Hc']. congruence.
Qed.

(** The way back: what makes [Open] return. *)
Lemma Open_intro versions p read_only w conn w0 w1 w' l :
  _is_open (self w) = false -> PyStr.truthy p = true ->
  connect p read_only w = (w0, Return conn) ->
  check_or_write_metadata versions read_only (connected conn read_only w0)
  = (w1, Return tt) ->
  for_each (GetContainerTypes (classes w1)) seed_sequence_number w1
  = (w', Return l) ->
  Open versions (Some p) read_only w = (w', Return tt).
Proof.
  intros Hopen Hpath Hconnect Hmeta Hseed. unfold Open.
  unfold bind at 1. unfold get_self at 1. cbv beta iota.
  rewrite Hopen, Hpath. change (negb true) with false. cbv iota.
  rewrite (StoreProofs.bind_Return _ _ _ _ _ Hconnect).
  unfold bind at 1. unfold modify_self at 1.
  change (mkWorld (files w0) (classes w0) (objects w0) _)
    with (connected conn read_only w0).
  change (if read_only then _ else _)
    with (check_or_write_metadata versions read_only).
  rewrite (StoreProofs.bind_Return _ _ _ _ _ Hmeta).
  unfold bind at 1. unfold get_classes at 1.
  change (for_each (GetContainerTypes (classes w1)) _)
    with (for_each (GetContainerTypes (classes w1)) seed_sequence_number).
  by rewrite (StoreProofs.bind_Return _ _ _ _ _ Hseed).
Qed.



Section LateRegistration.
Variable HasDataType : string -> bool.
Variable JsonDeserializeValue : string -> sqlvalue -> result pyvalue.

(** The rows of a container type that is not registered when the file is
    opened are not read: the counter of the type stays at zero, and a
    read by index of that type returns [None] without a statement,
    whatever the table holds and whatever is registered afterwards, for
    as long as nothing of the type is written or cached. *)
Theorem rows_of_a_type_registered_after_Open_are_not_read
    (versions : version_constants) (path : string) (read_only : bool)
    (w : world) (container_type : string) :
  _write_cache (self w) = ∅ ->
  _attribute_container_cache (self w) = [] ->
  sequence_number_of (self w) container_type = 0%Z ->
  classes w !! container_type = None ->
  (Open versions (Some path) read_only w).2 = Return tt ->
  let w' := (Open versions (Some path) read_only w).1 in
  forall (calls : list Manager.call) (index : Z),
    let registered :=
      mkWorld (files w') (fold_left apply_call calls (classes w'))
        (objects w') (self w') in
    GetAttributeContainerByIndex HasDataType JsonDeserializeValue
      container_type index registered
    = (registered, Return None).
Proof.
  intros Hwc Hcache Hcounter Hclass Hreturn w'. subst w'.
  destruct (Open versions (Some path) read_only w) as [w' r] eqn:H.
  simpl in *. subst r.
  apply Open_Return_seeded in H
    as (_ & _ & Hcache' & [_ Hwc'] & _ & _ & _ & Hout); [|done].
  intros calls index.
  unfold GetAttributeContainerByIndex, _GetCachedAttributeContainer,
    _CommitWriteCache, bind, get_self, ret. simpl.
  rewrite Hcache', Hcache. simpl. rewrite Hwc', lookup_empty. simpl.
  by rewrite (Hout _ Hclass), Hcounter.
Qed.

End LateRegistration.

Lemma rows_of_a_type_registered_after_Open_are_not_read_witness :
  GetAttributeContainerByIndex standard_data_types no_json_deserializer
    "event" 0
    (mkWorld
       (files
          (Open SQLiteAttributeContainerStore_versions (Some "/tmp/store.sqlite")
          false
          (new_process (Close (std_run (write_events 2) opened_world)).1)).1)
       (fold_left apply_call [Register event_class]
          (classes
             (Open SQLiteAttributeContainerStore_versions (Some "/tmp/store.sqlite")
          false
          (new_process (Close (std_run (write_events 2) opened_world)).1)).1))
       (objects
          (Open SQLiteAttributeContainerStore_versions (Some "/tmp/store.sqlite")
          false
          (new_process (Close (std_run (write_events 2) opened_world)).1)).1)
       (self
          (Open SQLiteAttributeContainerStore_versions (Some "/tmp/store.sqlite")
          false
          (new_process (Close (std_run (write_events 2) opened_world)).1)).1))
  = (mkWorld
       (files
          (Open SQLiteAttributeContainerStore_versions (Some "/tmp/store.sqlite")
          false
          (new_process (Close (std_run (write_events 2) opened_world)).1)).1)
       (fold_left apply_call [Register event_class]
          (classes
             (Open SQLiteAttributeContainerStore_versions (Some "/tmp/store.sqlite")
          false
          (new_process (Close (std_run (write_events 2) opened_world)).1)).1))
       (objects
          (Open SQLiteAttributeContainerStore_versions (Some "/tmp/store.sqlite")
          false
          (new_process (Close (std_run (write_events 2) opened_world)).1)).1)
       (self
          (Open SQLiteAttributeContainerStore_versions (Some "/tmp/store.sqlite")
          false
          (new_process (Close (std_run (write_events 2) opened_world)).1)).1),
     Return None).
Proof.
  apply (rows_of_a_type_registered_after_Open_are_not_read
           standard_data_types no_json_deserializer
           SQLiteAttributeContainerStore_versions "/tmp/store.sqlite" false
           (new_process (Close (std_run (write_events 2) opened_world)).1)
           "event"); vm_compute; reflexivity.
Defined.

(** *** Opening a file that is no store yet *)

Lemma execute_eq {A} stmt (effect : connection -> result (database * A))
    w conn db a :
  _connection (self w) = Some conn -> effect conn = Return (db, a) ->
  execute stmt effect w
  = (with_self w
       (set_connection
          (Some (mkConnection (conn_path conn) (conn_read_only conn) db
                   (executed conn ++ [stmt]))) (self w)), Return a).
Proof. intros Hconn Heff. unfold execute. by rewrite Hconn, Heff. Qed.

Lemma sql_create_metadata_table_fresh conn :
  tables (conn_db conn) !! "metadata" = None ->
  conn_read_only conn = false ->
  sql_create_metadata_table conn
  = Return (mkDatabase
              (<["metadata" := mkTable [("key", "TEXT"); ("value", "TEXT")] []]>
                 (tables (conn_db conn))), tt).
Proof.
  intros Hnone Hro.
  unfold sql_create_metadata_table, sql_create_table, table_exists.
  rewrite Hnone, Hro.
  by rewrite bool_decide_eq_false_2 by (by intros [? ?]).
Qed.

Lemma sql_insert_metadata_ok key value conn metadata_rows :
  tables (conn_db conn) !! "metadata"
  = Some (mkTable [("key", "TEXT"); ("value", "TEXT")] metadata_rows) ->
  conn_read_only conn = false ->
  sql_insert_metadata key value conn
  = Return (mkDatabase
              (<["metadata" :=
                   mkTable [("key", "TEXT"); ("value", "TEXT")]
                     (metadata_rows
                      ++ [row_of ["key"; "value"]
                            [Some (SqlText key); Some (SqlText value)]])]>
                 (tables (conn_db conn))), tt).
Proof.
  intros Hsome Hro. unfold sql_insert_metadata, sql_insert.
  rewrite Hsome, Hro.
  assert (has_columns
            (mkTable [("key", "TEXT"); ("value", "TEXT")] metadata_rows)
            ["key"; "value"] = true) as -> by (vm_compute; reflexivity).
  reflexivity.
Qed.

Lemma stored_metadata_written (format_version serialization_format : string)
    (other : gmap string table) :
  stored_metadata
    (mkDatabase
       (<["metadata" :=
            mkTable [("key", "TEXT"); ("value", "TEXT")]
              (([] ++ [row_of ["key"; "value"]
                         [Some (SqlText "format_version");
                          Some (SqlText format_version)]])
               ++ [row_of ["key"; "value"]
                     [Some (SqlText "serialization_format");
                      Some (SqlText serialization_format)]])]> other))
  = Some (store_metadata_values format_version serialization_format).
Proof.
  unfold stored_metadata. simpl tables. rewrite lookup_insert_eq.
  vm_compute. reflexivity.
Qed.

Lemma try_execute_eq {A} stmt (effect : connection -> result (database * A))
    w conn db a :
  _connection (self w) = Some conn -> effect conn = Return (db, a) ->
  try_except (execute stmt effect) unable_to_query w
  = (with_self w
       (set_connection
          (Some (mkConnection (conn_path conn) (conn_read_only conn) db
                   (executed conn ++ [stmt]))) (self w)), Return a).
Proof.
  intros Hconn Heff. unfold try_except.
  by rewrite (execute_eq _ _ _ _ _ _ Hconn Heff).
Qed.

(** On a connection that is not read-only and sees no [metadata] table,
    the metadata is written and committed. *)
Lemma check_or_write_metadata_fresh versions w conn :
  _connection (self w) = Some conn ->
  conn_read_only conn = false ->
  tables (conn_db conn) !! "metadata" = None ->
  exists w' db,
    check_or_write_metadata versions false w = (w', Return tt)
    /\ files w' = <[conn_path conn := DatabaseFile db]> (files w)
    /\ stored_metadata db
       = Some (store_metadata_values
                 (PyStr.format_d (_FORMAT_VERSION versions))
                 (serialization_format (self w)))
    /\ (forall ty, ty <> "metadata" ->
          tables db !! ty = tables (conn_db conn) !! ty).
Proof.
  intros Hconn Hro Hnone.
  assert (has_table (conn_db conn) "metadata" = false) as Hex.
  { rewrite StoreProofs.has_table_plain by (vm_compute; reflexivity).
    unfold table_exists. rewrite Hnone.
    by rewrite bool_decide_eq_false_2 by (by intros [? ?]). }
  assert (sql_has_table "metadata" conn = Return (conn_db conn, false))
    as Hquery by (unfold sql_has_table; by rewrite Hex).
  pose proof (try_execute_eq (SELECT_HAS_TABLE "metadata")
                (sql_has_table "metadata") w conn _ _ Hconn Hquery) as H1.
  set (conn1 := mkConnection (conn_path conn) (conn_read_only conn)
                  (conn_db conn)
                  (executed conn ++ [SELECT_HAS_TABLE "metadata"])) in H1.
  set (w1 := with_self w (set_connection (Some conn1) (self w))) in H1.
  pose proof (try_execute_eq CREATE_METADATA_TABLE sql_create_metadata_table
                w1 conn1 _ tt eq_refl
                (sql_create_metadata_table_fresh conn1 Hnone Hro)) as H2.
  set (conn2 := mkConnection (conn_path conn1) (conn_read_only conn1) _ _)
    in H2.
  set (w2 := with_self w1 (set_connection (Some conn2) (self w1))) in H2.
  pose proof (try_execute_eq
                (INSERT_METADATA "format_version"
                   (PyStr.format_d (_FORMAT_VERSION versions)))
                (sql_insert_metadata "format_version"
                   (PyStr.format_d (_FORMAT_VERSION versions)))
                w2 conn2 _ tt eq_refl
                (sql_insert_metadata_ok "format_version"
                   (PyStr.format_d (_FORMAT_VERSION versions)) conn2 []
                   (lookup_insert_eq _ _ _) Hro)) as H3.
  set (conn3 := mkConnection (conn_path conn2) (conn_read_only conn2) _ _)
    in H3.
  set (w3 := with_self w2 (set_connection (Some conn3) (self w2))) in H3.
  pose proof (try_execute_eq
                (INSERT_METADATA "serialization_format"
                   (serialization_format (self w3)))
                (sql_insert_metadata "serialization_format"
                   (serialization_format (self w3)))
                w3 conn3 _ tt eq_refl
                (sql_insert_metadata_ok "serialization_format"
                   (serialization_format (self w3)) conn3 _
                   (lookup_insert_eq _ _ _) Hro)) as H4.
  set (conn4 := mkConnection (conn_path conn3) (conn_read_only conn3) _ _)
    in H4.
  set (w4 := with_self w3 (set_connection (Some conn4) (self w3))) in H4.
  assert (_WriteMetadata versions w1 = (w4, Return tt)) as Hwrite.
  { unfold _WriteMetadata, _WriteMetadataValue.
    rewrite (StoreProofs.bind_Return _ _ _ _ _ H2).
    rewrite (StoreProofs.bind_Return _ _ _ _ _ H3).
    unfold bind, get_self. exact H4. }
  exists (mkWorld (<[conn_path conn := DatabaseFile (conn_db conn4)]> (files w))
            (classes w) (objects w) (self w4)), (conn_db conn4).
  split; [|split; [done|split]].
  - unfold check_or_write_metadata, _HasTable.
    rewrite (StoreProofs.bind_Return _ _ _ _ _ H1).
    change (negb false) with true. cbv iota.
    rewrite (StoreProofs.bind_Return _ _ _ _ _ Hwrite).
    unfold commit. simpl _connection. cbv iota.
    change (conn_read_only conn4) with (conn_read_only conn). by rewrite Hro.
  - apply stored_metadata_written.
  - intros ty Hty. simpl. by rewrite !lookup_insert_ne.
Qed.

Lemma _CheckStorageMetadata_written versions serialization check :
  (_APPEND_COMPATIBLE_FORMAT_VERSION versions <= _FORMAT_VERSION versions)%Z ->
  (_READ_COMPATIBLE_FORMAT_VERSION versions <= _FORMAT_VERSION versions)%Z ->
  serialization = "json" ->
  _CheckStorageMetadata versions
    (store_metadata_values (PyStr.format_d (_FORMAT_VERSION versions))
       serialization) check
  = Return (_FORMAT_VERSION versions).
Proof.
  intros Happend Hread ->. unfold _CheckStorageMetadata, store_metadata_values.
  rewrite lookup_insert_ne by done. rewrite !lookup_insert_eq.
  unfold parse_format_version.
  rewrite (StoreProbe.int_Some_truthy _ _
             (PyStrFacts.int_format_d (_FORMAT_VERSION versions))).
  rewrite PyStrFacts.int_format_d. simpl negb at 1. cbv iota.
  assert ((_FORMAT_VERSION versions
           <? _APPEND_COMPATIBLE_FORMAT_VERSION versions)%Z = false) as ->
    by (apply Z.ltb_ge; lia).
  assert ((_FORMAT_VERSION versions
           <? _READ_COMPATIBLE_FORMAT_VERSION versions)%Z = false) as ->
    by (apply Z.ltb_ge; lia).
  rewrite Z.ltb_irrefl, andb_false_r.
  by rewrite bool_decide_eq_true_2.
Qed.

(** [Open] read-write on a path where there is no file, or a database
    without a table called [metadata] in any letter case, makes a store of
    it when the registered container types are plain names and the format
    version of the class has no more digits than [str()] gives: it
    returns, and the file holds the metadata with the format version of
    the class and the serialization format of the store object. The class
    accepts the store it has made when its floors are not above its format
    version and the serialization format is JSON. *)
Theorem Open_creates_a_store_it_accepts
    (versions : version_constants) (path : string) (w : world) :
  _is_open (self w) = false ->
  PyStr.truthy path = true ->
  _write_cache (self w) = ∅ ->
  forallb plain_name (GetContainerTypes (classes w)) = true ->
  (String.length (PyStr.format_d (_FORMAT_VERSION versions)) <=? 4300)%nat
  = true ->
  files w !! path <> Some NotADatabase ->
  (forall db name,
      files w !! path = Some (DatabaseFile db) ->
      is_Some (tables db !! name) -> PyStr.lower name <> "metadata") ->
  let written :=
    store_metadata_values (PyStr.format_d (_FORMAT_VERSION versions))
      (serialization_format (self w)) in
  (Open versions (Some path) false w).2 = Return tt
  /\ (exists db,
        files (Open versions (Some path) false w).1 !! path
        = Some (DatabaseFile db)
        /\ stored_metadata db = Some written)
  /\ ((_APPEND_COMPATIBLE_FORMAT_VERSION versions
       <= _FORMAT_VERSION versions)%Z ->
      (_READ_COMPATIBLE_FORMAT_VERSION versions
       <= _FORMAT_VERSION versions)%Z ->
      serialization_format (self w) = "json" ->
      forall check_readable_only,
        _CheckStorageMetadata versions written check_readable_only
        = Return (_FORMAT_VERSION versions)).
Proof.
  intros Hopen Hpath Hwc Hplain _ Hfile Hnometa' written.
  assert (forall db, files w !! path = Some (DatabaseFile db) ->
                     tables db !! "metadata" = None) as Hnometa.
  { intros db Hdb. destruct (tables db !! "metadata") as [t|] eqn:Ht; [|done].
    exfalso. by apply (Hnometa' db "metadata" Hdb). }
  assert (exists w0 conn,
             connect path false w = (w0, Return conn)
             /\ conn_path conn = path /\ conn_read_only conn = false
             /\ tables (conn_db conn) !! "metadata" = None)
    as (w0 & conn & Hconnect & Hcp & Hro & Hnone).
  { unfold connect. destruct (files w !! path) as [[|db]|] eqn:E; [done| |].
    - eexists _, _. split; [reflexivity|]. simpl. eauto.
    - eexists _, _. split; [reflexivity|]. simpl. done. }
  pose proof (connect_Return _ _ _ _ _ Hconnect)
    as (Hself0 & Hobj0 & Hcls0 & _).
  destruct (check_or_write_metadata_fresh versions (connected conn false w0)
              conn eq_refl Hro Hnone)
    as (w1 & db & Hmeta & Hfiles1 & Hmd & _).
  pose proof (check_or_write_metadata_keeps versions false
                (connected conn false w0))
    as ((_ & _ & Hc1 & _ & _ & Hcls1) & Hwc1 & _).
  rewrite Hmeta in Hc1, Hwc1, Hcls1. simpl in Hc1, Hwc1, Hcls1.
  assert (ready w1) as Hready1.
  { split; [apply Hc1; eauto|]. by rewrite Hwc1, Hself0. }
  destruct (seed_sequence_numbers_plain (GetContainerTypes (classes w1)) w1)
    as (w2 & l & Hseed); [by rewrite Hcls1, Hcls0|exact Hready1|].
  destruct (seed_sequence_numbers_Return _ _ _ _ Hready1 Hseed)
    as ((_ & (_ & _ & Hfiles2) & _) & _).
  rewrite (Open_intro versions path false w conn w0 w1 w2 l
             Hopen Hpath Hconnect Hmeta Hseed). simpl.
  split; [done|]. split.
  - exists db. split.
    + by rewrite Hfiles2, Hfiles1, Hcp, lookup_insert_eq.
    + simpl in Hmd. by rewrite Hself0 in Hmd.
  - intros Happend Hread Hjson check.
    by apply _CheckStorageMetadata_written.
Qed.

Lemma Open_creates_a_store_it_accepts_witness :
  (Open SQLiteAttributeContainerStore_versions (Some "/tmp/store.sqlite")
     false initial_world).2 = Return tt
  /\ (exists db,
        files (Open SQLiteAttributeContainerStore_versions
                 (Some "/tmp/store.sqlite") false initial_world).1
          !! "/tmp/store.sqlite" = Some (DatabaseFile db)
        /\ stored_metadata db
           = Some (store_metadata_values
                     (PyStr.format_d
                        (_FORMAT_VERSION SQLiteAttributeContainerStore_versions))
                     (serialization_format (self initial_world)))).
Proof.
  destruct (Open_creates_a_store_it_accepts
              SQLiteAttributeContainerStore_versions "/tmp/store.sqlite"
              initial_world) as (H1 & H2 & _).
  - vm_compute. reflexivity.
  - vm_compute. reflexivity.
  - vm_compute. reflexivity.
  - vm_compute. reflexivity.
  - vm_compute. reflexivity.
  - vm_compute. discriminate.
  - intros db name. vm_compute. discriminate.
  - split; [exact H1|exact H2].
Defined.

(** *** Opening a store read-write *)

Lemma stored_metadata_store_database (format_version serialization : string) :
  stored_metadata (store_database format_version serialization)
  = Some (store_metadata_values format_version serialization).
Proof. vm_compute. reflexivity. Qed.

Lemma select_metadata_store_database (format_version serialization : string)
    conn :
  conn_db conn = store_database format_version serialization ->
  exists metadata_rows,
    sql_select_metadata conn = Return (conn_db conn, metadata_rows)
    /\ dict_of_rows metadata_rows
       = store_metadata_values format_version serialization.
Proof.
  intros Hdb.
  exists [(Some (SqlText "format_version"), Some (SqlText format_version));
          (Some (SqlText "serialization_format"), Some (SqlText serialization))].
  split.
  - unfold sql_select_metadata. rewrite Hdb. vm_compute. reflexivity.
  - vm_compute. reflexivity.
Qed.

Lemma update_metadata_store_database (format_version serialization : string)
    (value : Z) conn :
  conn_db conn = store_database format_version serialization ->
  conn_read_only conn = false ->
  sql_update_metadata_format_version value conn
  = Return (store_database (PyStr.format_d value) serialization, tt).
Proof.
  intros Hdb Hro. unfold sql_update_metadata_format_version.
  rewrite Hdb, Hro. generalize (PyStr.format_d value). intros text.
  vm_compute. reflexivity.
Qed.

Lemma _CheckStorageMetadata_ok versions (format_version : string) (v : Z)
    check :
  PyStr.int format_version = Some v ->
  (check = false -> (_APPEND_COMPATIBLE_FORMAT_VERSION versions <= v)%Z) ->
  (_READ_COMPATIBLE_FORMAT_VERSION versions <= v)%Z ->
  (v <= _FORMAT_VERSION versions)%Z ->
  _CheckStorageMetadata versions
    (store_metadata_values format_version "json") check
  = Return v.
Proof.
  intros Hint Happend Hread Hcurrent.
  unfold _CheckStorageMetadata, store_metadata_values.
  rewrite lookup_insert_ne by done. rewrite !lookup_insert_eq.
  unfold parse_format_version.
  rewrite (StoreProbe.int_Some_truthy _ _ Hint), Hint.
  change (negb true) with false. cbv iota.
  assert (negb check && (v <? _APPEND_COMPATIBLE_FORMAT_VERSION versions)%Z
          = false) as ->.
  { destruct check; [done|]. simpl. apply Z.ltb_ge. by apply Happend. }
  assert ((v <? _READ_COMPATIBLE_FORMAT_VERSION versions)%Z = false) as ->
    by (apply Z.ltb_ge; lia).
  assert ((_FORMAT_VERSION versions <? v)%Z = false) as ->
    by (apply Z.ltb_ge; lia).
  by rewrite bool_decide_eq_true_2.
Qed.



End StoreOpen.

Module StoreWrites.
Import Identifier Manager Store StoreSpec StoreInvariants.

(** *** Writing a new container *)

Lemma od_get_od_set {V} key (value : V) d :
  od_get key (od_set key value d) = Some value.
Proof.
  induction d as [|[k v] d IH]; simpl.
  - by rewrite String.eqb_refl.
  - destruct (String.eqb k key) eqn:E; simpl.
    + by rewrite String.eqb_refl.
    + by rewrite E.
Qed.

Lemma od_get_od_move_to_front {V} key (d : list (string * V)) :
  od_get key (od_move_to_front key d) = od_get key d.
Proof.
  unfold od_move_to_front. destruct (od_get key d) as [v|] eqn:E; [|done].
  simpl. by rewrite String.eqb_refl.
Qed.

(** Caching a container that exists puts it under the key of its type
    and the index, and changes nothing but the read cache. *)
Lemma _CacheAttributeContainerByIndex_spec o i w c :
  objects w !! o = Some c ->
  exists cache,
    _CacheAttributeContainerByIndex o i w
    = (with_self w (set_cache cache (self w)), Return tt)
    /\ od_get (lookup_key_of (CONTAINER_TYPE (class_of c)) i) cache = Some o.
Proof.
  intros Ho. unfold _CacheAttributeContainerByIndex.
  remember _MAXIMUM_CACHED_CONTAINERS as N eqn:HN. clear HN.
  unfold bind at 1. unfold get_self at 1. cbv beta iota.
  assert (exists cache0,
             (if (N <=? length (_attribute_container_cache (self w)))%nat
              then modify_self (fun s =>
                     set_cache (od_popitem_last (_attribute_container_cache s))
                       s)
              else ret tt) w
             = (with_self w (set_cache cache0 (self w)), Return tt))
    as (cache0 & Hfirst).
  { destruct (N <=? length (_attribute_container_cache (self w)))%nat.
    - by eexists.
    - exists (_attribute_container_cache (self w)).
      unfold ret, with_self. f_equal. by destruct w as [? ? ? []]. }
  rewrite (StoreProofs.bind_Return _ _ _ _ _ Hfirst).
  unfold bind, get_object, modify_self. simpl. rewrite Ho. simpl.
  eexists. split; [reflexivity|].
  by rewrite od_get_od_move_to_front, od_get_od_set.
Qed.

Lemma _RaiseIfNotWritable_Return w w' :
  _RaiseIfNotWritable w = (w', Return tt) ->
  w' = w /\ _is_open (self w) = true /\ _read_only (self w) = false.
Proof.
  unfold _RaiseIfNotWritable, bind, get_self. simpl.
  destruct (_is_open (self w)); simpl; [|done].
  destruct (_read_only (self w)); simpl; [done|].
  by intros [= <-].
Qed.

Lemma stored_rows_same_database w w' ty :
  database_of w' = database_of w -> stored_rows w' ty = stored_rows w ty.
Proof. intros H. unfold stored_rows. by rewrite H. Qed.

Lemma pending_rows_same_write_cache w w' ty :
  _write_cache (self w') = _write_cache (self w) ->
  pending_rows w' ty = pending_rows w ty.
Proof. intros H. unfold pending_rows. by rewrite H. Qed.

(** The relation of the calls that leave the rows of every type alone,
    those of the tables and those that wait. *)
Lemma _HasTable_rows name w :
  database_of (_HasTable name w).1 = database_of w
  /\ _write_cache (self (_HasTable name w).1) = _write_cache (self w).
Proof.
  pose proof (StoreProofs._HasTable_spec name w) as H.
  destruct (_connection (self w)) as [conn|].
  - destruct H as (w' & -> & _ & _ & _ & Hdb & Hwc). done.
  - by rewrite H.
Qed.

(** A table that has just been created holds no row, and no other table
    is touched. *)
Lemma _CreateAttributeContainerTable_Return ty w w' ty' :
  _CreateAttributeContainerTable ty w = (w', Return tt) ->
  stored_rows w' ty' = stored_rows w ty'
  /\ _write_cache (self w') = _write_cache (self w).
Proof.
  unfold _CreateAttributeContainerTable. intros H.
  apply StoreProofs.bind_inv in H as [(w1 & schema & H1 & H)|(e & _ & [=])].
  pose proof (StoreProofs._GetAttributeContainerSchema_pure ty w) as Hpure.
  rewrite H1 in Hpure. simpl in Hpure. subst w1.
  destruct (is_empty_schema schema); [done|].
  apply StoreProofs.try_unable_to_query_Return in H.
  apply StoreProofs.execute_Return in H as (conn & db & Hconn & Heff & ->).
  unfold sql_create_table in Heff.
  destruct (table_exists (conn_db conn) ty) eqn:Hex; [done|].
  destruct (conn_read_only conn); [done|]. injection Heff as <-.
  split; [|done].
  unfold stored_rows, database_of. simpl. rewrite Hconn. simpl.
  destruct (decide (ty' = ty)) as [->|Hne].
  - rewrite lookup_insert_eq. simpl.
    unfold table_exists in Hex. apply bool_decide_eq_false in Hex.
    destruct (tables (conn_db conn) !! ty) eqn:E; [|done].
    exfalso. eauto.
  - by rewrite lookup_insert_ne.
Qed.

(** A row handed to the write cache is one more row of the type, in the
    table or waiting. *)
Lemma _CacheAttributeContainerForWrite_Return ty cols values w w' :
  _write_cache (self w) !! ty <> Some [] ->
  _CacheAttributeContainerForWrite ty cols values w = (w', Return tt) ->
  (length (stored_rows w' ty) + length (pending_rows w' ty)
   = S (length (stored_rows w ty) + length (pending_rows w ty)))%nat
  /\ _write_cache (self w') !! ty <> Some [].
Proof.
  unfold _CacheAttributeContainerForWrite. intros Hnonempty H.
  apply StoreProofs.bind_inv in H as [(w0 & s & [= <- <-] & H)|(e & [=] & _)].
  set (cached := _write_cache (self w) !! ty) in *.
  set (l := (default [ColumnNames cols] cached ++ [RowValues values])%list)
    in *.
  assert (length (tail l) = S (length (pending_rows w ty))) as Hl.
  { subst l. unfold pending_rows. fold cached.
    destruct cached as [[|x l0]|]; simpl; [done| |done].
    rewrite length_app. simpl. lia. }
  assert (l <> []) as Hl'
    by (subst l; destruct (default [ColumnNames cols] cached); done).
  apply StoreProofs.bind_inv in H as [(w1 & [] & H1 & H)|(e & _ & [=])].
  assert (stored_rows w1 ty = stored_rows w ty
          /\ _write_cache (self w1)
             = (if bool_decide (is_Some cached)
                then <[ty := l]> (_write_cache (self w))
                else _write_cache (self w))) as [Hs1 Hwc1].
  { destruct (bool_decide (is_Some cached)); by injection H1 as <-. }
  apply StoreProofs.bind_inv in H as [(w2 & l2 & H2 & H)|(e & _ & [=])].
  injection H as <-. unfold pending_rows at 1. simpl.
  rewrite !lookup_insert_eq. simpl.
  destruct (_MAXIMUM_WRITE_CACHE_SIZE <=? length l)%nat.
  - apply StoreProofs.bind_inv in H2 as [(w3 & [] & H3 & H2)|(e & _ & [=])].
    injection H2 as <- <-. simpl.
    assert (length (stored_rows w3 ty)
            = (length (stored_rows w1 ty) + length (tail l))%nat) as Hrows.
    { unfold _FlushWriteCache in H3. destruct l as [|first rest]; [done|].
      apply StoreProofs.bind_inv in H3 as [(w4 & [] & H4 & H3)|(e & _ & [=])].
      assert (stored_rows w4 ty = stored_rows w1 ty) as Hs4
        by (destruct (bool_decide (is_Some cached)); by injection H4 as <-).
      apply StoreProofs.bind_inv in H3
        as [(w5 & names & H5 & H3)|(e & _ & [=])].
      assert (w5 = w4) as ->.
      { destruct first as [names'|vs]; [by injection H5 as <- _|].
        destruct (as_strings vs); by injection H5 as <-. }
      apply StoreProofs.try_unable_to_query_Return in H3.
      apply StoreProofs.execute_Return in H3 as (conn & db & Hconn & Heff & ->).
      apply StoreProofs.sql_insert_Return in Heff
        as (t & new_rows & Ht & Hlen & ->).
      rewrite <- Hs4. unfold stored_rows, database_of. simpl.
      rewrite Hconn. simpl. rewrite lookup_insert_eq, Ht. simpl.
      rewrite length_app. lia. }
    unfold stored_rows at 1. unfold database_of. simpl.
    change (length (match conn_db <$> _connection (self w3) with
                    | Some db => default [] (rows <$> tables db !! ty)
                    | None => []
                    end)) with (length (stored_rows w3 ty)).
    rewrite Hrows, Hs1. split; [lia|done].
  - injection H2 as <- <-.
    unfold stored_rows at 1. unfold database_of. simpl.
    change (length (match conn_db <$> _connection (self w1) with
                    | Some db => default [] (rows <$> tables db !! ty)
                    | None => []
                    end)) with (length (stored_rows w1 ty)).
    rewrite Hs1. split; [lia|congruence].
Qed.

Lemma only_storage_changes__HasTable name :
  respects only_storage_changes (_HasTable name).
Proof.
  apply storage__HasTable.
  - apply only_storage_changes_refl.
  - apply only_storage_changes_trans.
  - intros. apply only_storage_changes_execute.
Qed.

Lemma only_storage_changes__CreateAttributeContainerTable ty :
  respects only_storage_changes (_CreateAttributeContainerTable ty).
Proof.
  apply storage__CreateAttributeContainerTable.
  - apply only_storage_changes_refl.
  - apply only_storage_changes_trans.
  - intros. apply only_storage_changes_execute.
Qed.

Lemma only_storage_changes__CacheAttributeContainerForWrite ty cols values :
  respects only_storage_changes
    (_CacheAttributeContainerForWrite ty cols values).
Proof.
  apply storage__CacheAttributeContainerForWrite.
  - apply only_storage_changes_refl.
  - apply only_storage_changes_trans.
  - intros. apply only_storage_changes_execute.
  - apply only_storage_changes_write_cache.
Qed.

Lemma only_storage_changes_elim {A} (m : M A) w w' r :
  respects only_storage_changes m -> m w = (w', r) ->
  objects w' = objects w /\ classes w' = classes w
  /\ _attribute_container_sequence_numbers (self w')
     = _attribute_container_sequence_numbers (self w)
  /\ _attribute_container_cache (self w')
     = _attribute_container_cache (self w).
Proof.
  intros Hm H. specialize (Hm w). rewrite H in Hm.
  by destruct Hm as ((_ & _ & _ & ? & ? & ?) & ?).
Qed.

Section NewContainers.
Variable HasDataType : string -> bool.
Variable JsonSerializeValue : string -> pyvalue -> result pyvalue.
Variable JsonDeserializeValue : string -> sqlvalue -> result pyvalue.

Local Abbreviation Add :=
  (AddAttributeContainer HasDataType JsonSerializeValue).

Lemma serialize_attributes_pure ty attrs schema w :
  (serialize_attributes HasDataType JsonSerializeValue ty attrs schema w).1
  = w.
Proof.
  unfold serialize_attributes.
  generalize (sorted_items schema). intros items.
  induction items as [|[name data_type] items IH]; simpl; [done|].
  unfold bind at 1. unfold try_except, lift.
  destruct (SerializeValue HasDataType JsonSerializeValue data_type
              (attrs !! name)) as [v|e]; simpl.
  - unfold bind. destruct (for_each items _ w) as [w1 [vs|e]]; simpl in *;
      done.
  - by destruct e.
Qed.

(** The table of the type is looked for and made when the first sequence
    number is given out: the rows of every type stay as they are. *)
Lemma table_check_Return (next : Z) ty w w' :
  (if (next =? 1)%Z
   then
     let* has_table := _HasTable ty in
     if negb has_table then _CreateAttributeContainerTable ty else ret tt
   else ret tt) w = (w', Return tt) ->
  stored_rows w' ty = stored_rows w ty
  /\ _write_cache (self w') = _write_cache (self w)
  /\ objects w' = objects w /\ classes w' = classes w
  /\ _attribute_container_sequence_numbers (self w')
     = _attribute_container_sequence_numbers (self w)
  /\ _attribute_container_cache (self w')
     = _attribute_container_cache (self w).
Proof.
  intros H.
  assert (objects w' = objects w /\ classes w' = classes w
          /\ _attribute_container_sequence_numbers (self w')
             = _attribute_container_sequence_numbers (self w)
          /\ _attribute_container_cache (self w')
             = _attribute_container_cache (self w)) as Hframe.
  { eapply only_storage_changes_elim; [|exact H].
    destruct (next =? 1)%Z; [|apply respects_ret, only_storage_changes_refl].
    apply respects_bind.
    - apply only_storage_changes_trans.
    - apply only_storage_changes__HasTable.
    - intros b. destruct (negb b).
      + apply only_storage_changes__CreateAttributeContainerTable.
      + apply respects_ret, only_storage_changes_refl. }
  split; [|split; [|done]].
  - destruct (next =? 1)%Z; [|by injection H as <-].
    apply StoreProofs.bind_inv in H as [(w1 & b & H1 & H)|(e & _ & [=])].
    pose proof (_HasTable_rows ty w) as [Hdb _]. rewrite H1 in Hdb.
    simpl in Hdb.
    destruct (negb b).
    + apply (_CreateAttributeContainerTable_Return ty w1 w' ty) in H as [-> _].
      by apply stored_rows_same_database.
    + injection H as <-. by apply stored_rows_same_database.
  - destruct (next =? 1)%Z; [|by injection H as <-].
    apply StoreProofs.bind_inv in H as [(w1 & b & H1 & H)|(e & _ & [=])].
    pose proof (_HasTable_rows ty w) as [_ Hwc]. rewrite H1 in Hwc.
    simpl in Hwc.
    destruct (negb b).
    + apply (_CreateAttributeContainerTable_Return ty w1 w' ty) in H as [_ ->].
      done.
    + by injection H as <-.
Qed.

(** What [AddAttributeContainer] has done when it returns. *)
Lemma AddAttributeContainer_Return container w w' :
  Add container w = (w', Return tt) ->
  exists c,
    objects w !! container = Some c
    /\ let ty := CONTAINER_TYPE (class_of c) in
       let n := (sequence_number_of (self w) ty + 1)%Z in
       identifier_of w' container = Some (init (Some ty) (Some n))
       /\ container_type_of w' container = Some ty
       /\ sequence_number_of (self w') ty = n
       /\ od_get (lookup_key_of ty (n - 1))
            (_attribute_container_cache (self w')) = Some container
       /\ (_write_cache (self w) !! ty <> Some [] ->
           (length (stored_rows w' ty) + length (pending_rows w' ty)
            = S (length (stored_rows w ty) + length (pending_rows w ty)))%nat
           /\ _write_cache (self w') !! ty <> Some []).
Proof.
  unfold AddAttributeContainer. intros H.
  apply StoreProofs.bind_inv in H as [(w0 & [] & H0 & H)|(e & _ & [=])].
  apply _RaiseIfNotWritable_Return in H0 as (-> & _ & _).
  unfold _WriteNewAttributeContainer in H.
  apply StoreProofs.bind_inv in H as [(w0 & c & H0 & H)|(e & _ & [=])].
  assert (w0 = w /\ objects w !! container = Some c) as [-> Hc].
  { unfold get_object in H0. destruct (objects w !! container); [|done].
    by injection H0 as <- <-. }
  exists c. split; [done|].
  set (ty := CONTAINER_TYPE (class_of c)) in *.
  set (n := (sequence_number_of (self w) ty + 1)%Z) in *.
  apply StoreProofs.bind_inv in H as [(w1 & next & H1 & H)|(e & _ & [=])].
  assert (next = n
          /\ w1 = with_self w
                  (set_sequence_numbers
                     (<[ty := n]> (_attribute_container_sequence_numbers
                                     (self w))) (self w))) as [-> ->]
    by (by injection H1 as <- <-).
  clear H1.
  apply StoreProofs.bind_inv in H as [(w2 & [] & H2 & H)|(e & _ & [=])].
  apply table_check_Return in H2
    as (Hs2 & Hwc2 & Hobj2 & Hcls2 & Hseq2 & Hcache2).
  simpl in Hwc2, Hobj2, Hcls2, Hseq2, Hcache2.
  apply StoreProofs.bind_inv in H as [(w3 & [] & H3 & H)|(e & _ & [=])].
  unfold SetIdentifier in H3. rewrite Hobj2, Hc in H3. injection H3 as <-.
  apply StoreProofs.bind_inv in H as [(w4 & schema & H4 & H)|(e & _ & [=])].
  pose proof (StoreProofs._GetAttributeContainerSchema_pure ty
                (mkWorld (files w2) (classes w2)
                   (<[container :=
                        mkContainer (class_of c) (attributes c)
                          (init (Some ty) (Some n))]> (objects w))
                   (self w2))) as Hpure.
  fold ty in H4. rewrite H4 in Hpure. simpl in Hpure. subst w4.
  destruct (is_empty_schema schema); [done|].
  apply StoreProofs.bind_inv in H as [(w5 & row & H5 & H)|(e & _ & [=])].
  pose proof (serialize_attributes_pure ty (attributes c) schema
                (mkWorld (files w2) (classes w2)
                   (<[container :=
                        mkContainer (class_of c) (attributes c)
                          (init (Some ty) (Some n))]> (objects w))
                   (self w2))) as Hpure.
  fold ty in H5. rewrite H5 in Hpure. simpl in Hpure. subst w5.
  apply StoreProofs.bind_inv in H as [(w6 & [] & H6 & H)|(e & _ & [=])].
  pose proof (only_storage_changes_elim _ _ _ _
                (only_storage_changes__CacheAttributeContainerForWrite _ _ _)
                H6) as (Hobj6 & Hcls6 & Hseq6 & Hcache6).
  simpl in Hobj6, Hcls6, Hseq6, Hcache6.
  assert (objects w6 !! container
          = Some (mkContainer (class_of c) (attributes c)
                    (init (Some ty) (Some n)))) as Hc6.
  { rewrite Hobj6. apply list_lookup_insert_eq.
    by eapply lookup_lt_Some. }
  destruct (_CacheAttributeContainerByIndex_spec container (n - 1) w6 _ Hc6)
    as (cache & H7 & Hget).
  fold ty in H. rewrite H7 in H. injection H as <-. simpl in Hget. simpl.
  unfold identifier_of, container_type_of. simpl. rewrite Hc6. simpl.
  split; [done|]. split; [done|].
  split.
  { unfold sequence_number_of. simpl. rewrite Hseq6, Hseq2.
    by rewrite lookup_insert_eq. }
  split; [done|].
  intros Hnonempty.
  apply _CacheAttributeContainerForWrite_Return in H6.
  2:{ simpl. by rewrite Hwc2. }
  destruct H6 as [Hcount Hne6].
  split; [|exact Hne6].
  change (length (stored_rows w6 ty) + length (pending_rows w6 ty)
          = S (length (stored_rows w ty) + length (pending_rows w ty)))%nat.
  rewrite Hcount. f_equal. f_equal.
  - f_equal. exact Hs2.
  - f_equal. by apply pending_rows_same_write_cache.
Qed.

(** The sequence numbers of the identifiers given to new containers of
    one type go up strictly: whatever the caller does between two
    [AddAttributeContainer] that return, the second container gets a
    larger sequence number than the first, so that no two containers
    written in a session share an identifier. *)
Theorem new_identifiers_increase
    (first second : objref) (calls : list call) (w : world)
    (container_type : string) :
  let w1 := (Add first w).1 in
  let w2 := run HasDataType JsonSerializeValue JsonDeserializeValue calls w1 in
  let w3 := (Add second w2).1 in
  (Add first w).2 = Return tt ->
  (Add second w2).2 = Return tt ->
  container_type_of w first = Some container_type ->
  container_type_of w2 second = Some container_type ->
  exists n1 n2 : Z,
    identifier_of w1 first = Some (init (Some container_type) (Some n1))
    /\ identifier_of w3 second = Some (init (Some container_type) (Some n2))
    /\ (n1 < n2)%Z.
Proof.
  intros w1 w2 w3 H1 H2 Hty1 Hty2.
  destruct (Add first w) as [w1' r1] eqn:E1. simpl in *. subst r1.
  destruct (Add second w2) as [w3' r2] eqn:E2. simpl in *. subst r2.
  subst w1 w3.
  apply AddAttributeContainer_Return in E1 as (c1 & Hc1 & Hid1 & _ & Hseq1 & _).
  apply AddAttributeContainer_Return in E2 as (c2 & Hc2 & Hid2 & _ & _).
  unfold container_type_of in Hty1, Hty2. rewrite Hc1 in Hty1.
  rewrite Hc2 in Hty2. simpl in Hty1, Hty2.
  injection Hty1 as Hty1. injection Hty2 as Hty2.
  rewrite Hty1 in Hid1, Hseq1. rewrite Hty2 in Hid2.
  eexists _, _. split; [exact Hid1|]. split; [exact Hid2|].
  pose proof (counters_advance_run HasDataType JsonSerializeValue
                JsonDeserializeValue calls w1' container_type) as Hadv.
  fold w2 in Hadv. lia.
Qed.

(** A container that has just been added is read back from the read
    cache: the read by the identifier it was given returns the very
    object, executes no statement and leaves the rows that wait in the
    write cache where they are. *)
Theorem added_container_is_read_from_the_cache
    (container : objref) (w : world) :
  (Add container w).2 = Return tt ->
  let w' := (Add container w).1 in
  exists (container_type : string) (identifier : AttributeContainerIdentifier)
         (w'' : world),
    container_type_of w' container = Some container_type
    /\ identifier_of w' container = Some identifier
    /\ GetAttributeContainerByIdentifier HasDataType JsonDeserializeValue
         container_type identifier w' = (w'', Return (Some container))
    /\ statements w'' = statements w'
    /\ pending_rows w'' container_type = pending_rows w' container_type.
Proof.
  intros H w'. subst w'.
  destruct (Add container w) as [w' r] eqn:E. simpl in *. subst r.
  apply AddAttributeContainer_Return in E
    as (c & Hc & Hid & Hty & _ & Hcache & _).
  eexists _, _, _. split; [exact Hty|]. split; [exact Hid|].
  unfold GetAttributeContainerByIdentifier, GetAttributeContainerByIndex,
    _GetCachedAttributeContainer, bind, get_self, modify_self, ret. simpl.
  rewrite Hcache. simpl. split; [reflexivity|]. done.
Qed.

(** The sequence number of the identifier a new container gets is the
    rowid of its row: when the counter of the type is the number of its
    rows, stored and waiting, as [Open] leaves it, the container that is
    added gets that number plus one, which is the number of rows of the
    type once its own row waits or is stored, and the counter is again the
    number of rows. *)
Theorem new_container_gets_the_rowid_of_its_row
    (container : objref) (w : world) (container_type : string) :
  container_type_of w container = Some container_type ->
  counter_matches_rows w container_type ->
  (Add container w).2 = Return tt ->
  let w' := (Add container w).1 in
  identifier_of w' container
  = Some (init (Some container_type)
            (Some (Z.of_nat (length (stored_rows w' container_type)
                             + length (pending_rows w' container_type)))))
  /\ counter_matches_rows w' container_type.
Proof.
  intros Hty [Hcounter Hnonempty] H w'. subst w'.
  destruct (Add container w) as [w' r] eqn:E. simpl in *. subst r.
  apply AddAttributeContainer_Return in E
    as (c & Hc & Hid & _ & Hseq & _ & Hrows).
  unfold container_type_of in Hty. rewrite Hc in Hty. simpl in Hty.
  injection Hty as Hty. rewrite Hty in Hid, Hseq, Hrows.
  destruct (Hrows Hnonempty) as [Hcount Hnonempty'].
  assert ((sequence_number_of (self w) container_type + 1)%Z
          = Z.of_nat (length (stored_rows w' container_type)
                      + length (pending_rows w' container_type))) as Hn
    by (rewrite Hcount, Hcounter; lia).
  split; [by rewrite Hid, Hn|].
  split; [by rewrite Hseq, Hn|done].
Qed.


End NewContainers.

Lemma new_identifiers_increase_witness :
  exists n1 n2 : Z,
    identifier_of
      (AddAttributeContainer standard_data_types no_json_serializer 0%nat
         two_new_events_world).1 0%nat
    = Some (init (Some "event") (Some n1))
    /\ identifier_of
         (AddAttributeContainer standard_data_types no_json_serializer 1%nat
            (run standard_data_types no_json_serializer no_json_deserializer
               [CallGetNumber "event"]
               (AddAttributeContainer standard_data_types no_json_serializer
                  0%nat two_new_events_world).1)).1 1%nat
       = Some (init (Some "event") (Some n2))
    /\ (n1 < n2)%Z.
Proof.
  apply (new_identifiers_increase standard_data_types no_json_serializer
           no_json_deserializer 0%nat 1%nat [CallGetNumber "event"]
           two_new_events_world "event"); vm_compute; reflexivity.
Defined.

Lemma added_container_is_read_from_the_cache_witness :
  exists (container_type : string) (identifier : AttributeContainerIdentifier)
         (w'' : world),
    container_type_of
      (AddAttributeContainer standard_data_types no_json_serializer 0%nat
         two_new_events_world).1 0%nat = Some container_type
    /\ identifier_of
         (AddAttributeContainer standard_data_types no_json_serializer 0%nat
            two_new_events_world).1 0%nat = Some identifier
    /\ GetAttributeContainerByIdentifier standard_data_types
         no_json_deserializer container_type identifier
         (AddAttributeContainer standard_data_types no_json_serializer 0%nat
            two_new_events_world).1 = (w'', Return (Some 0%nat))
    /\ statements w''
       = statements
           (AddAttributeContainer standard_data_types no_json_serializer
              0%nat two_new_events_world).1
    /\ pending_rows w'' container_type
       = pending_rows
           (AddAttributeContainer standard_data_types no_json_serializer
              0%nat two_new_events_world).1 container_type.
Proof.
  apply (added_container_is_read_from_the_cache standard_data_types
           no_json_serializer no_json_deserializer 0%nat
           two_new_events_world); vm_compute; reflexivity.
Defined.

Lemma new_container_gets_the_rowid_of_its_row_witness :
  identifier_of
    (AddAttributeContainer standard_data_types no_json_serializer 0%nat
       two_new_events_world).1 0%nat
  = Some (init (Some "event")
            (Some (Z.of_nat
                     (length (stored_rows
                                (AddAttributeContainer standard_data_types
                                   no_json_serializer 0%nat
                                   two_new_events_world).1 "event")
                      + length (pending_rows
                                  (AddAttributeContainer standard_data_types
                                     no_json_serializer 0%nat
                                     two_new_events_world).1 "event")))))
  /\ counter_matches_rows
       (AddAttributeContainer standard_data_types no_json_serializer 0%nat
          two_new_events_world).1 "event".
Proof.
  apply (new_container_gets_the_rowid_of_its_row standard_data_types
           no_json_serializer 0%nat two_new_events_world "event").
  - vm_compute. reflexivity.
  - split; [vm_compute; reflexivity|vm_compute; discriminate].
  - vm_compute. reflexivity.
Defined.


End StoreWrites.

Module StoreRoundTrip.
Import Identifier Manager Store StoreSpec StoreInvariants StoreOpen StoreWrites.

(** *** The columns of a schema *)

Lemma insert_sorted_perm x l : insert_sorted x l ≡ₚ x :: l.
Proof.
  induction l as [|y l IH]; simpl; [done|].
  destruct (String.leb x.1 y.1); [done|].
  rewrite IH. apply Permutation_swap.
Qed.

Lemma sorted_items_perm schema : sorted_items schema ≡ₚ map_to_list schema.
Proof.
  unfold sorted_items. induction (map_to_list schema) as [|x l IH]; simpl;
    [done|].
  by rewrite insert_sorted_perm, IH.
Qed.

Lemma NoDup_sorted_items schema : NoDup (sorted_items schema).*1.
Proof. rewrite sorted_items_perm. apply NoDup_fst_map_to_list. Qed.

Lemma elem_of_sorted_items schema name data_type :
  (name, data_type) ∈ sorted_items schema <-> schema !! name = Some data_type.
Proof. rewrite sorted_items_perm. apply elem_of_map_to_list. Qed.

Lemma sorted_items_nonempty schema :
  schema <> ∅ -> (sorted_items schema).*1 <> [].
Proof.
  intros Hne Hnil. apply Hne. apply map_to_list_empty_iff.
  apply Permutation_nil_r. rewrite <- sorted_items_perm.
  by destruct (sorted_items schema).
Qed.

(** *** Loops that change nothing *)

Lemma for_each_pure {A B} (xs : list A) (body : A -> M B) (f : A -> B) w :
  (forall x, x ∈ xs -> body x w = (w, Return (f x))) ->
  for_each xs body w = (w, Return (f <$> xs)).
Proof.
  induction xs as [|x xs IH]; intros H; simpl; [done|].
  rewrite (StoreProofs.bind_Return _ _ _ _ _
             (H x ltac:(apply elem_of_cons; by left))).
  rewrite (StoreProofs.bind_Return _ _ w w (f <$> xs)); [done|].
  apply IH. intros y Hy. apply H. apply elem_of_cons. by right.
Qed.

Section RoundTrip.
Variable HasDataType : string -> bool.
Variable JsonSerializeValue : string -> pyvalue -> result pyvalue.
Variable JsonDeserializeValue : string -> sqlvalue -> result pyvalue.

Local Abbreviation stored := (stored_value HasDataType JsonSerializeValue).
Local Abbreviation serialized :=
  (serialized_value HasDataType JsonSerializeValue).

(** What a well typed attribute is serialized to, bound to and read
    back as. *)
Lemma well_typed_item schema attrs name data_type :
  well_typed HasDataType schema attrs ->
  schema !! name = Some data_type ->
  SerializeValue HasDataType JsonSerializeValue data_type (attrs !! name)
  = Return (serialized attrs (name, data_type))
  /\ bind_parameter (serialized attrs (name, data_type))
     = Return (stored attrs (name, data_type))
  /\ match attrs !! name with
     | None => stored attrs (name, data_type) = None
     | Some v =>
         exists sv,
           stored attrs (name, data_type) = Some sv
           /\ DeserializeValue HasDataType JsonDeserializeValue data_type
                (Some sv) = Return (Some v)
     end.
Proof.
  intros Htyped Hschema. destruct (Htyped name data_type Hschema) as [Hdt Hv].
  unfold stored_value, serialized_value. simpl.
  destruct (attrs !! name) as [v|] eqn:Hattr.
  - destruct (SchemaHelperProofs.value_round_trip HasDataType
                JsonSerializeValue JsonDeserializeValue data_type v Hdt
                (Hv v eq_refl)) as (s & sv & Hs & Hb & Hd).
    rewrite Hs, Hb. split; [done|]. split; [done|]. by exists sv.
  - assert (SerializeValue HasDataType JsonSerializeValue data_type None
            = Return None) as ->
      by (unfold SerializeValue; by rewrite Hdt).
    done.
Qed.

Lemma serialize_attributes_well_typed ty schema attrs w :
  well_typed HasDataType schema attrs ->
  serialize_attributes HasDataType JsonSerializeValue ty attrs schema w
  = (w, Return (serialized attrs <$> sorted_items schema)).
Proof.
  intros Htyped. unfold serialize_attributes. apply for_each_pure.
  intros [name data_type] Hin. apply elem_of_sorted_items in Hin.
  destruct (well_typed_item schema attrs name data_type Htyped Hin)
    as (Hs & _).
  unfold try_except, lift. by rewrite Hs.
Qed.

Lemma bind_parameters_well_typed schema attrs
    (items : list (string * string)) :
  well_typed HasDataType schema attrs ->
  (forall item, item ∈ items -> schema !! item.1 = Some item.2) ->
  bind_parameters (serialized attrs <$> items)
  = Return (stored attrs <$> items).
Proof.
  intros Htyped. induction items as [|[name data_type] items IH];
    intros Hitems; [done|].
  rewrite !fmap_cons. cbn [bind_parameters].
  destruct (well_typed_item schema attrs name data_type Htyped)
    as (_ & Hb & _).
  { apply (Hitems (name, data_type)). apply elem_of_cons. by left. }
  rewrite Hb, IH; [done|].
  intros item Hin. apply Hitems. apply elem_of_cons. by right.
Qed.

(** *** The row of a container *)

Lemma row_of_cons name names value values :
  row_of (name :: names) (value :: values)
  = match value with
    | Some v => <[name := v]> (row_of names values)
    | None => row_of names values
    end.
Proof. unfold row_of. simpl. by destruct value. Qed.

Lemma row_of_lookup_notin name names values :
  name ∉ names -> row_of names values !! name = None.
Proof.
  revert values. induction names as [|n names IH]; intros values Hnotin.
  - unfold row_of. by destruct values.
  - apply not_elem_of_cons in Hnotin as [Hne Hnotin].
    destruct values as [|value values]; [done|].
    rewrite row_of_cons. destruct value; [rewrite lookup_insert_ne by done|];
      by apply IH.
Qed.

Lemma row_of_lookup (g : string * string -> option sqlvalue)
    (items : list (string * string)) name data_type :
  NoDup items.*1 ->
  (name, data_type) ∈ items ->
  row_of items.*1 (g <$> items) !! name = g (name, data_type).
Proof.
  induction items as [|[n dt] items IH]; intros Hnodup Hin.
  - by apply elem_of_nil in Hin.
  - simpl in Hnodup. apply NoDup_cons in Hnodup as [Hnotin Hnodup].
    rewrite !fmap_cons. rewrite row_of_cons.
    apply elem_of_cons in Hin as [[= -> ->]|Hin].
    + destruct (g (n, dt)) as [v|] eqn:E; simpl fst.
      * by rewrite lookup_insert_eq.
      * by apply row_of_lookup_notin.
    + assert (name <> n) as Hne.
      { intros ->. apply Hnotin. apply list_elem_of_fmap.
        by exists (n, data_type). }
      simpl fst. destruct (g (n, dt)); [rewrite lookup_insert_ne by done|];
        by apply IH.
Qed.

(** *** The attributes read back *)

Lemma read_attributes_lookup attrs acc names k :
  read_attributes attrs acc names !! k
  = match (if decide (k ∈ names) then attrs !! k else None) with
    | Some v => Some v
    | None => acc !! k
    end.
Proof.
  revert acc. induction names as [|name names IH]; intros acc;
    unfold read_attributes in *; cbn [foldl].
  - by rewrite decide_False by apply not_elem_of_nil.
  - rewrite IH.
    destruct (decide (k ∈ names)) as [Hin|Hnotin].
    + rewrite decide_True by (apply elem_of_cons; by right).
      destruct (attrs !! k) as [v|] eqn:Hk; [done|].
      destruct (attrs !! name) as [v'|] eqn:Hname; [|done].
      rewrite lookup_insert_ne; [done|]. intros ->. congruence.
    + destruct (decide (k = name)) as [->|Hne].
      * rewrite decide_True by (apply elem_of_cons; by left).
        destruct (attrs !! name) as [v|]; [by rewrite lookup_insert_eq|done].
      * rewrite decide_False
          by (intros [?|?]%elem_of_cons; done).
        destruct (attrs !! name) as [v|]; [by rewrite lookup_insert_ne|done].
Qed.

Lemma read_attributes_schema schema attrs :
  read_attributes attrs ∅ (sorted_items schema).*1
  = schema_attributes schema attrs.
Proof.
  apply map_eq. intros k. rewrite read_attributes_lookup, lookup_empty.
  unfold schema_attributes. rewrite map_lookup_filter.
  destruct (decide (k ∈ (sorted_items schema).*1)) as [Hin|Hnotin].
  - apply list_elem_of_fmap in Hin as ([n dt] & -> & Hin).
    apply elem_of_sorted_items in Hin. simpl.
    destruct (attrs !! n) as [v|]; simpl; [|done].
    rewrite option_guard_True by (simpl; eauto). done.
  - destruct (attrs !! k) as [v|]; simpl; [|done].
    rewrite option_guard_False; [done|]. simpl. intros [dt Hdt].
    apply Hnotin. apply list_elem_of_fmap. exists (k, dt).
    split; [done|]. by apply elem_of_sorted_items.
Qed.

(** *** A container made from a row *)

Lemma read_loop (schema : gmap string string) (attrs : gmap string pyvalue)
    (ty : string) (row_map : gmap string sqlvalue)
    (row : list (option sqlvalue)) (ref : objref) cls id
    (pairs : list (nat * string)) (acc : gmap string pyvalue) (w : world) :
  well_typed HasDataType schema attrs ->
  (forall name data_type,
      schema !! name = Some data_type ->
      row_map !! name = stored attrs (name, data_type)) ->
  (forall i name, (i, name) ∈ pairs ->
      is_Some (schema !! name) /\ row !! (0 + i)%nat = Some (row_map !! name)) ->
  objects w !! ref = Some (mkContainer cls acc id) ->
  exists l,
    for_each pairs
      (fun '(column_index, name) =>
         match row !! (0 + column_index)%nat with
         | None => raise IndexError
         | Some None => ret tt
         | Some (Some row_value) =>
             match schema !! name with
             | None => raise (KeyError name)
             | Some data_type =>
                 let* attribute_value :=
                   try_except
                     (lift (DeserializeValue HasDataType JsonDeserializeValue
                              data_type (Some row_value)))
                     (fun e =>
                        match e with
                        | IOError _ =>
                            Some (raise (IOError (UnsupportedAttribute
                                           ty name data_type)))
                        | _ => None
                        end) in
                 setattr ref name attribute_value
             end
         end) w
    = (mkWorld (files w) (classes w)
         (<[ref := mkContainer cls (read_attributes attrs acc pairs.*2) id]>
            (objects w))
         (self w), Return l).
Proof.
  intros Htyped Hrow. revert acc w.
  match goal with |- context [for_each _ ?b] => set (body := b) end.
  induction pairs as [|[i name] pairs IH]; intros acc w Hpairs Href.
  - exists []. simpl. unfold ret. rewrite list_insert_id by done.
    by destruct w.
  - destruct (Hpairs i name ltac:(apply elem_of_cons; by left))
      as [[data_type Hdt] Hi].
    assert (forall i' name', (i', name') ∈ pairs ->
               is_Some (schema !! name')
               /\ row !! (0 + i')%nat = Some (row_map !! name')) as Hpairs'
      by (intros i' name' Hin; apply Hpairs; apply elem_of_cons; by right).
    destruct (well_typed_item schema attrs name data_type Htyped Hdt)
      as (_ & _ & Hback).
    cbn [for_each]. rewrite fmap_cons. cbn [snd].
    unfold read_attributes. cbn [foldl]. fold (read_attributes attrs).
    unfold bind at 1. unfold body at 1. cbv beta iota.
    rewrite Hi, (Hrow name data_type Hdt).
    destruct (attrs !! name) as [v|] eqn:Hattr.
    + destruct Hback as (sv & -> & Hdes). rewrite Hdt.
      unfold bind at 1. unfold try_except, lift. rewrite Hdes.
      unfold setattr. rewrite Href. cbn [attributes class_of _identifier].
      set (w1 := mkWorld (files w) (classes w) _ (self w)).
      assert (objects w1 !! ref
              = Some (mkContainer cls (<[name := v]> acc) id)) as Href1.
      { subst w1. simpl. apply list_lookup_insert_eq.
        by eapply lookup_lt_Some. }
      destruct (IH (<[name := v]> acc) w1 Hpairs' Href1) as (l & Hl).
      exists (tt :: l). rewrite (StoreProofs.bind_Return _ _ _ _ _ Hl).
      unfold ret. subst w1. simpl.
      by rewrite list_insert_insert_eq.
    + rewrite Hback. unfold ret at 1.
      destruct (IH acc w Hpairs' Href) as (l & Hl).
      exists (tt :: l). by rewrite (StoreProofs.bind_Return _ _ _ _ _ Hl).
Qed.

Lemma zip_seq_lookup {A} (l : list A) (i : nat) (x : A) :
  (i, x) ∈ zip (seq 0 (length l)) l -> l !! i = Some x.
Proof.
  intros Hin. apply list_elem_of_lookup in Hin as [j Hj].
  apply lookup_zip_with_Some in Hj as (i' & x' & [= -> ->] & Hseq & Hl).
  apply lookup_seq in Hseq as [-> _]. done.
Qed.

Lemma _CreatetAttributeContainerFromRow_spec ty cls schema attrs
    (row_map : gmap string sqlvalue) w :
  classes w !! ty = Some cls ->
  default ∅ (SCHEMA cls) = schema ->
  schema <> ∅ ->
  well_typed HasDataType schema attrs ->
  (forall name data_type,
      schema !! name = Some data_type ->
      row_map !! name = stored attrs (name, data_type)) ->
  _CreatetAttributeContainerFromRow HasDataType JsonDeserializeValue ty
    (sorted_items schema).*1
    ((fun c => row_map !! c) <$> (sorted_items schema).*1) 0 w
  = (mkWorld (files w) (classes w)
       (objects w
        ++ [mkContainer cls (schema_attributes schema attrs)
              (init (Some (CONTAINER_TYPE cls))
                 (Some (object_id (length (objects w)))))])
       (self w), Return (length (objects w))).
Proof.
  intros Hcls Hschema Hne Htyped Hrow.
  unfold _CreatetAttributeContainerFromRow.
  assert (_GetAttributeContainerSchema ty w = (w, Return schema)) as Hs.
  { unfold _GetAttributeContainerSchema, bind, get_classes, GetSchema.
    by rewrite Hcls, Hschema. }
  rewrite (StoreProofs.bind_Return _ _ _ _ _ Hs).
  assert (is_empty_schema schema = false) as ->
    by (by apply bool_decide_eq_false_2).
  unfold bind at 1. unfold get_classes at 1. cbv beta iota.
  unfold bind at 1. unfold lift at 1, CreateAttributeContainer.
  rewrite Hcls. cbv beta iota.
  unfold bind at 1. unfold new_container at 1. cbv beta iota zeta.
  set (ref := length (objects w)).
  set (id := init (Some (CONTAINER_TYPE cls)) (Some (object_id ref))).
  set (w1 := mkWorld (files w) (classes w)
               (objects w ++ [mkContainer cls ∅ id]) (self w)).
  destruct (read_loop schema attrs ty row_map
              ((fun c => row_map !! c) <$> (sorted_items schema).*1)
              ref cls id
              (zip (seq 0 (length (sorted_items schema).*1))
                 (sorted_items schema).*1) ∅ w1 Htyped Hrow)
    as (l & Hloop).
  - intros i name Hin. apply zip_seq_lookup in Hin. split.
    + apply list_elem_of_lookup_2 in Hin.
      apply list_elem_of_fmap in Hin as ([n dt] & -> & Hin).
      apply elem_of_sorted_items in Hin. eauto.
    + simpl. by rewrite list_lookup_fmap, Hin.
  - subst w1. simpl. by apply list_lookup_middle.
  - rewrite (StoreProofs.bind_Return _ _ _ _ _ Hloop).
    unfold ret. f_equal. subst w1. simpl. f_equal.
    rewrite snd_zip by (by rewrite length_seq).
    rewrite read_attributes_schema.
    rewrite insert_app_r_alt by done.
    by rewrite Nat.sub_diag.
Qed.

(** *** The row that waits is written and read *)

Lemma sql_insert_one_row ty cols values bound conn t :
  tables (conn_db conn) !! ty = Some t ->
  cols <> [] ->
  has_columns t cols = true ->
  length values = length cols ->
  length bound = length cols ->
  bind_parameters values = Return bound ->
  conn_read_only conn = false ->
  sql_insert ty cols 1 values conn
  = Return (with_tables (conn_db conn)
              (<[ty := mkTable (columns t) (rows t ++ [row_of cols bound])]>
                 (tables (conn_db conn))), tt).
Proof.
  intros Ht Hcols Hhas Hlen Hlen' Hbound Hro. unfold sql_insert.
  rewrite Ht, Hhas, Hbound, Hro.
  rewrite (bool_decide_eq_false_2 _ Hcols). simpl.
  rewrite Nat.add_0_r, Hlen, Nat.eqb_refl. simpl.
  rewrite take_ge by lia. done.
Qed.

Lemma _CommitWriteCache_one_row ty cols values bound w conn t :
  _write_cache (self w) !! ty = Some [ColumnNames cols; RowValues values] ->
  _connection (self w) = Some conn ->
  tables (conn_db conn) !! ty = Some t ->
  cols <> [] ->
  has_columns t cols = true ->
  length values = length cols ->
  length bound = length cols ->
  bind_parameters values = Return bound ->
  conn_read_only conn = false ->
  exists w' conn',
    _CommitWriteCache ty w = (w', Return tt)
    /\ _connection (self w') = Some conn'
    /\ conn_read_only conn' = false
    /\ conn_db conn'
       = with_tables (conn_db conn)
           (<[ty := mkTable (columns t) (rows t ++ [row_of cols bound])]>
              (tables (conn_db conn)))
    /\ _attribute_container_sequence_numbers (self w')
       = _attribute_container_sequence_numbers (self w)
    /\ classes w' = classes w
    /\ objects w' = objects w.
Proof.
  intros Hwc Hconn Ht Hcols Hhas Hlen Hlen' Hbound Hro.
  pose proof (sql_insert_one_row ty cols values bound conn t Ht Hcols Hhas
                Hlen Hlen' Hbound Hro) as Hins.
  unfold _CommitWriteCache. unfold bind at 1. unfold get_self at 1.
  cbv beta iota zeta. rewrite Hwc.
  change (default [] (Some [ColumnNames cols; RowValues values]))
    with [ColumnNames cols; RowValues values].
  cbn [length Nat.ltb Nat.leb]. cbv iota.
  set (w0 := with_self w
               (set_write_cache (<[ty := [RowValues values]]>
                                   (_write_cache (self w))) (self w))).
  assert (_connection (self w0) = Some conn) as Hconn0 by done.
  assert (_FlushWriteCache ty [ColumnNames cols; RowValues values] true w
          = try_except
              (execute (INSERT_INTO ty cols 1) (sql_insert ty cols 1 values))
              unable_to_query w0) as Hflush.
  { unfold _FlushWriteCache, bind, modify_self, ret. cbv beta iota.
    cbn [fmap list_fmap item_values concat length]. by rewrite app_nil_r. }
  rewrite (try_execute_eq _ _ w0 conn _ _ Hconn0 Hins) in Hflush.
  rewrite (StoreProofs.bind_Return _ _ _ _ _ Hflush).
  unfold modify_self. cbv beta iota.
  eexists _, _. split; [reflexivity|]. simpl. done.
Qed.

Lemma sql_select_row_last ty cols conn t row :
  tables (conn_db conn) !! ty = Some (mkTable (columns t) (rows t ++ [row])) ->
  cols <> [] ->
  has_columns t cols = true ->
  sql_select_row ty cols (Z.of_nat (length (rows t)) + 1) conn
  = Return (conn_db conn, Some ((fun n => row !! n) <$> cols)).
Proof.
  intros Ht Hcols Hhas. unfold sql_select_row. rewrite Ht.
  rewrite (bool_decide_eq_false_2 _ Hcols).
  change (has_columns (mkTable (columns t) (rows t ++ [row])) cols)
    with (has_columns t cols).
  rewrite Hhas. cbn [negb orb]. cbv iota.
  replace (1 <=? Z.of_nat (length (rows t)) + 1)%Z with true
    by (symmetry; apply Z.leb_le; lia).
  replace (Z.to_nat (Z.of_nat (length (rows t)) + 1 - 1))
    with (length (rows t)) by lia.
  cbn [rows]. by rewrite list_lookup_middle.
Qed.

(** A type whose one pending row follows the rows of its table: the read of
    the index after the last stored row writes the row and makes a new
    container of it. *)
Lemma read_pending_row ty cls schema attrs w conn t :
  od_get (lookup_key_of ty (Z.of_nat (length (rows t))))
    (_attribute_container_cache (self w)) = None ->
  _write_cache (self w) !! ty
  = Some [ColumnNames (sorted_items schema).*1;
          RowValues (serialized attrs <$> sorted_items schema)] ->
  _connection (self w) = Some conn ->
  conn_read_only conn = false ->
  tables (conn_db conn) !! ty = Some t ->
  has_columns t (sorted_items schema).*1 = true ->
  sequence_number_of (self w) ty = (Z.of_nat (length (rows t)) + 1)%Z ->
  classes w !! ty = Some cls ->
  default ∅ (SCHEMA cls) = schema ->
  schema <> ∅ ->
  well_typed HasDataType schema attrs ->
  exists w',
    GetAttributeContainerByIndex HasDataType JsonDeserializeValue ty
      (Z.of_nat (length (rows t))) w
    = (w', Return (Some (length (objects w))))
    /\ objects w'
       = (objects w
          ++ [mkContainer cls (schema_attributes schema attrs)
                (init (Some ty) (Some (Z.of_nat (length (rows t)) + 1)%Z))])%list
    /\ stored_rows w' ty
       = (rows t
          ++ [row_of (sorted_items schema).*1
                (stored attrs <$> sorted_items schema)])%list.
Proof.
  intros Hcache Hwc Hconn Hro Ht Hhas Hseq Hcls Hschema Hne Htyped.
  set (items := sorted_items schema) in *.
  assert (items.*1 <> []) as Hcols.
  { intros Hnil. apply (sorted_items_nonempty schema Hne).
    fold items. by destruct items. }
  destruct (_CommitWriteCache_one_row ty items.*1 (serialized attrs <$> items)
              (stored attrs <$> items) w conn t Hwc Hconn Ht Hcols Hhas)
    as (w1 & conn1 & Hcommit & Hconn1 & Hro1 & Hdb1 & Hseq1 & Hcls1 & Hobj1).
  { by rewrite !length_fmap. }
  { by rewrite !length_fmap. }
  { apply (bind_parameters_well_typed schema); [done|].
    intros [name data_type] Hin. by apply elem_of_sorted_items. }
  { done. }
  unfold GetAttributeContainerByIndex.
  assert (_GetCachedAttributeContainer ty (Z.of_nat (length (rows t))) w
          = (w, Return None)) as Hmiss.
  { unfold _GetCachedAttributeContainer, bind, get_self. cbv beta iota zeta.
    by rewrite Hcache. }
  rewrite (StoreProofs.bind_Return _ _ _ _ _ Hmiss).
  rewrite (StoreProofs.bind_Return _ _ _ _ _ Hcommit).
  unfold bind at 1. unfold get_self at 1. cbv beta iota.
  unfold sequence_number_of at 1. rewrite Hseq1.
  fold (sequence_number_of (self w) ty). rewrite Hseq.
  replace (Z.of_nat (length (rows t)) + 1 =? 0)%Z with false
    by (symmetry; apply Z.eqb_neq; lia).
  assert (_GetAttributeContainerSchema ty w1 = (w1, Return schema)) as Hs.
  { unfold _GetAttributeContainerSchema, bind, get_classes, GetSchema.
    by rewrite Hcls1, Hcls, Hschema. }
  rewrite (StoreProofs.bind_Return _ _ _ _ _ Hs).
  assert (is_empty_schema schema = false) as ->
    by (by apply bool_decide_eq_false_2).
  cbv zeta. fold items.
  set (row := row_of items.*1 (stored attrs <$> items)) in *.
  assert (sql_select_row ty items.*1 (Z.of_nat (length (rows t)) + 1) conn1
          = Return (conn_db conn1, Some ((fun n => row !! n) <$> items.*1)))
    as Hselect.
  { apply (sql_select_row_last ty items.*1 conn1 t row); [|done..].
    rewrite Hdb1. simpl. by rewrite lookup_insert_eq. }
  rewrite (StoreProofs.bind_Return _ _ _ _ _
             (try_execute_eq _ _ w1 conn1 _ _ Hconn1 Hselect)).
  set (w2 := with_self w1 _).
  assert (classes w2 !! ty = Some cls) as Hcls2
    by (subst w2; simpl; by rewrite Hcls1).
  assert (forall name data_type,
             schema !! name = Some data_type ->
             row !! name = stored attrs (name, data_type)) as Hrow.
  { intros name data_type Hin. subst row.
    apply (row_of_lookup (stored attrs)).
    - apply NoDup_sorted_items.
    - by apply elem_of_sorted_items. }
  pose proof (_CreatetAttributeContainerFromRow_spec ty cls schema attrs row
                w2 Hcls2 Hschema Hne Htyped Hrow) as Hmake.
  fold items in Hmake. rewrite (StoreProofs.bind_Return _ _ _ _ _ Hmake).
  set (o := length (objects w2)) in *.
  set (c := mkContainer cls (schema_attributes schema attrs) _) in *.
  set (w3 := mkWorld (files w2) (classes w2) (objects w2 ++ [c]) (self w2))
    in *.
  set (id := init (Some ty) (Some (Z.of_nat (length (rows t)) + 1)%Z)).
  set (c' := mkContainer cls (schema_attributes schema attrs) id).
  assert (SetIdentifier o id w3
          = (mkWorld (files w2) (classes w2) (objects w2 ++ [c']) (self w2),
             Return tt)) as Hset.
  { unfold SetIdentifier. subst w3. cbn [objects files classes self].
    rewrite list_lookup_middle by done. subst c. cbn [class_of attributes].
    rewrite insert_app_r_alt by done. subst o. by rewrite Nat.sub_diag. }
  rewrite (StoreProofs.bind_Return _ _ _ _ _ Hset).
  set (w4 := mkWorld (files w2) (classes w2) (objects w2 ++ [c']) (self w2)).
  destruct (_CacheAttributeContainerByIndex_spec o
              (Z.of_nat (length (rows t))) w4 c') as (cache & Hcached & _).
  { subst w4. cbn [objects]. by apply list_lookup_middle. }
  rewrite (StoreProofs.bind_Return _ _ _ _ _ Hcached).
  eexists. split; [|split].
  - unfold ret. subst o w2. simpl. rewrite Hobj1. reflexivity.
  - subst w4 w2. simpl. by rewrite Hobj1.
  - unfold stored_rows, database_of. subst w4 w2. simpl.
    rewrite Hdb1. simpl. by rewrite lookup_insert_eq.
Qed.

(** *** The row of a new container waits *)

Lemma has_columns_created (items : list (string * string)) rows0 :
  has_columns
    (mkTable
       (("_identifier", "INTEGER PRIMARY KEY AUTOINCREMENT")
        :: ((fun nd : string * string => (nd.1, GetStorageDataType nd.2))
              <$> items)) rows0)
    items.*1 = true.
Proof.
  unfold has_columns. apply forallb_forall. intros name Hin.
  apply bool_decide_eq_true_2. cbn [columns]. rewrite fmap_cons.
  apply elem_of_cons. right. rewrite <- list_fmap_compose.
  apply list_elem_of_In in Hin.
  apply list_elem_of_fmap in Hin as (item & -> & Hin).
  apply list_elem_of_fmap. by exists item.
Qed.

Lemma with_self_connection w conn :
  _connection (self w) = Some conn ->
  with_self w (set_connection (Some conn) (self w)) = w.
Proof.
  destruct w as [f cs os s]. destruct s. simpl. by intros ->.
Qed.

(** The table of the type is there when the row is handed to the write
    cache: it was there, or it is made with the columns of the schema. *)
Lemma table_check_fresh ty cls schema (next : Z) w conn :
  plain_name ty = true ->
  _connection (self w) = Some conn ->
  conn_read_only conn = false ->
  classes w !! ty = Some cls ->
  default ∅ (SCHEMA cls) = schema ->
  schema <> ∅ ->
  (forall t, tables (conn_db conn) !! ty = Some t ->
             has_columns t (sorted_items schema).*1 = true) ->
  (next <> 1%Z -> is_Some (tables (conn_db conn) !! ty)) ->
  exists conn1 t,
    (if (next =? 1)%Z
     then
       let* has_table := _HasTable ty in
       if negb has_table then _CreateAttributeContainerTable ty else ret tt
     else ret tt) w
    = (with_self w (set_connection (Some conn1) (self w)), Return tt)
    /\ conn_read_only conn1 = false
    /\ tables (conn_db conn1) !! ty = Some t
    /\ has_columns t (sorted_items schema).*1 = true
    /\ rows t = default [] (rows <$> tables (conn_db conn) !! ty).
Proof.
  intros Hplain Hconn Hro Hcls Hschema Hne Hcols Htable.
  destruct (next =? 1)%Z eqn:Hnext.
  - assert (sql_has_table ty conn
            = Return (conn_db conn, table_exists (conn_db conn) ty)) as Hhas
      by (unfold sql_has_table; by rewrite StoreProofs.has_table_plain).
    unfold _HasTable.
    rewrite (StoreProofs.bind_Return _ _ _ _ _
               (try_execute_eq _ _ w conn _ _ Hconn Hhas)).
    set (conn0 := mkConnection _ _ _ _).
    set (w0 := with_self w _).
    unfold table_exists.
    destruct (tables (conn_db conn) !! ty) as [t|] eqn:Ht.
    + rewrite bool_decide_eq_true_2 by eauto. cbn [negb]. cbv iota.
      exists conn0, t. split; [done|]. split; [done|]. split; [done|].
      split; [by apply Hcols|done].
    + rewrite bool_decide_eq_false_2 by (by intros [? ?]).
      cbn [negb]. cbv iota.
      unfold _CreateAttributeContainerTable.
      assert (_GetAttributeContainerSchema ty w0 = (w0, Return schema)) as Hs.
      { unfold _GetAttributeContainerSchema, bind, get_classes, GetSchema.
        subst w0. cbn [classes with_self]. by rewrite Hcls, Hschema. }
      rewrite (StoreProofs.bind_Return _ _ _ _ _ Hs).
      assert (is_empty_schema schema = false) as ->
        by (by apply bool_decide_eq_false_2).
      cbv zeta.
      set (definitions := (_ :: (_ <$> sorted_items schema))).
      assert (_connection (self w0) = Some conn0) as Hconn0 by done.
      assert (sql_create_table ty definitions conn0
              = Return (with_tables (conn_db conn0)
                          (<[ty := mkTable definitions []]>
                             (tables (conn_db conn0))), tt)) as Hcreate.
      { unfold sql_create_table, table_exists. subst conn0.
        cbn [conn_db conn_read_only]. rewrite Ht, Hro.
        by rewrite bool_decide_eq_false_2 by (by intros [? ?]). }
      rewrite (try_execute_eq _ _ w0 conn0 _ _ Hconn0 Hcreate).
      eexists _, _. split; [reflexivity|]. cbn [conn_read_only conn_db].
      split; [done|]. split; [apply lookup_insert_eq|].
      split; [apply has_columns_created|done].
  - destruct Htable as [t Ht]; [by apply Z.eqb_neq|].
    exists conn, t. rewrite (with_self_connection w conn Hconn).
    split; [done|]. split; [done|]. split; [done|].
    split; [by apply Hcols|]. by rewrite Ht.
Qed.

Lemma _CacheAttributeContainerForWrite_fresh ty cols values w :
  _write_cache (self w) !! ty = None ->
  _CacheAttributeContainerForWrite ty cols values w
  = (with_self w
       (set_write_cache
          (<[ty := [ColumnNames cols; RowValues values]]>
             (_write_cache (self w))) (self w)), Return tt).
Proof.
  intros Hnone. unfold _CacheAttributeContainerForWrite.
  unfold bind at 1. unfold get_self at 1. cbv beta iota zeta.
  rewrite Hnone.
  rewrite bool_decide_eq_false_2 by (by intros [? ?]).
  cbn [default app length]. 
  unfold bind, ret, modify_self. reflexivity.
Qed.

Local Abbreviation Add :=
  (AddAttributeContainer HasDataType JsonSerializeValue).

(** A container of a type with nothing waiting is added: its row waits
    behind the column names, and the table of the type is there. *)
Lemma AddAttributeContainer_fresh o c schema w conn :
  plain_name (CONTAINER_TYPE (class_of c)) = true ->
  _is_open (self w) = true ->
  _read_only (self w) = false ->
  _connection (self w) = Some conn ->
  conn_read_only conn = false ->
  objects w !! o = Some c ->
  classes w !! CONTAINER_TYPE (class_of c) = Some (class_of c) ->
  default ∅ (SCHEMA (class_of c)) = schema ->
  schema <> ∅ ->
  well_typed HasDataType schema (attributes c) ->
  _write_cache (self w) !! CONTAINER_TYPE (class_of c) = None ->
  sequence_number_of (self w) (CONTAINER_TYPE (class_of c))
  = Z.of_nat (length (stored_rows w (CONTAINER_TYPE (class_of c)))) ->
  (forall t, tables (conn_db conn) !! CONTAINER_TYPE (class_of c) = Some t ->
             has_columns t (sorted_items schema).*1 = true) ->
  exists w1 conn1 t,
    Add o w = (w1, Return tt)
    /\ _write_cache (self w1) !! CONTAINER_TYPE (class_of c)
       = Some [ColumnNames (sorted_items schema).*1;
               RowValues (serialized (attributes c) <$> sorted_items schema)]
    /\ _connection (self w1) = Some conn1
    /\ conn_read_only conn1 = false
    /\ tables (conn_db conn1) !! CONTAINER_TYPE (class_of c) = Some t
    /\ has_columns t (sorted_items schema).*1 = true
    /\ rows t = stored_rows w (CONTAINER_TYPE (class_of c))
    /\ sequence_number_of (self w1) (CONTAINER_TYPE (class_of c))
       = (Z.of_nat (length (rows t)) + 1)%Z
    /\ classes w1 = classes w
    /\ objects w1
       = <[o := mkContainer (class_of c) (attributes c)
                  (init (Some (CONTAINER_TYPE (class_of c)))
                     (Some (Z.of_nat (length (rows t)) + 1)%Z))]>
           (objects w).
Proof.
  set (ty := CONTAINER_TYPE (class_of c)).
  intros Hplain Hopen Hwritable Hconn Hro Ho Hcls Hschema Hne Htyped Hwc Hseq
    Hcols.
  assert (stored_rows w ty = default [] (rows <$> tables (conn_db conn) !! ty))
    as Hstored.
  { unfold stored_rows, database_of. by rewrite Hconn. }
  unfold AddAttributeContainer.
  assert (_RaiseIfNotWritable w = (w, Return tt)) as Hw.
  { unfold _RaiseIfNotWritable, bind, get_self. cbv beta iota.
    by rewrite Hopen, Hwritable. }
  rewrite (StoreProofs.bind_Return _ _ _ _ _ Hw).
  unfold _WriteNewAttributeContainer.
  assert (get_object o w = (w, Return c)) as Hget
    by (unfold get_object; by rewrite Ho).
  rewrite (StoreProofs.bind_Return _ _ _ _ _ Hget).
  cbv zeta. fold ty.
  set (n := (sequence_number_of (self w) ty + 1)%Z).
  set (w0 := with_self w
               (set_sequence_numbers
                  (<[ty := n]> (_attribute_container_sequence_numbers (self w)))
                  (self w))).
  assert (_GetAttributeContainerNextSequenceNumber ty w = (w0, Return n))
    as Hnext by done.
  rewrite (StoreProofs.bind_Return _ _ _ _ _ Hnext).
  assert (_connection (self w0) = Some conn) as Hconn0 by done.
  assert (classes w0 !! ty = Some (class_of c)) as Hcls0 by done.
  destruct (table_check_fresh ty (class_of c) schema n w0 conn Hplain Hconn0
              Hro Hcls0 Hschema Hne Hcols)
    as (conn1 & t & Hcheck & Hro1 & Ht & Hhas & Hrows).
  { intros Hn. destruct (tables (conn_db conn) !! ty) as [t|] eqn:Ht; [eauto|].
    exfalso. apply Hn. subst n. rewrite Hseq, Hstored. simpl. lia. }
  rewrite (StoreProofs.bind_Return _ _ _ _ _ Hcheck).
  rewrite <- Hstored in Hrows.
  assert (n = (Z.of_nat (length (rows t)) + 1)%Z) as Hn
    by (subst n; by rewrite Hseq, Hrows).
  set (w1 := with_self w0 _).
  set (c1 := mkContainer (class_of c) (attributes c)
               (init (Some ty) (Some n))).
  set (w2 := mkWorld (files w1) (classes w1) (<[o := c1]> (objects w1))
               (self w1)).
  assert (SetIdentifier o (init (Some ty) (Some n)) w1 = (w2, Return tt))
    as Hset.
  { unfold SetIdentifier. subst w1 w0. cbn [objects with_self]. by rewrite Ho. }
  rewrite (StoreProofs.bind_Return _ _ _ _ _ Hset).
  assert (_GetAttributeContainerSchema ty w2 = (w2, Return schema)) as Hs.
  { unfold _GetAttributeContainerSchema, bind, get_classes, GetSchema.
    subst w2 w1 w0. cbn [classes with_self]. by rewrite Hcls, Hschema. }
  rewrite (StoreProofs.bind_Return _ _ _ _ _ Hs).
  assert (is_empty_schema schema = false) as ->
    by (by apply bool_decide_eq_false_2).
  rewrite (StoreProofs.bind_Return _ _ _ _ _
             (serialize_attributes_well_typed ty schema (attributes c) w2
                Htyped)).
  cbv zeta.
  assert (_write_cache (self w2) !! ty = None) as Hwc2 by done.
  rewrite (StoreProofs.bind_Return _ _ _ _ _
             (_CacheAttributeContainerForWrite_fresh ty _ _ w2 Hwc2)).
  set (w3 := with_self w2 _).
  destruct (_CacheAttributeContainerByIndex_spec o (n - 1) w3 c1)
    as (cache & Hcached & _).
  { subst w3 w2 w1 w0. cbn [objects with_self].
    apply list_lookup_insert_eq. by eapply lookup_lt_Some. }
  rewrite Hcached.
  exists (with_self w3 (set_cache cache (self w3))), conn1, t.
  split; [done|].
  subst w3 w2 w1 w0. simpl.
  split; [apply lookup_insert_eq|].
  split; [done|]. split; [done|]. split; [done|]. split; [done|].
  split; [done|].
  split; [unfold sequence_number_of; simpl; by rewrite lookup_insert_eq|].
  split; [done|]. subst c1. by rewrite Hn.
Qed.

Lemma check_well_typed_spec schema attrs :
  check_well_typed HasDataType schema attrs = true ->
  well_typed HasDataType schema attrs.
Proof.
  unfold check_well_typed. intros Hcheck name data_type Hin.
  apply elem_of_sorted_items, list_elem_of_In in Hin.
  rewrite forallb_forall in Hcheck. specialize (Hcheck _ Hin).
  cbn [fst snd] in Hcheck. apply andb_true_iff in Hcheck as [Hdt Hv].
  split; [done|]. intros v Hattr. by rewrite Hattr in Hv.
Qed.

(** A container that is added is read back from storage. On a store open
    for writing, take a new container of a registered class whose type and
    attribute names are plain names, whose schema is not empty, whose
    attributes of the schema have values of their data types that SQLite
    stores, and for whose type no row waits in the write cache, the
    counter of the type being the number of its stored rows; the table of
    the type, when there is one, is the table the store makes for the
    schema, and no table has the name of the type in another letter case.
    [AddAttributeContainer] returns and gives the container the identifier
    of the next sequence number. When the entry of that index is not in
    the read cache, the read by the index writes the waiting row to the
    table and returns a new object, not the one that was added: it has the
    class, the same identifier, and of the attributes of the added
    container exactly those the schema names, with their values; the
    attributes the schema does not name are not stored. The table of the
    type then holds one row more. *)
Theorem written_container_is_read_back_from_storage
    (container : objref) (cls : container_class)
    (attrs : gmap string pyvalue) (schema : gmap string string)
    (cache : list (string * objref)) (w : world) :
  _is_open (self w) = true ->
  _read_only (self w) = false ->
  conn_read_only <$> _connection (self w) = Some false ->
  class_of <$> objects w !! container = Some cls ->
  attributes <$> objects w !! container = Some attrs ->
  classes w !! CONTAINER_TYPE cls = Some cls ->
  plain_name (CONTAINER_TYPE cls) = true ->
  SCHEMA cls = Some schema ->
  is_empty_schema schema = false ->
  plain_schema schema = true ->
  well_typed HasDataType schema attrs ->
  _write_cache (self w) !! CONTAINER_TYPE cls = None ->
  sequence_number_of (self w) (CONTAINER_TYPE cls)
  = Z.of_nat (length (stored_rows w (CONTAINER_TYPE cls))) ->
  table_as_created w (CONTAINER_TYPE cls) schema = true ->
  no_other_case w (CONTAINER_TYPE cls) = true ->
  od_get (lookup_key_of (CONTAINER_TYPE cls)
            (sequence_number_of (self w) (CONTAINER_TYPE cls))) cache
  = None ->
  (Add container w).2 = Return tt
  /\ identifier_of (Add container w).1 container
     = Some (init (Some (CONTAINER_TYPE cls))
               (Some (sequence_number_of (self w) (CONTAINER_TYPE cls) + 1)%Z))
  /\ exists (w' : world) (container' : objref),
       GetAttributeContainerByIndex HasDataType JsonDeserializeValue
         (CONTAINER_TYPE cls)
         (sequence_number_of (self w) (CONTAINER_TYPE cls))
         (with_read_cache (Add container w).1 cache)
       = (w', Return (Some container'))
       /\ container' <> container
       /\ objects w' !! container'
          = Some (mkContainer cls (schema_attributes schema attrs)
                    (init (Some (CONTAINER_TYPE cls))
                       (Some (sequence_number_of (self w) (CONTAINER_TYPE cls)
                              + 1)%Z)))
       /\ length (stored_rows w' (CONTAINER_TYPE cls))
          = S (length (stored_rows w (CONTAINER_TYPE cls))).
Proof.
  intros Hopen Hwritable Hro Hclass Hattrs Hcls Hplain Hschema Hne _ Htyped
    Hwc Hseq Hcols _ Hcache.
  destruct (_connection (self w)) as [conn|] eqn:Hconn; [|done].
  injection Hro as Hro.
  destruct (objects w !! container) as [c|] eqn:Ho; [|done].
  injection Hclass as <-. injection Hattrs as <-.
  set (ty := CONTAINER_TYPE (class_of c)) in *.
  apply bool_decide_eq_false in Hne.
  assert (default ∅ (SCHEMA (class_of c)) = schema) as Hschema'
    by (by rewrite Hschema).
  destruct (AddAttributeContainer_fresh container c schema w conn Hplain
              Hopen Hwritable Hconn Hro Ho Hcls Hschema' Hne Htyped Hwc Hseq)
    as (w1 & conn1 & t & HAdd & Hwc1 & Hconn1 & Hro1 & Ht & Hhas & Hrows
        & Hseq1 & Hcls1 & Hobj1).
  { intros t Ht. unfold table_as_created, table_of, database_of in Hcols.
    rewrite Hconn in Hcols. simpl in Hcols. fold ty in Ht.
    rewrite Ht in Hcols. simpl in Hcols.
    apply bool_decide_eq_true in Hcols.
    destruct t as [cs rs]. simpl in Hcols. subst cs.
    apply has_columns_created. }
  fold ty in HAdd, Hwc1, Ht, Hrows, Hseq1.
  rewrite HAdd. cbn [fst snd]. split; [done|].
  rewrite Hseq, <- Hrows.
  split.
  { unfold identifier_of. rewrite Hobj1.
    rewrite list_lookup_insert_eq by (by eapply lookup_lt_Some). done. }
  rewrite Hseq, <- Hrows in Hcache.
  destruct (read_pending_row ty (class_of c) schema (attributes c)
              (with_read_cache w1 cache) conn1 t)
    as (w2 & Hread & Hobj2 & Hstored2); try done.
  { by rewrite <- Hcls1 in Hcls. }
  exists w2, (length (objects (with_read_cache w1 cache))).
  split; [exact Hread|].
  assert (length (objects (with_read_cache w1 cache)) = length (objects w))
    as Hlen.
  { cbn [with_read_cache with_self objects]. rewrite Hobj1.
    apply length_insert. }
  split.
  { rewrite Hlen. apply lookup_lt_Some in Ho. lia. }
  split.
  { rewrite Hobj2. by apply list_lookup_middle. }
  rewrite Hstored2, length_app. simpl. lia.
Qed.

End RoundTrip.

Local Abbreviation note_attributes :=
  (<["note" := PyStr "n"]> (event_attributes 1 "x")).

Local Abbreviation added_note_world :=
  (AddAttributeContainer standard_data_types no_json_serializer 0%nat
     event_with_note_world).1.

Lemma written_container_is_read_back_from_storage_witness :
  (AddAttributeContainer standard_data_types no_json_serializer 0%nat
     event_with_note_world).2 = Return tt
  /\ identifier_of added_note_world 0%nat
     = Some (init (Some (CONTAINER_TYPE event_class))
               (Some (sequence_number_of (self event_with_note_world)
                        (CONTAINER_TYPE event_class) + 1)%Z))
  /\ exists (w' : world) (container' : objref),
       GetAttributeContainerByIndex standard_data_types no_json_deserializer
         (CONTAINER_TYPE event_class)
         (sequence_number_of (self event_with_note_world)
            (CONTAINER_TYPE event_class))
         (with_read_cache added_note_world [])
       = (w', Return (Some container'))
       /\ container' <> 0%nat
       /\ objects w' !! container'
          = Some (mkContainer event_class
                    (schema_attributes
                       (list_to_map [("a", "int"); ("b", "str")])
                       note_attributes)
                    (init (Some (CONTAINER_TYPE event_class))
                       (Some (sequence_number_of (self event_with_note_world)
                                (CONTAINER_TYPE event_class) + 1)%Z)))
       /\ length (stored_rows w' (CONTAINER_TYPE event_class))
          = S (length (stored_rows event_with_note_world
                         (CONTAINER_TYPE event_class))).
Proof.
  apply (written_container_is_read_back_from_storage standard_data_types
           no_json_serializer no_json_deserializer 0%nat event_class
           note_attributes (list_to_map [("a", "int"); ("b", "str")]) []
           event_with_note_world).
  11: { apply check_well_typed_spec. vm_compute. reflexivity. }
  all: vm_compute; reflexivity.
Defined.

End StoreRoundTrip.

Module StoreUpdates.
Import Identifier Manager Store StoreSpec StoreInvariants StoreOpen StoreWrites
  StoreRoundTrip.

Lemma set_columns_spec (g : string * string -> option sqlvalue)
    (items : list (string * string)) (row : gmap string sqlvalue) :
  NoDup items.*1 ->
  (forall name data_type,
      (name, data_type) ∈ items ->
      set_columns row (zip items.*1 (g <$> items)) !! name
      = g (name, data_type))
  /\ (forall name,
         name ∉ items.*1 ->
         set_columns row (zip items.*1 (g <$> items)) !! name = row !! name).
Proof.
  revert row. induction items as [|[n dt] items IH]; intros row Hnodup.
  - split; [|done]. intros name data_type Hin. by apply elem_of_nil in Hin.
  - rewrite !fmap_cons in *. cbn [fst] in *.
    apply NoDup_cons in Hnodup as [Hnotin Hnodup].
    cbn [zip zip_with]. unfold set_columns. cbn [foldl fst snd].
    match goal with
    | |- context [foldl _ ?r _] => set (row1 := r)
    end.
    fold (set_columns row1 (zip items.*1 (g <$> items))).
    destruct (IH row1 Hnodup) as [IHin IHout].
    assert (row1 !! n = g (n, dt)) as Hhead.
    { subst row1. destruct (g (n, dt)).
      - by rewrite lookup_insert_eq.
      - by rewrite lookup_delete_eq. }
    assert (forall name, name <> n -> row1 !! name = row !! name) as Hother.
    { intros name Hne. subst row1. destruct (g (n, dt)).
      - by rewrite lookup_insert_ne.
      - by rewrite lookup_delete_ne. }
    split.
    + intros name data_type Hin.
      apply elem_of_cons in Hin as [[= -> ->]|Hin].
      * by rewrite IHout.
      * by apply IHin.
    + intros name Hout. apply not_elem_of_cons in Hout as [Hne Hout].
      rewrite IHout by done. by apply Hother.
Qed.

Lemma sql_update_eq ty cols values bound (rowid : Z) conn t :
  tables (conn_db conn) !! ty = Some t ->
  cols <> [] ->
  has_columns t cols = true ->
  length values = length cols ->
  bind_parameters values = Return bound ->
  conn_read_only conn = false ->
  sql_update ty cols values rowid conn
  = Return (with_tables (conn_db conn)
              (<[ty := mkTable (columns t)
                         (if (1 <=? rowid)%Z then
                            match rows t !! Z.to_nat (rowid - 1) with
                            | Some row =>
                                <[Z.to_nat (rowid - 1) :=
                                    set_columns row (zip cols bound)]> (rows t)
                            | None => rows t
                            end
                          else rows t)]>
                 (tables (conn_db conn))), tt).
Proof.
  intros Ht Hcols Hhas Hlen Hbound Hro. unfold sql_update.
  rewrite Ht, Hhas, Hbound, Hro, Hlen, Nat.eqb_refl.
  by rewrite (bool_decide_eq_false_2 _ Hcols).
Qed.

Section Updates.
Variable HasDataType : string -> bool.
Variable JsonSerializeValue : string -> pyvalue -> result pyvalue.

Local Abbreviation stored := (stored_value HasDataType JsonSerializeValue).
Local Abbreviation serialized :=
  (serialized_value HasDataType JsonSerializeValue).
Local Abbreviation Update :=
  (UpdateAttributeContainer HasDataType JsonSerializeValue).

(** The statement [UpdateAttributeContainer] executes for a type with no
    row waiting. *)
Lemma UpdateAttributeContainer_eq o c schema (n : Z) w conn t :
  _is_open (self w) = true ->
  _read_only (self w) = false ->
  _connection (self w) = Some conn ->
  conn_read_only conn = false ->
  objects w !! o = Some c ->
  sequence_number (_identifier c) = Some n ->
  classes w !! CONTAINER_TYPE (class_of c) = Some (class_of c) ->
  default ∅ (SCHEMA (class_of c)) = schema ->
  schema <> ∅ ->
  well_typed HasDataType schema (attributes c) ->
  _write_cache (self w) !! CONTAINER_TYPE (class_of c) = None ->
  tables (conn_db conn) !! CONTAINER_TYPE (class_of c) = Some t ->
  has_columns t (sorted_items schema).*1 = true ->
  exists w',
    Update o w = (w', Return tt)
    /\ stored_rows w' (CONTAINER_TYPE (class_of c))
       = (if (1 <=? n)%Z then
            match rows t !! Z.to_nat (n - 1) with
            | Some row =>
                <[Z.to_nat (n - 1) :=
                    set_columns row
                      (zip (sorted_items schema).*1
                         (stored (attributes c) <$> sorted_items schema))]>
                  (rows t)
            | None => rows t
            end
          else rows t).
Proof.
  set (ty := CONTAINER_TYPE (class_of c)).
  intros Hopen Hwritable Hconn Hro Ho Hn Hcls Hschema Hne Htyped Hwc Ht Hhas.
  set (items := sorted_items schema) in *.
  assert (items.*1 <> []) as Hcols.
  { intros Hnil. apply (sorted_items_nonempty schema Hne).
    fold items. by destruct items. }
  unfold UpdateAttributeContainer.
  assert (_RaiseIfNotWritable w = (w, Return tt)) as Hw.
  { unfold _RaiseIfNotWritable, bind, get_self. cbv beta iota.
    by rewrite Hopen, Hwritable. }
  rewrite (StoreProofs.bind_Return _ _ _ _ _ Hw).
  unfold _WriteExistingAttributeContainer.
  assert (get_object o w = (w, Return c)) as Hget
    by (unfold get_object; by rewrite Ho).
  rewrite (StoreProofs.bind_Return _ _ _ _ _ Hget).
  cbv zeta. fold ty.
  assert (_CommitWriteCache ty w = (w, Return tt)) as Hcommit.
  { unfold _CommitWriteCache, bind, get_self. cbv beta iota zeta.
    by rewrite Hwc. }
  rewrite (StoreProofs.bind_Return _ _ _ _ _ Hcommit).
  assert (GetIdentifier o w = (w, Return (_identifier c))) as Hid.
  { unfold GetIdentifier. by rewrite (StoreProofs.bind_Return _ _ _ _ _ Hget). }
  rewrite (StoreProofs.bind_Return _ _ _ _ _ Hid).
  assert (_GetAttributeContainerSchema ty w = (w, Return schema)) as Hs.
  { unfold _GetAttributeContainerSchema, bind, get_classes, GetSchema.
    by rewrite Hcls, Hschema. }
  rewrite (StoreProofs.bind_Return _ _ _ _ _ Hs).
  assert (is_empty_schema schema = false) as ->
    by (by apply bool_decide_eq_false_2).
  rewrite (StoreProofs.bind_Return _ _ _ _ _
             (serialize_attributes_well_typed HasDataType JsonSerializeValue
                no_json_deserializer ty schema (attributes c) w Htyped)).
  cbv zeta. rewrite Hn. fold items.
  assert (bind_parameters (serialized (attributes c) <$> items)
          = Return (stored (attributes c) <$> items)) as Hbound.
  { apply (bind_parameters_well_typed HasDataType JsonSerializeValue
             no_json_deserializer schema);
      [done|].
    intros [name data_type] Hin. by apply elem_of_sorted_items. }
  assert (length (serialized (attributes c) <$> items) = length items.*1)
    as Hlen by (by rewrite !length_fmap).
  rewrite (try_execute_eq _ _ w conn _ _ Hconn
             (sql_update_eq ty items.*1 _ _ n conn t Ht Hcols Hhas Hlen Hbound
                Hro)).
  eexists. split; [reflexivity|].
  unfold stored_rows, database_of. simpl. by rewrite lookup_insert_eq.
Qed.

(** [UpdateAttributeContainer] rewrites the row whose rowid is the
    sequence number of the identifier of the container, and nothing else.
    On a store open for writing, for a container of a registered class
    whose type and attribute names are plain names, whose attributes of
    the schema have values of their data types that SQLite stores and
    whose identifier has a sequence number of 64 bits, with no row of the
    type waiting and the table of the type being the one the store makes
    for the schema, the call returns; the table has as many rows as
    before; every row of another rowid is as it was; and the row of that
    rowid, when there is one, holds for every attribute of the schema the
    stored value of the attribute of the container ([NULL] for one that is
    not set) and keeps its other columns. When no row has that rowid, as
    for a container that was never added, the update is lost without an
    error. *)
Theorem update_rewrites_the_row_of_the_identifier
    (container : objref) (cls : container_class)
    (attrs : gmap string pyvalue) (schema : gmap string string)
    (n : Z) (w : world) :
  _is_open (self w) = true ->
  _read_only (self w) = false ->
  conn_read_only <$> _connection (self w) = Some false ->
  class_of <$> objects w !! container = Some cls ->
  attributes <$> objects w !! container = Some attrs ->
  identifier_of w container ≫= sequence_number = Some n ->
  is_sqlite_integer n = true ->
  classes w !! CONTAINER_TYPE cls = Some cls ->
  plain_name (CONTAINER_TYPE cls) = true ->
  SCHEMA cls = Some schema ->
  is_empty_schema schema = false ->
  plain_schema schema = true ->
  well_typed HasDataType schema attrs ->
  _write_cache (self w) !! CONTAINER_TYPE cls = None ->
  columns <$> table_of w (CONTAINER_TYPE cls)
  = Some (created_columns schema) ->
  (Update container w).2 = Return tt
  /\ length (stored_rows (Update container w).1 (CONTAINER_TYPE cls))
     = length (stored_rows w (CONTAINER_TYPE cls))
  /\ (forall i : nat,
         (Z.of_nat i + 1)%Z <> n ->
         stored_rows (Update container w).1 (CONTAINER_TYPE cls) !! i
         = stored_rows w (CONTAINER_TYPE cls) !! i)
  /\ (forall (i : nat) (row : gmap string sqlvalue),
         (Z.of_nat i + 1)%Z = n ->
         stored_rows w (CONTAINER_TYPE cls) !! i = Some row ->
         exists row' : gmap string sqlvalue,
           stored_rows (Update container w).1 (CONTAINER_TYPE cls) !! i
           = Some row'
           /\ (forall name data_type,
                  schema !! name = Some data_type ->
                  row' !! name = stored attrs (name, data_type))
           /\ (forall name,
                  schema !! name = None -> row' !! name = row !! name)).
Proof.
  intros Hopen Hwritable Hro Hclass Hattrs Hid _ Hcls _ Hschema Hne _ Htyped
    Hwc Hcols.
  destruct (_connection (self w)) as [conn|] eqn:Hconn; [|done].
  injection Hro as Hro.
  unfold identifier_of in Hid.
  destruct (objects w !! container) as [c|] eqn:Ho; [|done].
  injection Hclass as <-. injection Hattrs as <-. simpl in Hid.
  set (ty := CONTAINER_TYPE (class_of c)) in *.
  apply bool_decide_eq_false in Hne.
  assert (default ∅ (SCHEMA (class_of c)) = schema) as Hschema'
    by (by rewrite Hschema).
  assert (stored_rows w ty = default [] (rows <$> tables (conn_db conn) !! ty))
    as Hstored.
  { unfold stored_rows, database_of. by rewrite Hconn. }
  unfold table_of, database_of in Hcols. rewrite Hconn in Hcols.
  simpl in Hcols.
  destruct (tables (conn_db conn) !! ty) as [t|] eqn:Ht; [|done].
  simpl in Hcols, Hstored. injection Hcols as Hcols.
  assert (has_columns t (sorted_items schema).*1 = true) as Hhas.
  { destruct t as [cs rs]. simpl in Hcols. subst cs.
    apply has_columns_created. }
  destruct (UpdateAttributeContainer_eq container c schema n w conn t Hopen
              Hwritable Hconn Hro Ho Hid Hcls Hschema' Hne Htyped Hwc Ht
              Hhas) as (w' & HUpdate & Hrows).
  fold ty in Hrows. rewrite HUpdate. cbn [fst snd]. split; [done|].
  rewrite Hrows, Hstored. clear Hrows HUpdate.
  split; [|split].
  - destruct (1 <=? n)%Z; [|done].
    destruct (rows t !! Z.to_nat (n - 1)); [|done]. apply length_insert.
  - intros i Hi. destruct (1 <=? n)%Z eqn:Hle; [|done].
    destruct (rows t !! Z.to_nat (n - 1)); [|done].
    apply list_lookup_insert_ne. apply Z.leb_le in Hle. lia.
  - intros i row Hi Hrow.
    replace (Z.to_nat (n - 1)) with i by lia.
    replace (1 <=? n)%Z with true by (symmetry; apply Z.leb_le; lia).
    rewrite Hrow. eexists. split.
    { apply list_lookup_insert_eq. by eapply lookup_lt_Some. }
    destruct (set_columns_spec (stored (attributes c)) (sorted_items schema)
                row (NoDup_sorted_items schema)) as [Hin Hout].
    split.
    + intros name data_type Hname. apply Hin.
      by apply elem_of_sorted_items.
    + intros name Hname. apply Hout. intros Hin'.
      apply list_elem_of_fmap in Hin' as ([name' data_type] & -> & Hin').
      apply elem_of_sorted_items in Hin'. simpl in Hname. congruence.
Qed.

End Updates.

Local Abbreviation updated_event_world :=
  (UpdateAttributeContainer standard_data_types no_json_serializer 0%nat
     stored_event_changed_world).1.

Local Abbreviation changed_attributes :=
  (delete "b" (<["a" := PyInt 5]> (event_attributes 1 "x"))).

Lemma update_rewrites_the_row_of_the_identifier_witness :
  (UpdateAttributeContainer standard_data_types no_json_serializer 0%nat
     stored_event_changed_world).2 = Return tt
  /\ length (stored_rows updated_event_world (CONTAINER_TYPE event_class))
     = length (stored_rows stored_event_changed_world
                 (CONTAINER_TYPE event_class))
  /\ (forall i : nat,
         (Z.of_nat i + 1)%Z <> 1%Z ->
         stored_rows updated_event_world (CONTAINER_TYPE event_class) !! i
         = stored_rows stored_event_changed_world
             (CONTAINER_TYPE event_class) !! i)
  /\ (forall (i : nat) (row : gmap string sqlvalue),
         (Z.of_nat i + 1)%Z = 1%Z ->
         stored_rows stored_event_changed_world
           (CONTAINER_TYPE event_class) !! i = Some row ->
         exists row' : gmap string sqlvalue,
           stored_rows updated_event_world (CONTAINER_TYPE event_class) !! i
           = Some row'
           /\ (forall name data_type,
                  (list_to_map [("a", "int"); ("b", "str")]
                     : gmap string string) !! name = Some data_type ->
                  row' !! name
                  = stored_value standard_data_types no_json_serializer
                      changed_attributes (name, data_type))
           /\ (forall name,
                  (list_to_map [("a", "int"); ("b", "str")]
                     : gmap string string) !! name = None ->
                  row' !! name = row !! name)).
Proof.
  apply (update_rewrites_the_row_of_the_identifier standard_data_types
           no_json_serializer 0%nat event_class changed_attributes
           (list_to_map [("a", "int"); ("b", "str")]) 1%Z
           stored_event_changed_world).
  13: { apply (check_well_typed_spec standard_data_types).
        vm_compute. reflexivity. }
  all: vm_compute; reflexivity.
Defined.

End StoreUpdates.
